(** * The trading core of gazprom_bot: indicators, signals, risk, execution,
      the backtest and live orchestrators, and the market-data circuit breaker.

    Each Python module is embedded as a Rocq module:
    - [risk/manager.py]            -> [Module Risk]
    - [execution/simulator.py]     -> [Module Exec]
    - [indicators/technicals.py]   -> [Module Technicals]
    - [strategy/gazp_breakout.py]  -> [Module Strategy]
    - [backtest/runner.py]         -> [Module Backtest]
    - [core/trading_engine.py]     -> [Module Engine]
    - [async_client.py]            -> [Module Breaker]
    [Module Py] holds the Python and pandas operations they share.  The
    modules that follow them ([ExecSpec], [BreakerSpec], [EngineSpec],
    [BacktestSpec], [TechSpec]) hold the predicates the properties are
    stated with, [Module Sample] the concrete inputs they are run on.

    Numbers.  A Python [float] is embedded as an exact rational [Q]; results
    are therefore stated up to [==] and hold for the arithmetic the code
    writes down, not for binary64 rounding.  A Python [int] is a [Z]; counts
    of bars and window lengths are [nat].  A value that may be [None], and
    a pandas cell that may be [NaN], is an [option].  A Python exception is
    the [Raise] outcome of [result].

    Frames.  A pandas frame is the list of its rows, and the index label of
    a row is its position; timestamps are these positions. *)

From Stdlib Require Import ZArith QArith Qround Qminmax Qabs.
From Stdlib Require Import List Bool Arith Lia Lqa.
Import ListNotations.

Open Scope Q_scope.

(* ================================================================== *)
(** * Python and pandas primitives used by the code                    *)
(* ================================================================== *)

Module Py.

(** Exceptions the embedded code can raise. *)
Inductive exn : Type :=
| ZeroDivisionError
| ValueError.

(** Outcome of a call: a returned value or a raised exception. *)
Inductive result (A : Type) : Type :=
| Ok (a : A)
| Raise (e : exn).
Arguments Ok {A} a.
Arguments Raise {A} e.

Definition bind {A B} (r : result A) (k : A -> result B) : result B :=
  match r with
  | Ok a => k a
  | Raise e => Raise e
  end.

(** Truth value of an [Optional[float]]: [None] and [0.0] are false. *)
Definition truthy (o : option Q) : bool :=
  match o with
  | Some q => negb (Qeq_bool q 0)
  | None => false
  end.

(** [a or b] on optional floats. *)
Definition por (a b : option Q) : option Q :=
  if truthy a then a else b.

(** Strict and weak comparisons of floats as booleans. *)
Definition Qlt_bool (a b : Q) : bool := negb (Qle_bool b a).
Definition Qgt_bool (a b : Q) : bool := Qlt_bool b a.
Definition Qge_bool (a b : Q) : bool := Qle_bool b a.

(** The free-text reasons the code attaches to signals and trades, one
    constructor per phrase; a text is the list of its phrases (the code
    joins them with a semicolon), the empty text is [[]]. *)
Inductive reason_part : Type :=
| BreakoutVolume          (* resistance breakout + volume *)
| RsiReversalCandle       (* RSI<30 + reversal candle *)
| MacdPositiveDivergence  (* positive MACD divergence *)
| RsiMacdNegDivergence    (* RSI>70 + bearish MACD divergence *)
| BreakdownVolume         (* support breakdown + volume *)
| StopLossHit             (* stop-loss reached *)
| TakeProfitHit.          (* take-profit reached *)

Definition reason_text : Type := list reason_part.

(** [x // y] on ints; Python raises when [y = 0].  [Z.div] rounds towards
    minus infinity like Python does. *)
Definition floordiv (x y : Z) : result Z :=
  if Z.eqb y 0 then Raise ZeroDivisionError else Ok (x / y)%Z.

(** [l[lo:hi]] for [0 <= lo]. *)
Definition slice {A} (lo hi : nat) (l : list A) : list A :=
  firstn (hi - lo) (skipn lo l).

(** [s.shift(1)]: every value moves one row down, the first row is NaN. *)
Definition shift1 (l : list (option Q)) : list (option Q) :=
  match l with
  | [] => []
  | _ :: _ => None :: removelast l
  end.

(** The non-NaN values of a window. *)
Fixpoint observations (l : list (option Q)) : list Q :=
  match l with
  | [] => []
  | Some q :: t => q :: observations t
  | None :: t => observations t
  end.

Definition list_max (l : list Q) : option Q :=
  match l with
  | [] => None
  | x :: t => Some (fold_left Qmax t x)
  end.

Definition list_min (l : list Q) : option Q :=
  match l with
  | [] => None
  | x :: t => Some (fold_left Qmin t x)
  end.

Definition Qsum (l : list Q) : Q := fold_left Qplus l 0.

Definition list_mean (l : list Q) : option Q :=
  match l with
  | [] => None
  | _ :: _ => Some (Qsum l / inject_Z (Z.of_nat (length l)))
  end.

(** [s.rolling(w, min_periods=1).agg()] for [w >= 1]: row [i] aggregates
    the non-NaN values of rows [i-w+1 .. i] (fewer at the start), NaN when
    there is none.  (pandas raises [ValueError] for [w = 0]; the callers
    below check for it.) *)
Definition rolling (agg : list Q -> option Q) (w : nat)
           (l : list (option Q)) : list (option Q) :=
  map (fun i => agg (observations (slice (i + 1 - w) (i + 1) l)))
      (seq 0 (length l)).

(** State of pandas' exponentially weighted mean ([adjust=False],
    [ignore_na=False]): the running mean (NaN before the first
    observation), the weight of the old mean and the observation count. *)
Record ewm_state : Type := {
  weighted : option Q;
  old_wt : Q;
  nobs : nat
}.

Definition ewm_out (minp : nat) (st : ewm_state) : option Q :=
  if (minp <=? nobs st)%nat then weighted st else None.

(** One row of the loop of [pandas._libs.window.aggregations.ewm]. *)
Definition ewm_step (alpha : Q) (st : ewm_state) (cur : option Q)
  : ewm_state :=
  match weighted st, cur with
  | Some w, Some c =>
      let ow := old_wt st * (1 - alpha) in
      {| weighted :=
           Some (if Qeq_bool w c then w
                 else (ow * w + alpha * c) / (ow + alpha));
         old_wt := 1;
         nobs := S (nobs st) |}
  | Some w, None =>
      {| weighted := Some w;
         old_wt := old_wt st * (1 - alpha);
         nobs := nobs st |}
  | None, Some c =>
      {| weighted := Some c; old_wt := old_wt st; nobs := S (nobs st) |}
  | None, None => st
  end.

Fixpoint ewm_loop (alpha : Q) (minp : nat) (st : ewm_state)
         (l : list (option Q)) : list (option Q) :=
  match l with
  | [] => []
  | cur :: t =>
      let st' := ewm_step alpha st cur in
      ewm_out minp st' :: ewm_loop alpha minp st' t
  end.

(** [s.ewm(alpha=alpha, adjust=False, min_periods=minp).mean()]. *)
Definition ewm_mean (alpha : Q) (minp : nat) (l : list (option Q))
  : list (option Q) :=
  match l with
  | [] => []
  | x :: t =>
      let st := {| weighted := x; old_wt := 1;
                   nobs := match x with Some _ => 1 | None => 0 end |} in
      ewm_out minp st :: ewm_loop alpha minp st t
  end.

End Py.

Import Py.

(* ================================================================== *)
(** * risk/manager.py                                                  *)
(* ================================================================== *)

Module Risk.

(** The fields of [RiskLimits] (declared in the configuration module)
    that the risk manager and the orchestrators read. *)
Record RiskLimits : Type := {
  max_trades_per_day : Z;
  daily_loss_limit_rub : Q;
  stop_loss_pct_max : Q;
  take_profit_pct_min : Q;
  take_profit_pct_max : Q;
  min_rr : Q;
  max_position_rub : Q
}.

Record DayStats : Type := {
  trades_count : Z;
  realized_pnl_rub : Q;
  realized_loss_rub : Q
}.

(** [DayStats()] *)
Definition DayStats_default : DayStats :=
  {| trades_count := 0; realized_pnl_rub := 0; realized_loss_rub := 0 |}.

Record Position : Type := {
  entry_price : Q;
  qty_shares : Z;
  sl_price : option Q;
  tp_price : option Q
}.

(** [Position(entry_price=e, qty_shares=q)] *)
Definition Position_new (e : Q) (q : Z) : Position :=
  {| entry_price := e; qty_shares := q; sl_price := None; tp_price := None |}.

Inductive ExitAction : Type := NONE | STOP | TAKE.

Record ExitDecision : Type := {
  action : ExitAction;
  exit_price : option Q;
  reason : reason_text
}.

Definition allow_new_trade (risk : RiskLimits) (stats : DayStats) : bool :=
  if (max_trades_per_day risk <=? trades_count stats)%Z then false
  else if Qle_bool (daily_loss_limit_rub risk) (realized_loss_rub stats)
       then false
       else true.

(** The two percentages chosen by [assign_stops_for_long]. *)
Definition sl_pct (risk : RiskLimits) : Q := stop_loss_pct_max risk.

Definition tp_pct_uncapped (risk : RiskLimits) : Q :=
  Qmax (take_profit_pct_min risk) (min_rr risk * sl_pct risk).

Definition tp_pct (risk : RiskLimits) : Q :=
  Qmin (tp_pct_uncapped risk) (take_profit_pct_max risk).

Definition assign_stops_for_long (risk : RiskLimits) (pos : Position)
  : Position :=
  {| entry_price := entry_price pos;
     qty_shares := qty_shares pos;
     sl_price := Some (entry_price pos * (1 - sl_pct risk));
     tp_price := Some (entry_price pos * (1 + tp_pct risk)) |}.

(** [level and last_price <= level] for the stop, and its mirror for the
    take-profit: an unset or zero level never triggers. *)
Definition stop_hit (pos : Position) (lp : Q) : bool :=
  match sl_price pos with
  | Some sl => truthy (Some sl) && Qle_bool lp sl
  | None => false
  end.

Definition take_hit (pos : Position) (lp : Q) : bool :=
  match tp_price pos with
  | Some tp => truthy (Some tp) && Qle_bool tp lp
  | None => false
  end.

Definition check_exit_rules_for_long (pos : Position)
           (last_price : option Q) : ExitDecision :=
  match last_price with
  | None => {| action := NONE; exit_price := None; reason := [] |}
  | Some lp =>
      if Qle_bool lp 0 || (qty_shares pos <=? 0)%Z
      then {| action := NONE; exit_price := None; reason := [] |}
      else if stop_hit pos lp
      then {| action := STOP; exit_price := sl_price pos;
              reason := [StopLossHit] |}
      else if take_hit pos lp
      then {| action := TAKE; exit_price := tp_price pos;
              reason := [TakeProfitHit] |}
      else {| action := NONE; exit_price := None; reason := [] |}
  end.

(** The realized result of a closing trade. *)
Definition close_pnl (entry_price exit_price : Q) (qty_shares : Z)
           (commission_rub : Q) : Q :=
  (exit_price - entry_price) * inject_Z qty_shares - commission_rub.

Definition update_day_stats_on_close (stats : DayStats)
           (entry_price exit_price : Q) (qty_shares : Z)
           (commission_rub : Q) : DayStats :=
  let pnl := close_pnl entry_price exit_price qty_shares commission_rub in
  {| trades_count := trades_count stats + 1;
     realized_pnl_rub := realized_pnl_rub stats + pnl;
     realized_loss_rub :=
       if Qlt_bool pnl 0
       then realized_loss_rub stats + Qabs pnl
       else realized_loss_rub stats |}.

End Risk.

Import Risk.

(* ================================================================== *)
(** * execution/simulator.py                                           *)
(* ================================================================== *)

Module Exec.

Inductive Side : Type := BUY | SELL.

Record ExecutionInput : Type := {
  ts : nat;
  side : Side;
  best_bid : option Q;
  best_ask : option Q;
  lot_size : Z;
  max_position_rub : Q;
  commission_pct_per_side : Q;
  slippage_pct : Q;
  desired_position_shares : option Z
}.

Record ExecutedTrade : Type := {
  t_ts : nat;
  t_side : Side;
  exec_price : Q;
  qty_lots : Z;
  qty_shares : Z;
  gross_value : Q;
  commission : Q;
  slippage_value : Q;
  net_value : Q;
  reason : reason_text
}.

Definition position_value_limit_sizing (price : option Q) (lot_size : Z)
           (cash_limit_rub : Q) : Z * Z :=
  match price with
  | None => (0, 0)%Z
  | Some price =>
      if Qle_bool price 0 || (lot_size <=? 0)%Z || Qle_bool cash_limit_rub 0
      then (0, 0)%Z
      else
        let max_shares := Qfloor (cash_limit_rub / price) in
        let qty_lots := (max_shares / lot_size)%Z in
        let qty_lots := Z.max 0 qty_lots in
        (qty_lots, qty_lots * lot_size)%Z
  end.

Definition calc_exec_price (side : Side) (best_bid best_ask : option Q)
           (slippage_pct : Q) : option Q :=
  match side with
  | BUY =>
      match best_ask with
      | None => None
      | Some a => if Qle_bool a 0 then None else Some (a * (1 + slippage_pct))
      end
  | SELL =>
      match best_bid with
      | None => None
      | Some b => if Qle_bool b 0 then None else Some (b * (1 - slippage_pct))
      end
  end.

(** Step 2 of [execute]: the lots and shares to fill at [exec_price]. *)
Definition sizing (inp : ExecutionInput) (exec_price : Q) : result (Z * Z) :=
  match desired_position_shares inp with
  | Some d =>
      if negb (Z.eqb d 0) && (0 <? d)%Z
      then
        bind (floordiv d (lot_size inp)) (fun q =>
          let qty_lots := Z.max 0 q in
          let qty_shares := (qty_lots * lot_size inp)%Z in
          if Qlt_bool (max_position_rub inp) (inject_Z qty_shares * exec_price)
          then Ok (position_value_limit_sizing (Some exec_price) (lot_size inp)
                     (max_position_rub inp))
          else Ok (qty_lots, qty_shares))
      else Ok (position_value_limit_sizing (Some exec_price) (lot_size inp)
                 (max_position_rub inp))
  | None =>
      Ok (position_value_limit_sizing (Some exec_price) (lot_size inp)
            (max_position_rub inp))
  end.

Definition execute (inp : ExecutionInput) (reason : reason_text)
  : result (option ExecutedTrade) :=
  match calc_exec_price (side inp) (best_bid inp) (best_ask inp)
                        (slippage_pct inp) with
  | None => Ok None
  | Some exec_price =>
      bind (sizing inp exec_price) (fun '(qty_lots, qty_shares) =>
        if (qty_shares <=? 0)%Z then Ok None
        else
          let gross_value := exec_price * inject_Z qty_shares in
          let commission := gross_value * commission_pct_per_side inp in
          let slip_unit :=
            match side inp with
            | BUY =>
                match por (best_ask inp) (Some exec_price) with
                | Some r => exec_price - r
                | None => 0
                end
            | SELL =>
                match por (best_bid inp) (Some exec_price) with
                | Some r => r - exec_price
                | None => 0
                end
            end in
          let slip_unit := Qmax 0 slip_unit in
          let slippage_value := slip_unit * inject_Z qty_shares in
          let net_value :=
            match side inp with
            | BUY => - (gross_value + commission)
            | SELL => gross_value - commission
            end in
          Ok (Some {| t_ts := ts inp;
                      t_side := side inp;
                      exec_price := exec_price;
                      qty_lots := qty_lots;
                      qty_shares := qty_shares;
                      gross_value := gross_value;
                      commission := commission;
                      slippage_value := slippage_value;
                      net_value := net_value;
                      reason := reason |}))
  end.

End Exec.

(* ================================================================== *)
(** * indicators/technicals.py                                         *)
(* ================================================================== *)

Module Technicals.

(** One row of the candle frame; the position of the row in the list is its
    index label.  A column the frame lacks reads as NaN in every row. *)
Record Candle : Type := {
  open_ : option Q;
  high : option Q;
  low : option Q;
  close : option Q;
  volume : option Q
}.

(** A candle with the indicator columns of [attach_all]. *)
Record Row : Type := {
  candle : Candle;
  sma20 : option Q;
  ema9 : option Q;
  rsi14 : option Q;
  macd : option Q;
  macd_signal : option Q;
  macd_hist : option Q;
  vol_sma20 : option Q
}.

(** Windows, spans and periods are positive: pandas rejects a rolling
    window below [min_periods = 1] and a smoothing factor outside (0, 1],
    and [1 / period] fails for a zero period. *)
Record IndicatorParams : Type := {
  sma_window : positive;
  ema_span : positive;
  rsi_period : positive;
  macd_fast : positive;
  macd_slow : positive;
  macd_signal_span : positive;
  vol_avg_window : positive
}.

(** [IndicatorParams()] *)
Definition IndicatorParams_default : IndicatorParams :=
  {| sma_window := 20; ema_span := 9; rsi_period := 14; macd_fast := 12;
     macd_slow := 26; macd_signal_span := 9; vol_avg_window := 20 |}.

(** NaN-propagating arithmetic on cells. *)
Definition lift2 (f : Q -> Q -> Q) (a b : option Q) : option Q :=
  match a, b with
  | Some x, Some y => Some (f x y)
  | _, _ => None
  end.

Definition series_sub (a b : list (option Q)) : list (option Q) :=
  map (fun '(x, y) => lift2 Qminus x y) (combine a b).

Definition compute_sma (series : list (option Q)) (window : positive)
  : list (option Q) :=
  rolling list_mean (Pos.to_nat window) series.

(** The smoothing factor of [ewm(span=span)]. *)
Definition alpha_of_span (span : positive) : Q :=
  2 / (inject_Z (Z.pos span) + 1).

Definition compute_ema (series : list (option Q)) (span : positive)
  : list (option Q) :=
  ewm_mean (alpha_of_span span) 1 series.

(** [c.diff()] *)
Definition diff (c : list (option Q)) : list (option Q) :=
  match c with
  | [] => []
  | _ :: t => None :: series_sub t c
  end.

(** [delta.clip(lower=0)] and [-delta.clip(upper=0)] *)
Definition gains_of (delta : list (option Q)) : list (option Q) :=
  map (option_map (fun d => Qmax d 0)) delta.

Definition losses_of (delta : list (option Q)) : list (option Q) :=
  map (option_map (fun d => - Qmin d 0)) delta.

(** [100 - 100 / (1 + avg_gain / avg_loss)] on one row.  A zero [avg_loss]
    makes the float quotient infinite or NaN; the cell is then overwritten by
    the first [where] below, so [None] stands for it. *)
Definition rsi_formula (avg_gain avg_loss : option Q) : option Q :=
  match avg_gain, avg_loss with
  | Some g, Some l =>
      if Qeq_bool l 0 then None else Some (100 - 100 / (1 + g / l))
  | _, _ => None
  end.

(** [v.where(cond != 0, other)] on one row: the value is kept where the
    condition cell differs from zero (NaN differs from zero), else replaced. *)
Definition where_nonzero (cond v : option Q) (other : Q) : option Q :=
  match cond with
  | Some c => if Qeq_bool c 0 then Some other else v
  | None => v
  end.

Definition rsi_row (avg_gain avg_loss : option Q) : option Q :=
  let rsi := rsi_formula avg_gain avg_loss in
  let rsi := where_nonzero avg_loss rsi 100 in
  let rsi := where_nonzero avg_gain rsi 0 in
  rsi.

(** The two smoothed averages of [compute_rsi]. *)
Definition avg_gain (close : list (option Q)) (period : positive)
  : list (option Q) :=
  ewm_mean (1 / inject_Z (Z.pos period)) (Pos.to_nat period)
           (gains_of (diff close)).

Definition avg_loss (close : list (option Q)) (period : positive)
  : list (option Q) :=
  ewm_mean (1 / inject_Z (Z.pos period)) (Pos.to_nat period)
           (losses_of (diff close)).

Definition compute_rsi (close : list (option Q)) (period : positive)
  : list (option Q) :=
  map (fun '(g, l) => rsi_row g l)
      (combine (avg_gain close period) (avg_loss close period)).

Definition compute_macd (close : list (option Q)) (fast slow signal : positive)
  : list (option Q) * list (option Q) * list (option Q) :=
  let ema_fast := ewm_mean (alpha_of_span fast) 1 close in
  let ema_slow := ewm_mean (alpha_of_span slow) 1 close in
  let macd_line := series_sub ema_fast ema_slow in
  let signal_line := ewm_mean (alpha_of_span signal) 1 macd_line in
  let hist := series_sub macd_line signal_line in
  (macd_line, signal_line, hist).

Definition cell (l : list (option Q)) (i : nat) : option Q := nth i l None.

Definition attach_all (candles_df : list Candle) (p : IndicatorParams)
  : list Row :=
  let closes := map close candles_df in
  let sma := compute_sma closes (sma_window p) in
  let ema := compute_ema closes (ema_span p) in
  let rsi := compute_rsi closes (rsi_period p) in
  let '(macd_line, signal_line, hist) :=
    compute_macd closes (macd_fast p) (macd_slow p) (macd_signal_span p) in
  let vol := compute_sma (map volume candles_df) (vol_avg_window p) in
  map (fun '(i, c) =>
         {| candle := c;
            sma20 := cell sma i;
            ema9 := cell ema i;
            rsi14 := cell rsi i;
            macd := cell macd_line i;
            macd_signal := cell signal_line i;
            macd_hist := cell hist i;
            vol_sma20 := cell vol i |})
      (combine (seq 0 (length candles_df)) candles_df).

End Technicals.

Import Technicals.

(* ================================================================== *)
(** * strategy/gazp_breakout.py                                        *)
(* ================================================================== *)

Module Strategy.

(** Window lengths and bar counts are naturals. *)
Record StrategyParams : Type := {
  lookback_swing : nat;
  volume_filter : bool;
  rsi_oversold : Q;
  rsi_overbought : Q;
  macd_div_lookback : nat;
  engulf_body_ratio : Q;
  hammer_tail_ratio : Q;
  min_bars_for_indicators : nat
}.

(** [StrategyParams()] *)
Definition StrategyParams_default : StrategyParams :=
  {| lookback_swing := 10;
     volume_filter := true;
     rsi_oversold := 30;
     rsi_overbought := 70;
     macd_div_lookback := 20;
     engulf_body_ratio := 55 # 100;
     hammer_tail_ratio := 6 # 10;
     min_bars_for_indicators := 30 |}.

Inductive SignalType : Type := BUY | SELL | CLOSE_LONG.

(** [ts] is the index label of the triggering candle, which is its position
    in the frame. *)
Record Signal : Type := {
  type : SignalType;
  ts : nat;
  price : Q;
  reason : reason_text
}.

(** The two columns of [_swing_levels], for [lookback_swing >= 1]. *)
Definition swing_high_prev (p : StrategyParams) (df : list Row)
  : list (option Q) :=
  shift1 (rolling list_max (lookback_swing p)
                  (map (fun r => high (candle r)) df)).

Definition swing_low_prev (p : StrategyParams) (df : list Row)
  : list (option Q) :=
  shift1 (rolling list_min (lookback_swing p)
                  (map (fun r => low (candle r)) df)).

Definition swing_levels (p : StrategyParams) (df : list Row)
  : list (option Q) * list (option Q) :=
  (swing_high_prev p df, swing_low_prev p df).

(** [max(1e-9, hi - lo)] *)
Definition full_range (hi lo : Q) : Q := Qmax (1 # 1000000000) (hi - lo).

Definition is_bullish_engulfing
           (prev_open prev_close curr_open curr_close curr_high curr_low
              : option Q) (min_body_ratio : Q) : bool :=
  match prev_open, prev_close, curr_open, curr_close, curr_high, curr_low with
  | Some po, Some pc, Some co, Some cc, Some ch, Some cl =>
      let prev_bear := Qlt_bool pc po in
      let curr_body := Qabs (cc - co) in
      let rng := full_range ch cl in
      let body_ok := Qge_bool (curr_body / rng) min_body_ratio in
      let engulf := Qle_bool co pc && Qge_bool cc po in
      prev_bear && body_ok && engulf && Qgt_bool cc co
  | _, _, _, _, _, _ => false
  end.

Definition is_hammer (curr_open curr_close curr_high curr_low : option Q)
           (min_tail_ratio : Q) : bool :=
  match curr_open, curr_close, curr_high, curr_low with
  | Some co, Some cc, Some ch, Some cl =>
      let rng := full_range ch cl in
      let lower_tail := (Qmin co cc - cl) / rng in
      let upper_tail := (ch - Qmax co cc) / rng in
      let close_near_high := Qle_bool ((ch - cc) / rng) (2 # 10) in
      Qge_bool lower_tail min_tail_ratio
      && Qle_bool upper_tail (3 # 10)
      && close_near_high
  | _, _, _, _ => false
  end.

(** Position of the first cell that beats every earlier non-NaN cell;
    [None] when every cell is NaN.  [best] carries the position and value
    of the current winner, [i] the position of the head of [l]. *)
Fixpoint arg_first (better : Q -> Q -> bool) (l : list (option Q))
         (i : nat) (best : option (nat * Q)) : option nat :=
  match l with
  | [] => option_map fst best
  | None :: t => arg_first better t (S i) best
  | Some x :: t =>
      match best with
      | None => arg_first better t (S i) (Some (i, x))
      | Some (_, b) =>
          if better x b then arg_first better t (S i) (Some (i, x))
          else arg_first better t (S i) best
      end
  end.

(** [s.idxmin()] and [s.idxmax()], as positions. *)
Definition idxmin (l : list (option Q)) : option nat :=
  arg_first Qlt_bool l 0 None.

Definition idxmax (l : list (option Q)) : option nat :=
  arg_first Qgt_bool l 0 None.

(** [s.isna().all()] *)
Definition all_nan (l : list (option Q)) : bool :=
  forallb (fun c => match c with None => true | Some _ => false end) l.

(** Comparisons of cells: any comparison with NaN is false. *)
Definition cell_lt (a b : option Q) : bool :=
  match a, b with
  | Some x, Some y => Qlt_bool x y
  | _, _ => false
  end.

Definition is_nil {A} (l : list A) : bool :=
  match l with [] => true | _ :: _ => false end.

(** The common body of the two divergence tests: [arg] picks the extremum
    of each half of the price window, [price_cmp] compares the prices and
    [macd_cmp] the histogram values at the right and the left extremum.
    An all-NaN half makes [idxmin]/[idxmax] fail. *)
Definition divergence (arg : list (option Q) -> option nat)
           (price_cmp macd_cmp : option Q -> option Q -> bool)
           (df : list Row) (idx lookback : nat) : result bool :=
  if (idx <? 5)%nat then Ok false
  else
    let sub := slice (idx - lookback) (idx + 1) df in
    let price := map (fun r => close (candle r)) sub in
    let macdh := map macd_hist sub in
    if (length sub <? 5)%nat || all_nan price || all_nan macdh then Ok false
    else
      let mid := (length sub / 2)%nat in
      let left := firstn mid price in
      let right := skipn mid price in
      if is_nil left || is_nil right then Ok false
      else
        match arg left with
        | None => Raise ValueError
        | Some left_idx =>
            match arg right with
            | None => Raise ValueError
            | Some r =>
                let right_idx := (mid + r)%nat in
                let price_div :=
                  price_cmp (cell price right_idx) (cell price left_idx) in
                let macd_div :=
                  macd_cmp (cell macdh right_idx) (cell macdh left_idx) in
                Ok (price_div && macd_div)
            end
        end.

Definition has_positive_macd_divergence (df : list Row) (idx lookback : nat)
  : result bool :=
  divergence idxmin cell_lt (fun a b => cell_lt b a) df idx lookback.

Definition has_negative_macd_divergence (df : list Row) (idx lookback : nat)
  : result bool :=
  divergence idxmax (fun a b => cell_lt b a) cell_lt df idx lookback.

(** The volume filter of one bar. *)
Definition vol_ok (p : StrategyParams) (row : Row) : bool :=
  if volume_filter p then
    match volume (candle row), vol_sma20 row with
    | Some v, Some m => Qgt_bool v m
    | _, _ => true
    end
  else true.

(** Rule 1 on one bar, given the bar's previous swing high. *)
Definition breakout_buy (p : StrategyParams) (row : Row)
           (swing_high : option Q) : bool :=
  match high (candle row), swing_high with
  | Some h, Some s => Qgt_bool h s && vol_ok p row
  | _, _ => false
  end.

(** Rule 2 on one bar. *)
Definition rsi_buy (p : StrategyParams) (prev row : Row) : bool :=
  let c := candle row in
  let bull_engulf :=
    is_bullish_engulfing (open_ (candle prev)) (close (candle prev))
                         (open_ c) (close c) (high c) (low c)
                         (engulf_body_ratio p) in
  let hammer :=
    is_hammer (open_ c) (close c) (high c) (low c) (hammer_tail_ratio p) in
  match rsi14 row with
  | Some r => Qlt_bool r (rsi_oversold p) && (bull_engulf || hammer)
  | None => false
  end.

Definition buy_reason (breakout rsi div : bool) : reason_text :=
  (if breakout then [BreakoutVolume] else [])
  ++ (if rsi then [RsiReversalCandle] else [])
  ++ (if div then [MacdPositiveDivergence] else []).

Definition dummy_row : Row :=
  {| candle := {| open_ := None; high := None; low := None; close := None;
                  volume := None |};
     sma20 := None; ema9 := None; rsi14 := None; macd := None;
     macd_signal := None; macd_hist := None; vol_sma20 := None |}.

(** The body of the main loop of [generate_signals] for bar [i >= 1]: the
    signal the bar appends, if any.  [sh] and [sl] are the swing columns. *)
Definition eval_bar (p : StrategyParams) (df : list Row)
           (sh sl : list (option Q)) (i : nat) : result (option Signal) :=
  let row := nth i df dummy_row in
  let prev := nth (i - 1) df dummy_row in
  let c := candle row in
  let breakout := breakout_buy p row (cell sh i) in
  let rsib := rsi_buy p prev row in
  bind (has_positive_macd_divergence df i (macd_div_lookback p))
    (fun macd_pos_div =>
       if breakout || rsib || macd_pos_div then
         match close c with
         | Some cl =>
             Ok (Some {| type := BUY; ts := i; price := cl;
                         reason := buy_reason breakout rsib macd_pos_div |})
         | None => Ok None
         end
       else
         let rsi_sell :=
           match rsi14 row with
           | Some r => Qgt_bool r (rsi_overbought p)
           | None => false
           end in
         bind (has_negative_macd_divergence df i (macd_div_lookback p))
           (fun macd_neg_div =>
              if rsi_sell && macd_neg_div then
                match close c, high c with
                | Some cl, _ =>
                    Ok (Some {| type := SELL; ts := i; price := cl;
                                reason := [RsiMacdNegDivergence] |})
                | None, Some h =>
                    Ok (Some {| type := SELL; ts := i; price := h;
                                reason := [RsiMacdNegDivergence] |})
                | None, None => Ok None
                end
              else
                match low c, cell sl i with
                | Some lo, Some s =>
                    if vol_ok p row && Qlt_bool lo s then
                      match close c with
                      | Some cl =>
                          Ok (Some {| type := CLOSE_LONG; ts := i; price := cl;
                                      reason := [BreakdownVolume] |})
                      | None =>
                          Ok (Some {| type := CLOSE_LONG; ts := i; price := lo;
                                      reason := [BreakdownVolume] |})
                      end
                    else Ok None
                | _, _ => Ok None
                end)).

(** The main loop over the bars [idxs], in order; an exception in one bar
    ends the call. *)
Fixpoint scan (p : StrategyParams) (df : list Row) (sh sl : list (option Q))
         (idxs : list nat) : result (list Signal) :=
  match idxs with
  | [] => Ok []
  | i :: t =>
      bind (eval_bar p df sh sl i) (fun o =>
        bind (scan p df sh sl t) (fun rest =>
          Ok (match o with
              | Some s => s :: rest
              | None => rest
              end)))
  end.

(** [generate_signals]: the length guard, the swing levels (pandas rejects
    a rolling window of 0 with [min_periods = 1]) and the main loop. *)
Definition generate_signals (p : StrategyParams) (candles_df : list Row)
  : result (list Signal) :=
  if (length candles_df <? min_bars_for_indicators p)%nat then Ok []
  else if (lookback_swing p =? 0)%nat then Raise ValueError
  else
    let '(sh, sl) := swing_levels p candles_df in
    scan p candles_df sh sl (seq 1 (length candles_df - 1)).

End Strategy.

(* ================================================================== *)
(** * backtest/runner.py                                               *)
(* ================================================================== *)

Module Backtest.

(** The configuration values the orchestrators read: the risk limits and
    the two execution parameters. *)
Record Config : Type := {
  risk : RiskLimits;
  commission_pct_per_side : Q;
  slippage_pct : Q
}.

Definition best_bid_ask_from_bar (row : Row) : option Q * option Q :=
  match close (candle row), high (candle row), low (candle row) with
  | Some close, Some high, Some low =>
      let rng := Qmax (1 # 1000000000) (high - low) in
      let best_bid := close - (25 # 100) * rng in
      let best_ask := close + (25 # 100) * rng in
      let best_bid := Qmax low (Qmin best_bid close) in
      let best_ask := Qmin high (Qmax best_ask close) in
      (Some best_bid, Some best_ask)
  | _, _, _ => (None, None)
  end.

(** One row of the trade log. *)
Record TradeRow : Type := {
  entry_ts : nat;
  exit_ts : nat;
  row_entry_price : Q;
  row_exit_price : Q;
  row_qty_shares : Z;
  commission_rub : Q;
  pnl_rub : Q;
  pnl_pct : Q;
  entry_reason : reason_text;
  exit_reason : reason_text
}.

(** The variables the execution loop of [run] carries from signal to
    signal. *)
Record RunState : Type := {
  open_pos : option Position;
  entry_trade_meta : option Exec.ExecutedTrade;
  day_stats : DayStats;
  trades_rows : list TradeRow
}.

Definition RunState_init : RunState :=
  {| open_pos := None; entry_trade_meta := None;
     day_stats := DayStats_default; trades_rows := [] |}.

Definition count_open (stats : DayStats) : DayStats :=
  {| trades_count := trades_count stats + 1;
     realized_pnl_rub := realized_pnl_rub stats;
     realized_loss_rub := realized_loss_rub stats |}.

(** The BUY branch of the loop body, with the quotes of the trigger bar. *)
Definition on_buy (cfg : Config) (lot_size : Z) (st : RunState)
           (sig : Strategy.Signal) (best_bid best_ask : option Q)
  : result RunState :=
  match open_pos st with
  | Some _ => Ok st
  | None =>
      if negb (allow_new_trade (risk cfg) (day_stats st)) then Ok st
      else
        let inp :=
          {| Exec.ts := Strategy.ts sig;
             Exec.side := Exec.BUY;
             Exec.best_bid := best_bid;
             Exec.best_ask := best_ask;
             Exec.lot_size := lot_size;
             Exec.max_position_rub := Risk.max_position_rub (risk cfg);
             Exec.commission_pct_per_side := commission_pct_per_side cfg;
             Exec.slippage_pct := slippage_pct cfg;
             Exec.desired_position_shares := None |} in
        bind (Exec.execute inp (Strategy.reason sig)) (fun exec_in =>
          match exec_in with
          | None => Ok st
          | Some t =>
              if (Exec.qty_shares t <=? 0)%Z then Ok st
              else
                let pos := Position_new (Exec.exec_price t)
                                        (Exec.qty_shares t) in
                Ok {| open_pos := Some (assign_stops_for_long (risk cfg) pos);
                      entry_trade_meta := Some t;
                      day_stats := count_open (day_stats st);
                      trades_rows := trades_rows st |}
          end)
  end.

(** The SELL / CLOSE_LONG branch of the loop body. *)
Definition on_sell (cfg : Config) (lot_size : Z) (st : RunState)
           (sig : Strategy.Signal) (best_bid best_ask : option Q)
  : result RunState :=
  match open_pos st, entry_trade_meta st with
  | Some pos, Some meta =>
      let inp :=
        {| Exec.ts := Strategy.ts sig;
           Exec.side := Exec.SELL;
           Exec.best_bid := best_bid;
           Exec.best_ask := best_ask;
           Exec.lot_size := lot_size;
           Exec.max_position_rub := Risk.max_position_rub (risk cfg);
           Exec.commission_pct_per_side := commission_pct_per_side cfg;
           Exec.slippage_pct := slippage_pct cfg;
           Exec.desired_position_shares := Some (Risk.qty_shares pos) |} in
      bind (Exec.execute inp (Strategy.reason sig)) (fun exec_out =>
        match exec_out with
        | None => Ok st
        | Some t =>
            if (Exec.qty_shares t <=? 0)%Z then Ok st
            else
              let commission_total :=
                Exec.commission meta + Exec.commission t in
              let pnl :=
                (Exec.exec_price t - entry_price pos)
                * inject_Z (Risk.qty_shares pos) - commission_total in
              if Qeq_bool (entry_price pos) 0 then Raise ZeroDivisionError
              else
                let pct :=
                  (Exec.exec_price t - entry_price pos) / entry_price pos in
                let stats :=
                  update_day_stats_on_close (day_stats st) (entry_price pos)
                    (Exec.exec_price t) (Risk.qty_shares pos)
                    commission_total in
                Ok {| open_pos := None;
                      entry_trade_meta := None;
                      day_stats := stats;
                      trades_rows :=
                        trades_rows st ++
                        [ {| entry_ts := Exec.t_ts meta;
                             exit_ts := Exec.t_ts t;
                             row_entry_price := entry_price pos;
                             row_exit_price := Exec.exec_price t;
                             row_qty_shares := Risk.qty_shares pos;
                             commission_rub := commission_total;
                             pnl_rub := pnl;
                             pnl_pct := pct;
                             entry_reason := Exec.reason meta;
                             exit_reason := Exec.reason t |} ] |}
        end)
  | _, _ => Ok st
  end.

(** The body of [for sig in signals] with explicit quotes. *)
Definition on_signal (cfg : Config) (lot_size : Z) (st : RunState)
           (sig : Strategy.Signal) (best_bid best_ask : option Q)
  : result RunState :=
  match Strategy.type sig with
  | Strategy.BUY => on_buy cfg lot_size st sig best_bid best_ask
  | Strategy.SELL | Strategy.CLOSE_LONG =>
      on_sell cfg lot_size st sig best_bid best_ask
  end.

(** The body of [for sig in signals]: a signal whose label is not in the
    frame is skipped, otherwise the quotes come from its bar. *)
Definition step (cfg : Config) (lot_size : Z) (cdf : list Row)
           (st : RunState) (sig : Strategy.Signal) : result RunState :=
  match nth_error cdf (Strategy.ts sig) with
  | None => Ok st
  | Some bar =>
      let '(best_bid, best_ask) := best_bid_ask_from_bar bar in
      on_signal cfg lot_size st sig best_bid best_ask
  end.

Fixpoint run_signals (cfg : Config) (lot_size : Z) (cdf : list Row)
         (st : RunState) (signals : list Strategy.Signal) : result RunState :=
  match signals with
  | [] => Ok st
  | sig :: t =>
      bind (step cfg lot_size cdf st sig) (fun st' =>
        run_signals cfg lot_size cdf st' t)
  end.

(** [run], from the fetched candles to the end of the execution loop; the
    metrics and the CSV export read [trades_rows] and change nothing. *)
Definition run (cfg : Config) (lot_size : Z) (candles : list Candle)
  : result RunState :=
  match candles with
  | [] => Ok RunState_init
  | _ :: _ =>
      let cdf := attach_all candles IndicatorParams_default in
      bind (Strategy.generate_signals Strategy.StrategyParams_default cdf)
        (fun signals => run_signals cfg lot_size cdf RunState_init signals)
  end.

End Backtest.

(* ================================================================== *)
(** * core/trading_engine.py                                           *)
(* ================================================================== *)

Module Engine.

Import Backtest.

(** The L1 snapshot fields the engine reads. *)
Record MarketData : Type := {
  BID : option Q;
  OFFER : option Q;
  LAST : option Q
}.

Record TradeRecord : Type := {
  signal : Strategy.Signal;
  execution : Exec.ExecutedTrade;
  position_after : option Position;
  pnl_realized : option Q
}.

(** The engine fields touched while a signal is processed: the session's
    position, day statistics and running PnL, the trade history and the
    executed-trades counter. *)
Record EngineState : Type := {
  current_position : option Position;
  day_stats : DayStats;
  total_pnl : Q;
  trade_history : list TradeRecord;
  trades_executed : Z
}.

Definition EngineState_init : EngineState :=
  {| current_position := None; day_stats := DayStats_default;
     total_pnl := 0; trade_history := []; trades_executed := 0 |}.

Definition process_buy (cfg : Config) (lot_size : Z) (st : EngineState)
           (sig : Strategy.Signal) (market_data : MarketData)
  : result EngineState :=
  match current_position st with
  | Some _ => Ok st
  | None =>
      let best_bid := BID market_data in
      let best_ask := OFFER market_data in
      let last_price := por (LAST market_data) (OFFER market_data) in
      if negb (truthy best_ask) || negb (truthy last_price) then Ok st
      else
        let inp :=
          {| Exec.ts := Strategy.ts sig;
             Exec.side := Exec.BUY;
             Exec.best_bid := best_bid;
             Exec.best_ask := best_ask;
             Exec.lot_size := lot_size;
             Exec.max_position_rub := Risk.max_position_rub (risk cfg);
             Exec.commission_pct_per_side := commission_pct_per_side cfg;
             Exec.slippage_pct := slippage_pct cfg;
             Exec.desired_position_shares := None |} in
        bind (Exec.execute inp (Strategy.reason sig)) (fun executed_trade =>
          match executed_trade with
          | None => Ok st
          | Some t =>
              let position :=
                assign_stops_for_long (risk cfg)
                  (Position_new (Exec.exec_price t) (Exec.qty_shares t)) in
              Ok {| current_position := Some position;
                    day_stats := day_stats st;
                    total_pnl := total_pnl st;
                    trade_history :=
                      trade_history st ++
                      [ {| signal := sig; execution := t;
                           position_after := Some position;
                           pnl_realized := None |} ];
                    trades_executed := trades_executed st + 1 |}
          end)
  end.

Definition process_sell (cfg : Config) (lot_size : Z) (st : EngineState)
           (sig : Strategy.Signal) (market_data : MarketData)
  : result EngineState :=
  match current_position st with
  | None => Ok st
  | Some position =>
      let best_bid := BID market_data in
      let best_ask := OFFER market_data in
      if negb (truthy best_bid) then Ok st
      else
        let inp :=
          {| Exec.ts := Strategy.ts sig;
             Exec.side := Exec.SELL;
             Exec.best_bid := best_bid;
             Exec.best_ask := best_ask;
             Exec.lot_size := lot_size;
             Exec.max_position_rub := Risk.max_position_rub (risk cfg);
             Exec.commission_pct_per_side := commission_pct_per_side cfg;
             Exec.slippage_pct := slippage_pct cfg;
             Exec.desired_position_shares :=
               Some (Risk.qty_shares position) |} in
        bind (Exec.execute inp (Strategy.reason sig)) (fun executed_trade =>
          match executed_trade with
          | None => Ok st
          | Some t =>
              let pnl :=
                (Exec.exec_price t - entry_price position)
                * inject_Z (Risk.qty_shares position) in
              let pnl := pnl - Exec.commission t in
              Ok {| current_position := None;
                    day_stats :=
                      update_day_stats_on_close (day_stats st)
                        (entry_price position) (Exec.exec_price t)
                        (Risk.qty_shares position) (Exec.commission t);
                    total_pnl := total_pnl st + pnl;
                    trade_history :=
                      trade_history st ++
                      [ {| signal := sig; execution := t;
                           position_after := None;
                           pnl_realized := Some pnl |} ];
                    trades_executed := trades_executed st + 1 |}
          end)
  end.

(** [_process_signal]: the daily limits are checked first, for every signal
    type. *)
Definition process_signal (cfg : Config) (lot_size : Z) (st : EngineState)
           (sig : Strategy.Signal) (market_data : MarketData)
  : result EngineState :=
  if negb (allow_new_trade (risk cfg) (day_stats st)) then Ok st
  else
    match Strategy.type sig with
    | Strategy.BUY => process_buy cfg lot_size st sig market_data
    | Strategy.SELL | Strategy.CLOSE_LONG =>
        process_sell cfg lot_size st sig market_data
    end.

(** [_check_position_exits]; [now] is the label given to the exit signal. *)
Definition check_position_exits (cfg : Config) (lot_size : Z)
           (st : EngineState) (market_data : MarketData) (now : nat)
  : result EngineState :=
  match current_position st with
  | None => Ok st
  | Some position =>
      match LAST market_data with
      | None => Ok st
      | Some last_price =>
          if negb (truthy (Some last_price)) then Ok st
          else
            let d := check_exit_rules_for_long position (Some last_price) in
            match action d with
            | NONE => Ok st
            | _ =>
                process_signal cfg lot_size st
                  {| Strategy.type := Strategy.CLOSE_LONG;
                     Strategy.ts := now;
                     Strategy.price := last_price;
                     Strategy.reason := Risk.reason d |}
                  market_data
            end
      end
  end.

Fixpoint process_signals (cfg : Config) (lot_size : Z) (st : EngineState)
         (signals : list Strategy.Signal) (market_data : MarketData)
  : result EngineState :=
  match signals with
  | [] => Ok st
  | sig :: t =>
      bind (process_signal cfg lot_size st sig market_data) (fun st' =>
        process_signals cfg lot_size st' t market_data)
  end.

(** [_trading_iteration] from the fetched quote on, inside the session
    window: with fewer than 30 candles nothing happens; otherwise the
    signals of the whole frame are processed and the exits checked. *)
Definition trading_iteration (cfg : Config) (lot_size : Z) (st : EngineState)
           (candles_df : list Candle) (market_data : MarketData) (now : nat)
  : result EngineState :=
  if (length candles_df <? 30)%nat then Ok st
  else
    let cdf := attach_all candles_df IndicatorParams_default in
    bind (Strategy.generate_signals Strategy.StrategyParams_default cdf)
      (fun signals =>
         bind (process_signals cfg lot_size st signals market_data)
           (fun st' => check_position_exits cfg lot_size st' market_data now)).

End Engine.

(* ================================================================== *)
(** * async_client.py: the circuit breaker of AsyncMoexClient          *)
(* ================================================================== *)

Module Breaker.

Inductive Phase : Type := closed | open | half_open.

(** Clock readings of [now_msk()] and the timeout are integers in one
    unit of time. *)
Record CircuitBreakerState : Type := {
  failures : Z;
  last_failure_time : option Z;
  state : Phase
}.

(** [CircuitBreakerState()] *)
Definition CircuitBreakerState_default : CircuitBreakerState :=
  {| failures := 0; last_failure_time := None; state := closed |}.

(** The client's breaker settings and retry count. *)
Record Client : Type := {
  circuit_breaker_threshold : Z;
  circuit_breaker_timeout : Z;
  retries : nat
}.

(** [_check_circuit_breaker] at clock reading [now]: whether the request is
    allowed, and the breaker afterwards. *)
Definition check_circuit_breaker (c : Client) (now : Z)
           (cb : CircuitBreakerState) : bool * CircuitBreakerState :=
  match state cb with
  | open =>
      let since :=
        match last_failure_time cb with
        | Some t => t
        | None => now
        end in
      if (circuit_breaker_timeout c <? now - since)%Z
      then (true, {| failures := failures cb;
                     last_failure_time := last_failure_time cb;
                     state := half_open |})
      else (false, cb)
  | half_open => (true, cb)
  | closed => (true, cb)
  end.

Definition record_success (cb : CircuitBreakerState) : CircuitBreakerState :=
  match state cb with
  | half_open =>
      {| failures := 0;
         last_failure_time := last_failure_time cb;
         state := closed |}
  | _ => cb
  end.

(** [_record_failure] at clock reading [now]. *)
Definition record_failure (c : Client) (now : Z) (cb : CircuitBreakerState)
  : CircuitBreakerState :=
  let n := (failures cb + 1)%Z in
  {| failures := n;
     last_failure_time := Some now;
     state := if (circuit_breaker_threshold c <=? n)%Z then open
              else state cb |}.

(** What one pass of the retry loop of [_request_json] meets: a good JSON
    reply; a reply with a bad status, content type or body (the failure is
    recorded and the raised error is caught by the loop); or a timeout or
    transport error (caught without recording). *)
Inductive Attempt : Type := Success | BadResponse | TransportError.

(** Outcome of [_request_json]: the breaker afterwards, whether data was
    returned (otherwise the call raised), and the number of network calls
    made. *)
Record Outcome : Type := {
  breaker : CircuitBreakerState;
  returned : bool;
  network_calls : nat
}.

(** The retry loop: [k] is the attempt number, [fuel] the attempts left,
    [net] the reply met by each attempt, [t] the clock reading stamped on
    recorded failures. *)
Fixpoint attempt_loop (c : Client) (t : Z) (net : nat -> Attempt)
         (k fuel : nat) (cb : CircuitBreakerState) (calls : nat) : Outcome :=
  match fuel with
  | O => {| breaker := record_failure c t cb; returned := false;
            network_calls := calls |}
  | S fuel' =>
      match net k with
      | Success =>
          {| breaker := record_success cb; returned := true;
             network_calls := S calls |}
      | BadResponse =>
          attempt_loop c t net (S k) fuel' (record_failure c t cb) (S calls)
      | TransportError =>
          attempt_loop c t net (S k) fuel' cb (S calls)
      end
  end.

(** [_request_json] on a started client. *)
Definition request_json (c : Client) (now t : Z) (net : nat -> Attempt)
           (cb : CircuitBreakerState) : Outcome :=
  let '(allowed, cb1) := check_circuit_breaker c now cb in
  if allowed then attempt_loop c t net 0 (S (retries c)) cb1 0
  else {| breaker := cb1; returned := false; network_calls := 0 |}.

(** The recordings a sequence of requests makes on the breaker. *)
Inductive Event : Type :=
| Failed (now : Z)
| Succeeded.

Definition apply_event (c : Client) (cb : CircuitBreakerState) (e : Event)
  : CircuitBreakerState :=
  match e with
  | Failed now => record_failure c now cb
  | Succeeded => record_success cb
  end.

Definition apply_events (c : Client) (cb : CircuitBreakerState)
           (es : list Event) : CircuitBreakerState :=
  fold_left (apply_event c) es cb.

(** Number of failures at the end of a history with no success after
    them. *)
Fixpoint trailing_failures (rev_es : list Event) : Z :=
  match rev_es with
  | Failed _ :: t => (1 + trailing_failures t)%Z
  | _ => 0%Z
  end.

Definition consecutive_failures (es : list Event) : Z :=
  trailing_failures (rev es).

(** The breaker states a client can be in: the fresh state, and whatever
    the three methods make of a reachable state. *)
Inductive reachable (c : Client) : CircuitBreakerState -> Prop :=
| reach_init : reachable c CircuitBreakerState_default
| reach_check : forall now cb,
    reachable c cb -> reachable c (snd (check_circuit_breaker c now cb))
| reach_success : forall cb,
    reachable c cb -> reachable c (record_success cb)
| reach_failure : forall now cb,
    reachable c cb -> reachable c (record_failure c now cb).

End Breaker.

From Stdlib Require Import Sorted.


(* ================================================================== *)
(** * metrics/performance.py                                           *)
(* ================================================================== *)

Module Metrics.

(** [e.cummax()]: the running maximum, [m] being the maximum so far. *)
Fixpoint cummax_from (m : Q) (l : list Q) : list Q :=
  match l with
  | [] => []
  | x :: t => let m' := Qmax m x in m' :: cummax_from m' t
  end.

Definition cummax (l : list Q) : list Q :=
  match l with
  | [] => []
  | x :: t => x :: cummax_from x t
  end.

(** [max_drawdown]: NaN points are dropped; an empty curve gives 0. *)
Definition max_drawdown (equity_curve : list (option Q)) : Q :=
  let e := observations equity_curve in
  match e with
  | [] => 0
  | _ :: _ =>
      let running_max := cummax e in
      let drawdowns :=
        map (fun '(m, x) => m - x) (combine running_max e) in
      match list_max drawdowns with
      | Some mdd => mdd
      | None => 0
      end
  end.

(** [win_rate] on the PnL column of the trade log ('pnl_rub' when the
    frame has it, else 'pnl_pct'): the share of the non-NaN entries that
    are positive, 0 when there is none. *)
Definition win_rate (pnl : list (option Q)) : Q :=
  let pnl := observations pnl in
  match pnl with
  | [] => 0
  | _ :: _ =>
      let wins := length (filter (fun x => Qlt_bool 0 x) pnl) in
      inject_Z (Z.of_nat wins) / inject_Z (Z.of_nat (length pnl))
  end.

(** [s.fillna(0.0)] *)
Definition fillna0 (l : list (option Q)) : list Q :=
  map (fun c => match c with Some x => x | None => 0 end) l.

(** [s.cumsum()], [acc] being the sum so far. *)
Fixpoint cumsum_from (acc : Q) (l : list Q) : list Q :=
  match l with
  | [] => []
  | x :: t => let a := acc + x in a :: cumsum_from a t
  end.

Definition cumsum (l : list Q) : list Q :=
  match l with
  | [] => []
  | x :: t => x :: cumsum_from x t
  end.

(** [equity_from_trades] on the 'pnl_rub' column. *)
Definition equity_from_trades (pnl : list (option Q)) (start_equity : Q)
  : list Q :=
  map (fun c => c + start_equity) (cumsum (fillna0 pnl)).

(** Step 5 of [BacktestRunner.run] on the trade log: the 'pnl_rub' column
    and the realized PnL of the summary, its sum. *)
Definition pnl_column (rows : list Backtest.TradeRow) : list (option Q) :=
  map (fun r => Some (Backtest.pnl_rub r)) rows.

Definition summary_realized_pnl (rows : list Backtest.TradeRow) : Q :=
  match rows with
  | [] => 0
  | _ :: _ => Qsum (observations (pnl_column rows))
  end.

End Metrics.

(* ================================================================== *)
(** * utils/time_utils.py                                              *)
(* ================================================================== *)

Module TimeUtils.

(** A [datetime.time]: hour, minute, second, microsecond. *)
Record time : Type := {
  t_hour : Z;
  t_minute : Z;
  t_second : Z;
  t_microsecond : Z
}.

(** A [datetime.datetime]: the ordinal of its date and its time of day.
    (Two datetimes of one call carry the same tzinfo, which plays no part
    in their comparison or difference.) *)
Record datetime : Type := {
  date : Z;
  hour : Z;
  minute : Z;
  second : Z;
  microsecond : Z
}.

(** The values Python's constructors accept. *)
Definition valid_time (t : time) : Prop :=
  (0 <= t_hour t < 24 /\ 0 <= t_minute t < 60 /\ 0 <= t_second t < 60
   /\ 0 <= t_microsecond t < 1000000)%Z.

Definition valid_datetime (d : datetime) : Prop :=
  (0 <= hour d < 24 /\ 0 <= minute d < 60 /\ 0 <= second d < 60
   /\ 0 <= microsecond d < 1000000)%Z.

(** [now.time()] *)
Definition time_of (d : datetime) : time :=
  {| t_hour := hour d; t_minute := minute d; t_second := second d;
     t_microsecond := microsecond d |}.

(** Microseconds since midnight; [time] objects compare field by field,
    which for valid times is the order of this number. *)
Definition micros (t : time) : Z :=
  (((t_hour t * 60 + t_minute t) * 60 + t_second t) * 1000000
   + t_microsecond t)%Z.

Definition time_le (a b : time) : bool := (micros a <=? micros b)%Z.
Definition time_lt (a b : time) : bool := (micros a <? micros b)%Z.

(** [is_trading_time(now, session)], the session bounds being the parsed
    'HH:MM' strings of the session parameters. *)
Definition is_trading_time (now : datetime) (start_t end_t : time) : bool :=
  let local_time := time_of now in
  time_le start_t local_time && time_le local_time end_t.

(** [seconds_until_session_end(now, session)]: [int()] truncates the
    difference to whole seconds. *)
Definition seconds_until_session_end (now : datetime) (start_t end_t : time)
  : Z :=
  let local_time := time_of now in
  if time_lt local_time start_t || time_lt end_t local_time then 0%Z
  else
    let delta := (micros end_t - micros local_time)%Z in
    Z.max 0 (Z.quot delta 1000000).

(** [next_candle_close_ts(now, interval_minutes)].  The floor division
    raises for a zero interval, and [replace] for a minute outside
    0 .. 59. *)
Definition next_candle_close_ts (now : datetime) (interval_minutes : Z)
  : result datetime :=
  bind (floordiv (minute now) interval_minutes) (fun q =>
    let minute0 := ((q + 1) * interval_minutes)%Z in
    let rollover := (60 <=? minute0)%Z in
    let minute1 := if rollover then 0%Z else minute0 in
    let next_day := rollover && (24 <=? hour now + 1)%Z in
    let add_hours := if rollover && negb next_day then 1%Z else 0%Z in
    let add_days := if next_day then 1%Z else 0%Z in
    if (minute1 <? 0)%Z then Raise ValueError
    else
      Ok {| date := (date now + add_days)%Z;
            hour := (hour now + add_hours)%Z;
            minute := minute1;
            second := 0;
            microsecond := 0 |}).

(** Microseconds since the midnight that starts day 0. *)
Definition stamp (d : datetime) : Z :=
  (date d * 86400000000 + micros (time_of d))%Z.

End TimeUtils.

(* ================================================================== *)
(** * Vocabulary of the specification                                  *)
(* ================================================================== *)

(** Predicates that say in the words of the specification what the code is
    expected to compute.  They do not mention the functions they are
    compared with. *)

Module ExecSpec.

Import Exec.







End ExecSpec.

(* ================================================================== *)
(** * Concrete inputs                                                  *)
(* ================================================================== *)

Module Sample.

(** Risk limits: 1 % stop, 2 % to 3 % take-profit, reward:risk 1.5. *)
Definition limits : RiskLimits :=
  {| max_trades_per_day := 5; daily_loss_limit_rub := 1000;
     stop_loss_pct_max := 1 # 100; take_profit_pct_min := 2 # 100;
     take_profit_pct_max := 3 # 100; min_rr := 15 # 10;
     Risk.max_position_rub := 30000 |}.

(** A BUY at ask 100 with 1 % slippage, lots of 10 shares, cap 30000. *)
Definition buy_request : Exec.ExecutionInput :=
  {| Exec.ts := 0%nat; Exec.side := Exec.BUY;
     Exec.best_bid := Some 99; Exec.best_ask := Some 100;
     Exec.lot_size := 10; Exec.max_position_rub := 30000;
     Exec.commission_pct_per_side := 3 # 10000;
     Exec.slippage_pct := 1 # 100;
     Exec.desired_position_shares := None |}.


(** A SELL of 25 held shares in lots of 10 at bid 100. *)
Definition sell_request : Exec.ExecutionInput :=
  {| Exec.ts := 0%nat; Exec.side := Exec.SELL;
     Exec.best_bid := Some 100; Exec.best_ask := Some 101;
     Exec.lot_size := 10; Exec.max_position_rub := 30000;
     Exec.commission_pct_per_side := 3 # 10000;
     Exec.slippage_pct := 2 # 1000;
     Exec.desired_position_shares := Some 25%Z |}.


(** A flat market: sixteen closes at 100. *)
Definition flat_closes : list (option Q) := repeat (Some 100) 16.

(** A candle around the price [c] with range 2 and volume [v]. *)
Definition bar (c : Z) (v : option Q) : Candle :=
  {| open_ := Some (inject_Z c); high := Some (inject_Z c + 1);
     low := Some (inject_Z c - 1); close := Some (inject_Z c);
     volume := v |}.

(** Thirty candles rising by one a bar from 100, on rising volume. *)
Definition rising_candles : list Candle :=
  map (fun i => bar (Z.of_nat i + 100) (Some (inject_Z (Z.of_nat i + 10))))
      (seq 0 30).

Definition rising_frame : list Row :=
  attach_all rising_candles IndicatorParams_default.

(** Four rising candles; the third has no volume, the fourth a low one. *)
Definition gap_candles : list Candle :=
  [ bar 100 (Some 5); bar 101 (Some 6); bar 102 None; bar 103 (Some 1) ].

Definition gap_frame : list Row :=
  attach_all gap_candles IndicatorParams_default.

(** The default strategy with a swing window of 3 bars, run on frames of
    3 bars or more. *)
Definition short_params : Strategy.StrategyParams :=
  {| Strategy.lookback_swing := 3;
     Strategy.volume_filter := true;
     Strategy.rsi_oversold := 30;
     Strategy.rsi_overbought := 70;
     Strategy.macd_div_lookback := 20;
     Strategy.engulf_body_ratio := 55 # 100;
     Strategy.hammer_tail_ratio := 6 # 10;
     Strategy.min_bars_for_indicators := 3 |}.

(** Thirty rising candles and a sharp drop on heavy volume. *)
Definition round_trip_candles : list Candle :=
  rising_candles ++ [ bar 110 (Some 100) ].

(** Commission 0.03 % a side, slippage 0.2 %. *)
Definition config : Backtest.Config :=
  {| Backtest.risk := limits;
     Backtest.commission_pct_per_side := 3 # 10000;
     Backtest.slippage_pct := 2 # 1000 |}.

(** Quotes at entry and at exit, and the two signals of a round trip. *)
Definition quotes_in : Engine.MarketData :=
  {| Engine.BID := Some 100; Engine.OFFER := Some 101;
     Engine.LAST := Some 100 |}.

Definition quotes_out : Engine.MarketData :=
  {| Engine.BID := Some 102; Engine.OFFER := Some 103;
     Engine.LAST := Some 102 |}.

Definition buy_signal : Strategy.Signal :=
  {| Strategy.type := Strategy.BUY; Strategy.ts := 0%nat;
     Strategy.price := 100; Strategy.reason := [BreakoutVolume] |}.

Definition sell_signal : Strategy.Signal :=
  {| Strategy.type := Strategy.SELL; Strategy.ts := 1%nat;
     Strategy.price := 102; Strategy.reason := [RsiMacdNegDivergence] |}.

(** A position of 10 shares entered at 100 on a day that has used up its
    five trades. *)
Definition spent_day : DayStats :=
  {| trades_count := 5; realized_pnl_rub := 0; realized_loss_rub := 0 |}.

Definition held_position : Position :=
  assign_stops_for_long limits (Position_new 100 10).

Definition entry_trade : Exec.ExecutedTrade :=
  {| Exec.t_ts := 0%nat; Exec.t_side := Exec.BUY; Exec.exec_price := 100;
     Exec.qty_lots := 1; Exec.qty_shares := 10; Exec.gross_value := 1000;
     Exec.commission := 3 # 10; Exec.slippage_value := 0;
     Exec.net_value := - (10003 # 10); Exec.reason := [BreakoutVolume] |}.

End Sample.

(** Histories of the circuit breaker. *)
Module BreakerSpec.

Import Breaker.

(** Number of failures recorded by a history. *)
Fixpoint count_failed (es : list Event) : Z :=
  match es with
  | [] => 0
  | Failed _ :: t => (1 + count_failed t)%Z
  | Succeeded :: t => count_failed t
  end.

(** The default client: threshold 5, timeout 60, 3 retries. *)
Definition client : Client :=
  {| circuit_breaker_threshold := 5; circuit_breaker_timeout := 60;
     retries := 3 |}.

(** A client that opens after 3 failures. *)
Definition client3 : Client :=
  {| circuit_breaker_threshold := 3; circuit_breaker_timeout := 60;
     retries := 3 |}.

(** Two failures, a success, and one more failure. *)
Definition interleaved : list Event :=
  [ Failed 1; Failed 2; Succeeded; Failed 3 ].

(** Five failures at the clock readings 1 .. 5. *)
Definition five_failures : list Event :=
  [ Failed 1; Failed 2; Failed 3; Failed 4; Failed 5 ].

(** A breaker whose count is [n] and whose phase is the one the count
    gives when no request was ever let through on trial. *)
Definition tracks (c : Client) (cb : CircuitBreakerState) (n : Z) : Prop :=
  failures cb = n
  /\ state cb = if (circuit_breaker_threshold c <=? n)%Z then open else closed.

(** A breaker that is open or on trial has reached the threshold. *)
Definition tripped_ok (c : Client) (cb : CircuitBreakerState) : Prop :=
  state cb <> closed -> (circuit_breaker_threshold c <= failures cb)%Z.

End BreakerSpec.

(** Comparing the two orchestrators. *)
Module EngineSpec.

(** The outcome of a call seen through a projection of its state. *)
Definition rmap {A B} (f : A -> B) (r : result A) : result B :=
  match r with
  | Ok a => Ok (f a)
  | Raise e => Raise e
  end.

(** The backtest loop body fed with the quotes of an L1 snapshot. *)
Definition runner_step (cfg : Backtest.Config) (lot_size : Z)
           (st : Backtest.RunState) (sig : Strategy.Signal)
           (market_data : Engine.MarketData) : result Backtest.RunState :=
  Backtest.on_signal cfg lot_size st sig (Engine.BID market_data)
                     (Engine.OFFER market_data).

(** The request both orchestrators build to close a position. *)
Definition exit_request (cfg : Backtest.Config) (lot : Z)
           (sig : Strategy.Signal) (md : Engine.MarketData) (pos : Position)
  : Exec.ExecutionInput :=
  {| Exec.ts := Strategy.ts sig;
     Exec.side := Exec.SELL;
     Exec.best_bid := Engine.BID md;
     Exec.best_ask := Engine.OFFER md;
     Exec.lot_size := lot;
     Exec.max_position_rub := Risk.max_position_rub (Backtest.risk cfg);
     Exec.commission_pct_per_side := Backtest.commission_pct_per_side cfg;
     Exec.slippage_pct := Backtest.slippage_pct cfg;
     Exec.desired_position_shares := Some (Risk.qty_shares pos) |}.

End EngineSpec.

(** The state of the backtest loop. *)
Module BacktestSpec.

Import Backtest.

(** The open position and the trade that opened it are set and cleared
    together. *)
Definition coupled (st : RunState) : Prop :=
  open_pos st = None <-> entry_trade_meta st = None.

(** 1 while a position is open, else 0. *)
Definition held (st : RunState) : Z :=
  match open_pos st with
  | Some _ => 1
  | None => 0
  end.

(** Completed round trips: the rows of the trade log. *)
Definition round_trips (st : RunState) : Z :=
  Z.of_nat (length (trades_rows st)).

(** The quantity the loop keeps constant: the trade counter less two per
    completed round trip and one for an open position. *)
Definition count_balance (st : RunState) : Z :=
  (trades_count (day_stats st) - 2 * round_trips st - held st)%Z.

End BacktestSpec.

(** Cells of the smoothed averages: NaN or not negative. *)
Module TechSpec.

Definition cell_nonneg (c : option Q) : Prop :=
  match c with
  | Some x => 0 <= x
  | None => True
  end.

Definition ewm_state_nonneg (st : ewm_state) : Prop :=
  cell_nonneg (weighted st) /\ 0 <= old_wt st.

End TechSpec.

(* ================================================================== *)
(** * Further concrete inputs                                          *)
(* ================================================================== *)

Module Sample2.

(** A day with five trades and a realized loss of 200. *)
Definition bad_day : DayStats :=
  {| trades_count := 5; realized_pnl_rub := - (200);
     realized_loss_rub := 200 |}.

(** A BUY and a SELL of 20 shares at the quotes 100 / 101. *)
Definition buy20 : Exec.ExecutionInput :=
  {| Exec.ts := 0%nat; Exec.side := Exec.BUY;
     Exec.best_bid := Some 100; Exec.best_ask := Some 101;
     Exec.lot_size := 10; Exec.max_position_rub := 30000;
     Exec.commission_pct_per_side := 3 # 10000;
     Exec.slippage_pct := 2 # 1000;
     Exec.desired_position_shares := Some 20%Z |}.

Definition sell20 : Exec.ExecutionInput :=
  {| Exec.ts := 1%nat; Exec.side := Exec.SELL;
     Exec.best_bid := Some 100; Exec.best_ask := Some 101;
     Exec.lot_size := 10; Exec.max_position_rub := 30000;
     Exec.commission_pct_per_side := 3 # 10000;
     Exec.slippage_pct := 2 # 1000;
     Exec.desired_position_shares := Some 20%Z |}.

(** A row with a close and a MACD histogram value only. *)
Definition row_of (c h : Q) : Row :=
  {| candle := {| open_ := None; high := None; low := None;
                  close := Some c; volume := None |};
     sma20 := None; ema9 := None; rsi14 := None; macd := None;
     macd_signal := None; macd_hist := Some h; vol_sma20 := None |}.

(** A bar with the given close, high and low. *)
Definition ohlc_row (c h l : Q) : Row :=
  {| candle := {| open_ := Some c; high := Some h; low := Some l;
                  close := Some c; volume := None |};
     sma20 := None; ema9 := None; rsi14 := None; macd := None;
     macd_signal := None; macd_hist := None; vol_sma20 := None |}.

(** Six bars of rising closes on a falling histogram, and six bars of
    falling closes on a rising histogram. *)
Definition climb : list Row :=
  [ row_of 1 6; row_of 2 5; row_of 3 4; row_of 4 3; row_of 5 2; row_of 6 1 ].

Definition slide : list Row :=
  [ row_of 6 1; row_of 5 2; row_of 4 3; row_of 3 4; row_of 2 5; row_of 1 6 ].

End Sample2.

(** Reference notions for the indicator columns. *)
Module IndicatorSpec.

(** The textbook recursion of the exponential average: seeded by the first
    value, each later value is (1 - alpha) x previous + alpha x input. *)
Fixpoint ema_ref (alpha prev : Q) (xs : list Q) : list Q :=
  match xs with
  | [] => []
  | x :: t =>
      let e := (1 - alpha) * prev + alpha * x in
      e :: ema_ref alpha e t
  end.

Definition ema_textbook (alpha : Q) (xs : list Q) : list Q :=
  match xs with
  | [] => []
  | x :: t => x :: ema_ref alpha x t
  end.

(** A cell that is NaN or lies in [lo, hi]. *)
Definition cell_within (lo hi : Q) (c : option Q) : Prop :=
  match c with
  | Some x => lo <= x /\ x <= hi
  | None => True
  end.

(** A cell that holds a value equal to [v]. *)
Definition cell_is (v : Q) (c : option Q) : Prop :=
  exists x : Q, c = Some x /\ x == v.

(** The smoothing state before the first row. *)
Definition ewm_start : ewm_state :=
  {| weighted := None; old_wt := 1; nobs := 0 |}.

(** Number of non-NaN cells among the first [k] rows. *)
Definition seen (k : nat) (l : list (option Q)) : nat :=
  length (observations (firstn k l)).

End IndicatorSpec.

(** Reference notions for the strategy. *)
Module StrategySpec.

Definition closes (df : list Row) : list (option Q) :=
  map (fun r => close (candle r)) df.

(** The defined values of a column never fall, respectively never rise,
    from an earlier row to a later one. *)
Definition non_decreasing (l : list (option Q)) : Prop :=
  forall (i j : nat) (x y : Q),
    (i <= j)%nat -> cell l i = Some x -> cell l j = Some y -> x <= y.

Definition non_increasing (l : list (option Q)) : Prop :=
  forall (i j : nat) (x y : Q),
    (i <= j)%nat -> cell l i = Some x -> cell l j = Some y -> y <= x.

End StrategySpec.

(** Reference notions for the trade log of the backtest. *)
Module LedgerSpec.

Import Backtest.

(** The loss a logged trade contributes: its PnL when negative. *)
Definition row_loss (r : TradeRow) : Q := Qmax 0 (- pnl_rub r).


(** Positions opened so far: the logged round trips and the open one. *)
Definition entries (st : RunState) : Z :=
  (Z.of_nat (length (trades_rows st))
   + match open_pos st with Some _ => 1 | None => 0 end)%Z.

End LedgerSpec.

(** Reference notions for the books of the trading engine. *)
Module EngineLedger.

Import Backtest Engine.

(** The realized results recorded in the trade history, oldest first. *)
Definition closed_pnl (h : list TradeRecord) : list Q :=
  flat_map (fun r => match pnl_realized r with
                     | Some p => [p]
                     | None => []
                     end) h.

(** The engine's books agree: the session PnL is the sum of the realized
    results in the history and equals the day's realized PnL, the
    executed-trades counter is the length of the history, the day's trade
    counter is the number of closing records, and a position is open
    exactly when the last record left one. *)
Definition ledger (st : EngineState) : Prop :=
  total_pnl st == Qsum (closed_pnl (trade_history st))
  /\ realized_pnl_rub (day_stats st) == total_pnl st
  /\ trades_executed st = Z.of_nat (length (trade_history st))
  /\ trades_count (day_stats st)
     = Z.of_nat (length (closed_pnl (trade_history st)))
  /\ current_position st
     = match rev (trade_history st) with
       | [] => None
       | r :: _ => position_after r
       end.

(** Successive passes of the trading loop that raise no exception, each
    with the candles, the quote and the clock reading it sees. *)
Fixpoint run_iterations (cfg : Config) (lot_size : Z) (st : EngineState)
         (its : list (list Candle * MarketData * nat))
  : result EngineState :=
  match its with
  | [] => Ok st
  | (candles_df, market_data, now) :: t =>
      bind (trading_iteration cfg lot_size st candles_df market_data now)
           (fun st' => run_iterations cfg lot_size st' t)
  end.

End EngineLedger.

(** Reference notions for the retry loop of the client. *)
Module RetrySpec.

Import Breaker.

(** Number of bad replies among the attempts [k .. k + n - 1]. *)
Fixpoint bad_replies (net : nat -> Attempt) (k n : nat) : Z :=
  match n with
  | O => 0
  | S n' =>
      (match net k with BadResponse => 1 | _ => 0 end
       + bad_replies net (S k) n')%Z
  end.

(** A network that answers every attempt with a bad reply, and one that
    answers the third attempt well after two transport errors. *)
Definition always_bad : nat -> Attempt := fun _ => BadResponse.

Definition third_time : nat -> Attempt :=
  fun k => match k with
           | 2%nat => Success
           | _ => TransportError
           end.

End RetrySpec.

(** Concrete clock readings. *)
Module ClockSample.

Import TimeUtils.

(** The session 10:00 - 18:40. *)
Definition session_start : time :=
  {| t_hour := 10; t_minute := 0; t_second := 0; t_microsecond := 0 |}.

Definition session_end : time :=
  {| t_hour := 18; t_minute := 40; t_second := 0; t_microsecond := 0 |}.

(** 12:03:30.5 on day 7, and 23:57:10 on day 7. *)
Definition noon : datetime :=
  {| date := 7; hour := 12; minute := 3; second := 30;
     microsecond := 500000 |}.

Definition late : datetime :=
  {| date := 7; hour := 23; minute := 57; second := 10; microsecond := 0 |}.

End ClockSample.
(* ================================================================== *)
(** * Properties                                                       *)
(* ================================================================== *)

(** ** Boolean comparisons against their propositions *)

Lemma Qlt_bool_true (a b : Q) : Qlt_bool a b = true <-> a < b.
Proof.
  unfold Qlt_bool. rewrite negb_true_iff. split; intro H.
  - apply Qnot_le_lt. intro Hle. apply Qle_bool_iff in Hle. congruence.
  - destruct (Qle_bool b a) eqn:E; [|reflexivity].
    apply Qle_bool_iff in E. exfalso. exact (Qlt_not_le _ _ H E).
Qed.

Lemma Qlt_bool_false (a b : Q) : Qlt_bool a b = false <-> b <= a.
Proof.
  unfold Qlt_bool. rewrite negb_false_iff. apply Qle_bool_iff.
Qed.

Lemma Qle_bool_false (a b : Q) : Qle_bool a b = false <-> b < a.
Proof.
  rewrite <- Qlt_bool_true. unfold Qlt_bool.
  destruct (Qle_bool a b); simpl; intuition congruence.
Qed.

Lemma Qeq_bool_false (a b : Q) : Qeq_bool a b = false <-> ~ a == b.
Proof.
  split; intro H.
  - intro E. apply Qeq_bool_iff in E. congruence.
  - destruct (Qeq_bool a b) eqn:E; [|reflexivity].
    apply Qeq_bool_iff in E. contradiction.
Qed.

Lemma Qmax_cases (a b : Q) :
  (a < b /\ Qmax a b = b) \/ (b <= a /\ Qmax a b = a).
Proof.
  unfold Qmax, GenericMinMax.gmax.
  destruct (a ?= b) eqn:E.
  - right. split; [|reflexivity]. apply Qeq_alt in E. rewrite E. apply Qle_refl.
  - left. split; [|reflexivity]. apply Qlt_alt. exact E.
  - right. split; [|reflexivity]. apply Qgt_alt in E. apply Qlt_le_weak. exact E.
Qed.

Lemma Qmin_cases (a b : Q) :
  (b < a /\ Qmin a b = b) \/ (a <= b /\ Qmin a b = a).
Proof.
  unfold Qmin, GenericMinMax.gmin.
  destruct (a ?= b) eqn:E.
  - right. split; [|reflexivity]. apply Qeq_alt in E. rewrite E. apply Qle_refl.
  - right. split; [|reflexivity]. apply Qlt_le_weak. apply Qlt_alt. exact E.
  - left. split; [|reflexivity]. apply Qgt_alt in E. exact E.
Qed.

(** ** risk/manager.py *)




(** C7.  [update_day_stats_on_close] adds
    pnl = (exit - entry) x qty - commission to the realized PnL, adds one to
    the trade counter, and adds |pnl| to the realized loss when pnl is
    negative and leaves the loss unchanged otherwise.  For entry 100, exit
    95, 10 shares and commission 5 the PnL is -55, the loss grows by 55 and
    the counter by one. *)
Theorem C7_update_day_stats_on_close :
  forall (stats : DayStats) (entry exit_ : Q) (qty : Z) (commission : Q),
    let pnl := (exit_ - entry) * inject_Z qty - commission in
    let stats' := update_day_stats_on_close stats entry exit_ qty commission in
    realized_pnl_rub stats' = realized_pnl_rub stats + pnl
    /\ trades_count stats' = (trades_count stats + 1)%Z
    /\ (pnl < 0 ->
        realized_loss_rub stats' = realized_loss_rub stats + Qabs pnl)
    /\ (0 <= pnl -> realized_loss_rub stats' = realized_loss_rub stats)
    /\ (entry == 100 -> exit_ == 95 -> qty = 10%Z -> commission == 5 ->
        pnl == - (55)
        /\ realized_loss_rub stats' == realized_loss_rub stats + 55).
Proof.
  intros stats entry exit_ qty commission pnl stats'.
  assert (Hneg : pnl < 0 ->
                 realized_loss_rub stats' = realized_loss_rub stats + Qabs pnl).
  { intro H. unfold stats', update_day_stats_on_close, close_pnl. simpl.
    fold pnl. apply Qlt_bool_true in H. rewrite H. reflexivity. }
  repeat split.
  - exact Hneg.
  - intro H. unfold stats', update_day_stats_on_close, close_pnl. simpl.
    fold pnl. apply Qlt_bool_false in H. rewrite H. reflexivity.
  - unfold pnl. rewrite H, H0, H1, H2. reflexivity.
  - assert (Hp : pnl == - (55)).
    { unfold pnl. rewrite H, H0, H1, H2. reflexivity. }
    rewrite Hneg by (rewrite Hp; reflexivity).
    rewrite Hp. reflexivity.
Qed.

(** Witness of C7 on a fresh day: entry 100, exit 95, 10 shares,
    commission 5. *)
Lemma C7_update_day_stats_on_close_witness :
  let stats' := update_day_stats_on_close DayStats_default 100 95 10 5 in
  trades_count stats' = 1%Z
  /\ realized_loss_rub stats' == 55
  /\ realized_pnl_rub stats' == - (55).
Proof.
  intro stats'.
  pose proof (C7_update_day_stats_on_close DayStats_default 100 95 10 5) as H.
  cbv zeta in H. destruct H as [Hp [Hc [_ [_ He]]]].
  split; [exact Hc|].
  destruct (He ltac:(reflexivity) ltac:(reflexivity) eq_refl
               ltac:(reflexivity)) as [_ Hl].
  split.
  - unfold stats'. rewrite Hl. reflexivity.
  - unfold stats'. rewrite Hp. reflexivity.
Defined.

(** ** execution/simulator.py *)

Lemma Qmul_inject_le_div (z : Z) (p cap : Q) :
  0 < p -> (inject_Z z * p <= cap <-> (z <= Qfloor (cap / p))%Z).
Proof.
  intro Hp. split; intro H.
  - assert (Hz : inject_Z z <= cap / p) by (apply Qle_shift_div_l; assumption).
    apply Qfloor_resp_le in Hz. rewrite Qfloor_Z in Hz. exact Hz.
  - assert (Hz : inject_Z z <= cap / p).
    { apply Qle_trans with (inject_Z (Qfloor (cap / p))).
      - rewrite <- Zle_Qle. exact H.
      - apply Qfloor_le. }
    apply (Qmult_le_compat_r _ _ p) in Hz; [|apply Qlt_le_weak; exact Hp].
    assert (E : cap / p * p == cap) by (field; intro E0; rewrite E0 in Hp; discriminate).
    rewrite E in Hz. exact Hz.
Qed.

(** What the cap sizing returns for a positive price, lot size and cap:
    the largest number of lots whose notional fits the cap. *)
Lemma position_value_limit_sizing_spec (p : Q) (lot : Z) (cap : Q) :
  0 < p -> (0 < lot)%Z -> 0 < cap ->
  exists k : Z,
    Exec.position_value_limit_sizing (Some p) lot cap = (k, (k * lot)%Z)
    /\ (0 <= k)%Z
    /\ inject_Z (k * lot) * p <= cap
    /\ (forall j : Z, inject_Z (j * lot) * p <= cap -> (j <= k)%Z).
Proof.
  intros Hp Hlot Hcap.
  unfold Exec.position_value_limit_sizing.
  assert (E1 : Qle_bool p 0 = false) by (apply Qle_bool_false; exact Hp).
  assert (E2 : (lot <=? 0)%Z = false) by (apply Z.leb_gt; exact Hlot).
  assert (E3 : Qle_bool cap 0 = false) by (apply Qle_bool_false; exact Hcap).
  rewrite E1, E2, E3. simpl.
  set (F := Qfloor (cap / p)).
  assert (HF : (0 <= F)%Z).
  { apply (Qmul_inject_le_div 0 p cap Hp). rewrite Qmult_0_l.
    apply Qlt_le_weak. exact Hcap. }
  assert (Hk : (0 <= F / lot)%Z) by (apply Z.div_pos; assumption).
  exists (F / lot)%Z. rewrite Z.max_r by exact Hk.
  split; [reflexivity|]. split; [exact Hk|]. split.
  - apply (Qmul_inject_le_div _ p cap Hp). fold F.
    rewrite Z.mul_comm. apply Z.mul_div_le. exact Hlot.
  - intros j Hj. apply (Qmul_inject_le_div _ p cap Hp) in Hj. fold F in Hj.
    apply Z.div_le_lower_bound; [exact Hlot|]. rewrite Z.mul_comm. exact Hj.
Qed.

(** Outside that domain the cap sizing returns zero lots. *)
Lemma position_value_limit_sizing_zero (p : Q) (lot : Z) (cap : Q) :
  p <= 0 \/ (lot <= 0)%Z \/ cap <= 0 ->
  Exec.position_value_limit_sizing (Some p) lot cap = (0%Z, 0%Z).
Proof.
  intros [H|[H|H]]; unfold Exec.position_value_limit_sizing.
  - apply Qle_bool_iff in H. rewrite H. reflexivity.
  - apply Z.leb_le in H. rewrite H. rewrite orb_true_r. reflexivity.
  - apply Qle_bool_iff in H. rewrite H. rewrite orb_true_r. reflexivity.
Qed.



(** [execute] unfolded: no trade without a price or without shares,
    otherwise a trade of the sized quantity at the computed price. *)
Lemma execute_inv (inp : Exec.ExecutionInput) (r : reason_text)
      (t : Exec.ExecutedTrade) :
  Exec.execute inp r = Ok (Some t) ->
  exists p l,
    Exec.calc_exec_price (Exec.side inp) (Exec.best_bid inp)
                         (Exec.best_ask inp) (Exec.slippage_pct inp) = Some p
    /\ Exec.sizing inp p = Ok (l, Exec.qty_shares t)
    /\ (0 < Exec.qty_shares t)%Z
    /\ Exec.exec_price t = p
    /\ Exec.qty_lots t = l
    /\ Exec.commission t
       = p * inject_Z (Exec.qty_shares t) * Exec.commission_pct_per_side inp.
Proof.
  unfold Exec.execute.
  destruct (Exec.calc_exec_price _ _ _ _) as [p|] eqn:Ep; [|discriminate].
  destruct (Exec.sizing inp p) as [[l q]|e] eqn:Es; simpl; [|discriminate].
  destruct (q <=? 0)%Z eqn:E; [discriminate|].
  intro H. inversion H; subst; clear H. simpl.
  exists p, l. apply Z.leb_gt in E.
  split; [reflexivity|]. split; [exact Es|]. split; [exact E|].
  split; [reflexivity|]. split; reflexivity.
Qed.








(** Why the amended claim keeps to the requests of the data model: with a
    zero lot size and a desired share count the whole-lot division
    raises. *)
Remark execute_raises_on_zero_lot :
  Exec.execute
    {| Exec.ts := 0%nat; Exec.side := Exec.SELL;
       Exec.best_bid := Some 100; Exec.best_ask := Some 101;
       Exec.lot_size := 0; Exec.max_position_rub := 30000;
       Exec.commission_pct_per_side := 0; Exec.slippage_pct := 0;
       Exec.desired_position_shares := Some 10%Z |} []
  = Raise ZeroDivisionError.
Proof. reflexivity. Qed.

(** And with a slippage of minus 100 % the fill price is zero: every lot
    is affordable, but the cap sizing refuses a non-positive price. *)
Remark execute_refuses_zero_price :
  Exec.execute
    {| Exec.ts := 0%nat; Exec.side := Exec.BUY;
       Exec.best_bid := Some 99; Exec.best_ask := Some 100;
       Exec.lot_size := 10; Exec.max_position_rub := 30000;
       Exec.commission_pct_per_side := 0; Exec.slippage_pct := - (1);
       Exec.desired_position_shares := None |} []
  = Ok None.
Proof. reflexivity. Qed.

(** ** indicators/technicals.py *)

Import TechSpec.

Lemma Qdiv_nonneg (x y : Q) : 0 <= x -> 0 < y -> 0 <= x / y.
Proof.
  intros Hx Hy. apply Qle_shift_div_l; [exact Hy|].
  rewrite Qmult_0_l. exact Hx.
Qed.

Lemma ewm_step_nonneg (alpha : Q) (st : ewm_state) (cur : option Q) :
  0 < alpha -> alpha <= 1 ->
  ewm_state_nonneg st -> cell_nonneg cur ->
  ewm_state_nonneg (ewm_step alpha st cur).
Proof.
  intros Ha0 Ha1 [Hw Ho] Hc. unfold ewm_step, ewm_state_nonneg.
  destruct (weighted st) as [w|] eqn:Ew; destruct cur as [c|]; simpl in *.
  - split; [|discriminate].
    destruct (Qeq_bool w c); [exact Hw|].
    assert (Hf : 0 <= 1 - alpha) by lra.
    pose proof (Qmult_le_0_compat _ _ Ho Hf) as How.
    set (ow := old_wt st * (1 - alpha)) in *.
    pose proof (Qmult_le_0_compat _ _ How Hw) as H1.
    pose proof (Qmult_le_0_compat _ _ (Qlt_le_weak _ _ Ha0) Hc) as H2.
    apply Qdiv_nonneg; lra.
  - split; [exact Hw|].
    apply Qmult_le_0_compat; [exact Ho|lra].
  - split; [exact Hc|exact Ho].
  - rewrite Ew. simpl. split; [exact I|exact Ho].
Qed.

Lemma ewm_out_nonneg (minp : nat) (st : ewm_state) :
  ewm_state_nonneg st -> cell_nonneg (ewm_out minp st).
Proof.
  intros [Hw _]. unfold ewm_out.
  destruct (minp <=? nobs st)%nat; [exact Hw|exact I].
Qed.

Lemma ewm_loop_nonneg (alpha : Q) (minp : nat) (l : list (option Q)) :
  0 < alpha -> alpha <= 1 ->
  Forall cell_nonneg l ->
  forall st, ewm_state_nonneg st ->
             Forall cell_nonneg (ewm_loop alpha minp st l).
Proof.
  intros Ha0 Ha1 Hl. induction Hl as [|cur t Hcur Ht IH]; intros st Hst.
  - constructor.
  - simpl. pose proof (ewm_step_nonneg alpha st cur Ha0 Ha1 Hst Hcur) as Hst'.
    constructor.
    + apply ewm_out_nonneg. exact Hst'.
    + apply IH. exact Hst'.
Qed.

(** The exponentially weighted mean of cells that are not negative is not
    negative. *)
Lemma ewm_mean_nonneg (alpha : Q) (minp : nat) (l : list (option Q)) :
  0 < alpha -> alpha <= 1 ->
  Forall cell_nonneg l -> Forall cell_nonneg (ewm_mean alpha minp l).
Proof.
  intros Ha0 Ha1 Hl. destruct Hl as [|x t Hx Ht]; simpl.
  - constructor.
  - assert (Hst : ewm_state_nonneg
                    {| weighted := x; old_wt := 1;
                       nobs := match x with Some _ => 1 | None => 0 end |}).
    { split; [exact Hx|discriminate]. }
    constructor.
    + apply ewm_out_nonneg. exact Hst.
    + apply ewm_loop_nonneg; assumption.
Qed.

Lemma ewm_loop_length (alpha : Q) (minp : nat) (l : list (option Q)) :
  forall st, length (ewm_loop alpha minp st l) = length l.
Proof.
  induction l as [|c t IH]; intro st; simpl; [reflexivity|].
  rewrite IH. reflexivity.
Qed.

Lemma ewm_mean_length (alpha : Q) (minp : nat) (l : list (option Q)) :
  length (ewm_mean alpha minp l) = length l.
Proof.
  destruct l as [|x t]; simpl; [reflexivity|].
  rewrite ewm_loop_length. reflexivity.
Qed.

Lemma gains_of_nonneg (delta : list (option Q)) :
  Forall cell_nonneg (gains_of delta).
Proof.
  unfold gains_of. apply Forall_forall. intros c Hc.
  apply in_map_iff in Hc. destruct Hc as ([d|] & <- & _); simpl; [|exact I].
  destruct (Qmax_cases d 0) as [[H ->]|[H ->]]; [apply Qle_refl|exact H].
Qed.

Lemma losses_of_nonneg (delta : list (option Q)) :
  Forall cell_nonneg (losses_of delta).
Proof.
  unfold losses_of. apply Forall_forall. intros c Hc.
  apply in_map_iff in Hc. destruct Hc as ([d|] & <- & _); simpl; [|exact I].
  destruct (Qmin_cases d 0) as [[H ->]|[H ->]]; lra.
Qed.

Lemma alpha_of_period (period : positive) :
  0 < 1 / inject_Z (Z.pos period) /\ 1 / inject_Z (Z.pos period) <= 1.
Proof.
  assert (H1 : 1 <= inject_Z (Z.pos period)).
  { replace 1 with (inject_Z 1) by reflexivity. rewrite <- Zle_Qle. lia. }
  assert (H0 : 0 < inject_Z (Z.pos period)) by lra.
  split.
  - apply Qlt_shift_div_l; [exact H0|]. rewrite Qmult_0_l. reflexivity.
  - apply Qle_shift_div_r; [exact H0|]. lra.
Qed.

Lemma avg_gain_nonneg (close : list (option Q)) (period : positive) :
  Forall cell_nonneg (avg_gain close period).
Proof.
  destruct (alpha_of_period period) as [H0 H1].
  apply ewm_mean_nonneg; [exact H0|exact H1|apply gains_of_nonneg].
Qed.

Lemma avg_loss_nonneg (close : list (option Q)) (period : positive) :
  Forall cell_nonneg (avg_loss close period).
Proof.
  destruct (alpha_of_period period) as [H0 H1].
  apply ewm_mean_nonneg; [exact H0|exact H1|apply losses_of_nonneg].
Qed.

Lemma cell_nonneg_nth (l : list (option Q)) (i : nat) :
  Forall cell_nonneg l -> cell_nonneg (cell l i).
Proof.
  intro H. unfold cell.
  destruct (Nat.lt_ge_cases i (length l)) as [Hi|Hi].
  - rewrite Forall_forall in H. apply H. apply nth_In. exact Hi.
  - rewrite nth_overflow by exact Hi. exact I.
Qed.

(** Row [i] of the RSI column is [rsi_row] of row [i] of the two smoothed
    averages. *)
Lemma compute_rsi_cell (close : list (option Q)) (period : positive)
      (i : nat) :
  cell (compute_rsi close period) i
  = rsi_row (cell (avg_gain close period) i) (cell (avg_loss close period) i).
Proof.
  unfold compute_rsi, cell.
  change (@None Q) with ((fun '(g, l) => rsi_row g l) (@None Q, @None Q)) at 1.
  rewrite map_nth. rewrite combine_nth; [reflexivity|].
  unfold avg_gain, avg_loss. rewrite !ewm_mean_length.
  unfold gains_of, losses_of. rewrite !length_map. reflexivity.
Qed.

(** The three cases of one RSI cell, for smoothed averages that are not
    negative. *)
Lemma rsi_row_cases (g l : Q) :
  0 <= g -> 0 <= l ->
  (g == 0 -> rsi_row (Some g) (Some l) = Some 0)
  /\ (~ g == 0 -> l == 0 -> rsi_row (Some g) (Some l) = Some 100)
  /\ (~ g == 0 -> ~ l == 0 ->
      rsi_row (Some g) (Some l) = Some (100 - 100 / (1 + g / l))
      /\ 0 < 100 - 100 / (1 + g / l) /\ 100 - 100 / (1 + g / l) < 100).
Proof.
  intros Hg Hl. unfold rsi_row, rsi_formula, where_nonzero.
  split; [|split].
  - intro E. apply Qeq_bool_iff in E. rewrite E. reflexivity.
  - intros Eg El. apply Qeq_bool_false in Eg. apply Qeq_bool_iff in El.
    rewrite Eg, El. reflexivity.
  - intros Eg El.
    assert (Hg' : 0 < g) by (destruct (Qlt_le_dec 0 g) as [H|H]; [exact H|];
                             exfalso; apply Eg; lra).
    assert (Hl' : 0 < l) by (destruct (Qlt_le_dec 0 l) as [H|H]; [exact H|];
                             exfalso; apply El; lra).
    apply Qeq_bool_false in Eg. apply Qeq_bool_false in El.
    rewrite Eg, El. split; [reflexivity|].
    assert (Hrs : 0 < g / l).
    { apply Qlt_shift_div_l; [exact Hl'|]. rewrite Qmult_0_l. exact Hg'. }
    set (rs := g / l) in *.
    assert (Hd : 0 < 1 + rs) by lra.
    assert (Hq0 : 0 < 100 / (1 + rs)).
    { apply Qlt_shift_div_l; [exact Hd|]. rewrite Qmult_0_l. reflexivity. }
    assert (Hq1 : 100 / (1 + rs) < 100).
    { apply Qlt_shift_div_r; [exact Hd|]. nra. }
    lra.
Qed.

Lemma rsi_row_range (g l : option Q) (r : Q) :
  cell_nonneg g -> cell_nonneg l ->
  rsi_row g l = Some r -> 0 <= r /\ r <= 100.
Proof.
  intros Hg Hl.
  destruct g as [g|]; destruct l as [l|]; simpl in Hg, Hl.
  - destruct (rsi_row_cases g l Hg Hl) as (H0 & H100 & Hmid).
    destruct (Qeq_bool g 0) eqn:Eg.
    + apply Qeq_bool_iff in Eg. rewrite (H0 Eg).
      intro H. inversion H. split; [apply Qle_refl|discriminate].
    + apply Qeq_bool_false in Eg. destruct (Qeq_bool l 0) eqn:El.
      * apply Qeq_bool_iff in El. rewrite (H100 Eg El).
        intro H. inversion H. split; [discriminate|apply Qle_refl].
      * apply Qeq_bool_false in El.
        destruct (Hmid Eg El) as (E & Hlo & Hhi). rewrite E.
        intro H. inversion H. subst r. split; apply Qlt_le_weak; assumption.
  - unfold rsi_row, rsi_formula, where_nonzero.
    destruct (Qeq_bool g 0); [|discriminate].
    intro H. inversion H. split; [apply Qle_refl|discriminate].
  - unfold rsi_row, rsi_formula, where_nonzero.
    destruct (Qeq_bool l 0); [|discriminate].
    intro H. inversion H. split; [discriminate|apply Qle_refl].
  - discriminate.
Qed.

(** C8 as stated fails: in a flat market the smoothed average loss of row
    14 is zero, and the RSI of that row is 0, not 100. *)
Lemma C8_counterexample :
  exists l r : Q,
    cell (avg_loss Sample.flat_closes 14) 14 = Some l
    /\ l == 0
    /\ cell (compute_rsi Sample.flat_closes 14) 14 = Some r
    /\ ~ r == 100.
Proof.
  exists 0, 0.
  split; [vm_compute; reflexivity|].
  split; [reflexivity|].
  split; [vm_compute; reflexivity|].
  discriminate.
Qed.

(** C8, amended.  Every defined value of [compute_rsi] lies in [0, 100],
    for every close series (NaN cells included) and every period.  On a
    row where both smoothed averages are defined the value is 0 when the
    average gain is zero, 100 when the average loss is zero and the average
    gain is not, and 100 - 100 / (1 + gain / loss) otherwise. *)
Theorem C8_rsi_range :
  forall (close : list (option Q)) (period : positive) (i : nat),
    (forall r : Q,
        cell (compute_rsi close period) i = Some r -> 0 <= r /\ r <= 100)
    /\ (forall g l : Q,
          cell (avg_gain close period) i = Some g ->
          cell (avg_loss close period) i = Some l ->
          (g == 0 -> cell (compute_rsi close period) i = Some 0)
          /\ (~ g == 0 -> l == 0 ->
              cell (compute_rsi close period) i = Some 100)
          /\ (~ g == 0 -> ~ l == 0 ->
              cell (compute_rsi close period) i
              = Some (100 - 100 / (1 + g / l)))).
Proof.
  intros close period i.
  pose proof (cell_nonneg_nth _ i (avg_gain_nonneg close period)) as Hg.
  pose proof (cell_nonneg_nth _ i (avg_loss_nonneg close period)) as Hl.
  rewrite compute_rsi_cell. split.
  - intros r Hr. exact (rsi_row_range _ _ r Hg Hl Hr).
  - intros g l Eg El. rewrite Eg, El in *. simpl in Hg, Hl.
    destruct (rsi_row_cases g l Hg Hl) as (H0 & H100 & Hmid).
    split; [exact H0|]. split; [exact H100|].
    intros Ng Nl. exact (proj1 (Hmid Ng Nl)).
Qed.

(** Witness of C8 on the closes 1, 2, 1, 3, 2 with period 2: row 3 has
    average gain 5/4 and average loss 1/4, and RSI 250/3. *)
Lemma C8_rsi_range_witness :
  exists r : Q,
    cell (compute_rsi [Some 1; Some 2; Some 1; Some 3; Some 2] 2) 3 = Some r
    /\ 0 <= r /\ r <= 100 /\ r == 250 # 3.
Proof.
  destruct (cell (compute_rsi [Some 1; Some 2; Some 1; Some 3; Some 2] 2) 3)
    as [r|] eqn:E; [|vm_compute in E; discriminate].
  exists r. split; [reflexivity|].
  destruct (proj1 (C8_rsi_range [Some 1; Some 2; Some 1; Some 3; Some 2] 2 3)
              r E) as [H0 H1].
  split; [exact H0|]. split; [exact H1|].
  vm_compute in E. inversion E. reflexivity.
Defined.

(** ** strategy/gazp_breakout.py *)

Lemma bind_ok {A B} (r : result A) (k : A -> result B) (b : B) :
  bind r k = Ok b -> exists a, r = Ok a /\ k a = Ok b.
Proof.
  destruct r as [a|e]; simpl; [|discriminate]. intro H. exists a. auto.
Qed.

(** A signal carries the index of the bar that produced it. *)
Lemma eval_bar_ts (p : Strategy.StrategyParams) (df : list Row)
      (sh sl : list (option Q)) (i : nat) (s : Strategy.Signal) :
  Strategy.eval_bar p df sh sl i = Ok (Some s) -> Strategy.ts s = i.
Proof.
  unfold Strategy.eval_bar. intro H.
  apply bind_ok in H. destruct H as (pd & _ & H).
  destruct (_ || _ || pd).
  - destruct (close _); inversion H; reflexivity.
  - apply bind_ok in H. destruct H as (nd & _ & H).
    destruct (_ && nd).
    + destruct (close _); [inversion H; reflexivity|].
      destruct (high _); inversion H; reflexivity.
    + destruct (low _); [|discriminate].
      destruct (cell sl i); [|discriminate].
      destruct (_ && _); [|discriminate].
      destruct (close _); inversion H; reflexivity.
Qed.

(** The signals of a scan are exactly the signals of its bars. *)
Lemma scan_In (p : Strategy.StrategyParams) (df : list Row)
      (sh sl : list (option Q)) (s : Strategy.Signal) :
  forall idxs sigs,
    Strategy.scan p df sh sl idxs = Ok sigs ->
    (In s sigs <->
     exists i, In i idxs /\ Strategy.eval_bar p df sh sl i = Ok (Some s)).
Proof.
  induction idxs as [|i t IH]; intros sigs H; simpl in H.
  - inversion H. split; [contradiction|]. intros (i & [] & _).
  - apply bind_ok in H. destruct H as (o & Ho & H).
    apply bind_ok in H. destruct H as (rest & Hrest & H).
    inversion H; subst; clear H. specialize (IH rest Hrest).
    destruct o as [s0|].
    + split.
      * intros [E|Hin].
        -- subst s0. exists i. split; [left; reflexivity|exact Ho].
        -- apply IH in Hin. destruct Hin as (j & Hj & Hev).
           exists j. split; [right; exact Hj|exact Hev].
      * intros (j & [E|Hj] & Hev).
        -- subst j. rewrite Ho in Hev. inversion Hev. left. reflexivity.
        -- right. apply IH. exists j. auto.
    + split.
      * intro Hin. apply IH in Hin. destruct Hin as (j & Hj & Hev).
        exists j. split; [right; exact Hj|exact Hev].
      * intros (j & [E|Hj] & Hev).
        -- subst j. rewrite Ho in Hev. discriminate.
        -- apply IH. exists j. auto.
Qed.

(** C1 as stated fails: on thirty rising candles the default strategy
    signals a BUY on bar 1, well before bar 30. *)
Lemma C1_counterexample :
  exists (s : Strategy.Signal) (rest : list Strategy.Signal),
    Strategy.generate_signals Strategy.StrategyParams_default
                              Sample.rising_frame
    = Ok (s :: rest)
    /\ Strategy.type s = Strategy.BUY
    /\ Strategy.ts s = 1%nat
    /\ (Strategy.ts s
        < Strategy.min_bars_for_indicators Strategy.StrategyParams_default)%nat.
Proof.
  destruct (Strategy.generate_signals Strategy.StrategyParams_default
                                      Sample.rising_frame)
    as [[|s rest]|e] eqn:E; vm_compute in E; try discriminate.
  exists s, rest. inversion E; subst; clear E.
  split; [reflexivity|]. split; [reflexivity|]. split; [reflexivity|].
  simpl. lia.
Qed.

(** C1, amended.  A series shorter than [min_bars_for_indicators] yields
    no signals.  Otherwise the bars are evaluated from bar 1 on (bar 0
    alone is skipped): the signals returned are exactly those of the bars
    1 .. len-1, so every signal's bar index is at least 1 and below the
    length of the series. *)
Theorem C1_signals_from_bar_one :
  forall (p : Strategy.StrategyParams) (df : list Row),
    ((length df < Strategy.min_bars_for_indicators p)%nat ->
     Strategy.generate_signals p df = Ok [])
    /\ (forall sigs : list Strategy.Signal,
          Strategy.generate_signals p df = Ok sigs ->
          ((Strategy.min_bars_for_indicators p <= length df)%nat ->
           forall s : Strategy.Signal,
             In s sigs <->
             exists i : nat,
               (1 <= i < length df)%nat
               /\ Strategy.eval_bar p df (Strategy.swing_high_prev p df)
                                    (Strategy.swing_low_prev p df) i
                  = Ok (Some s))
          /\ (forall s : Strategy.Signal,
                In s sigs -> (1 <= Strategy.ts s < length df)%nat)).
Proof.
  intros p df. unfold Strategy.generate_signals.
  destruct (length df <? Strategy.min_bars_for_indicators p)%nat eqn:E.
  - apply Nat.ltb_lt in E. split; [reflexivity|].
    intros sigs H. inversion H; subst. split; [lia|]. intros s [].
  - apply Nat.ltb_ge in E. split; [lia|]. intros sigs H.
    destruct (Strategy.lookback_swing p =? 0)%nat; [discriminate|].
    unfold Strategy.swing_levels in H.
    assert (Hin : forall s : Strategy.Signal,
               In s sigs <->
               exists i : nat,
                 (1 <= i < length df)%nat
                 /\ Strategy.eval_bar p df (Strategy.swing_high_prev p df)
                                      (Strategy.swing_low_prev p df) i
                    = Ok (Some s)).
    { intro s. rewrite (scan_In p df _ _ s _ sigs H).
      split; intros (i & Hi & Hev); exists i; (split; [|exact Hev]).
      - apply in_seq in Hi. lia.
      - apply in_seq. lia. }
    split; [intros _; exact Hin|].
    intros s Hs. apply Hin in Hs. destruct Hs as (i & Hi & Hev).
    rewrite (eval_bar_ts _ _ _ _ _ _ Hev). exact Hi.
Qed.

(** Witness of C1: the four-bar frame yields nothing under the default
    minimum of 30 bars; with a three-bar minimum its signals come from
    bars 1 and 2. *)
Lemma C1_signals_from_bar_one_witness :
  Strategy.generate_signals Strategy.StrategyParams_default Sample.gap_frame
  = Ok []
  /\ exists sigs : list Strategy.Signal,
       Strategy.generate_signals Sample.short_params Sample.gap_frame
       = Ok sigs
       /\ map Strategy.ts sigs = [1%nat; 2%nat]
       /\ forall s, In s sigs -> (1 <= Strategy.ts s < 4)%nat.
Proof.
  split.
  - apply (proj1 (C1_signals_from_bar_one Strategy.StrategyParams_default
                    Sample.gap_frame)).
    simpl. lia.
  - destruct (Strategy.generate_signals Sample.short_params Sample.gap_frame)
      as [sigs|e] eqn:E; [|vm_compute in E; discriminate].
    exists sigs. split; [reflexivity|].
    destruct (proj2 (C1_signals_from_bar_one Sample.short_params
                       Sample.gap_frame) sigs E) as (_ & H).
    split; [|exact H].
    vm_compute in E. inversion E. reflexivity.
Defined.

(** Row [i] of a rolling aggregate reads the window that ends at row [i]. *)
Lemma rolling_cell (agg : list Q -> option Q) (w : nat)
      (l : list (option Q)) (i : nat) :
  (i < length l)%nat ->
  cell (rolling agg w l) i
  = agg (observations (slice (i + 1 - w) (i + 1) l)).
Proof.
  intro Hi. unfold cell, rolling.
  set (f := fun i => agg (observations (slice (i + 1 - w) (i + 1) l))).
  rewrite (nth_indep _ None (f 0%nat))
    by (rewrite length_map, length_seq; exact Hi).
  rewrite (map_nth f). rewrite seq_nth by exact Hi. reflexivity.
Qed.


Lemma rolling_length (agg : list Q -> option Q) (w : nat)
      (l : list (option Q)) :
  length (rolling agg w l) = length l.
Proof. unfold rolling. rewrite length_map, length_seq. reflexivity. Qed.


(** The running maximum is one of the values and bounds them all. *)
Lemma fold_left_Qmax_spec (t : list Q) :
  forall x : Q,
    (fold_left Qmax t x = x \/ In (fold_left Qmax t x) t)
    /\ x <= fold_left Qmax t x
    /\ (forall y, In y t -> y <= fold_left Qmax t x).
Proof.
  induction t as [|a t IH]; intro x; simpl.
  - split; [left; reflexivity|]. split; [apply Qle_refl|]. intros y [].
  - destruct (IH (Qmax x a)) as (Hin & Hle & Hall).
    destruct (Qmax_cases x a) as [[Hc E]|[Hc E]]; rewrite E in *.
    + split; [|split].
      * destruct Hin as [H|H]; [right; left; symmetry; exact H|right; right; exact H].
      * apply Qle_trans with a; [apply Qlt_le_weak; exact Hc|exact Hle].
      * intros y [Hy|Hy]; [subst y; exact Hle|apply Hall; exact Hy].
    + split; [|split].
      * destruct Hin as [H|H]; [left; exact H|right; right; exact H].
      * exact Hle.
      * intros y [Hy|Hy];
          [subst y; apply Qle_trans with x; assumption|apply Hall; exact Hy].
Qed.

Lemma list_max_spec (l : list Q) (m : Q) :
  list_max l = Some m -> In m l /\ (forall y, In y l -> y <= m).
Proof.
  destruct l as [|x t]; simpl; [discriminate|].
  intro H. inversion H; subst; clear H.
  destruct (fold_left_Qmax_spec t x) as (Hin & Hle & Hall).
  split.
  - destruct Hin as [E|Hin]; [left; symmetry; exact E|right; exact Hin].
  - intros y [Hy|Hy]; [subst y; exact Hle|apply Hall; exact Hy].
Qed.







(** ** backtest/runner.py *)

Import BacktestSpec.

(** What one pass of the loop body does to the state: nothing, or it opens
    a position and counts the trade directly, or it closes the position
    through [update_day_stats_on_close] and logs a row. *)
Lemma on_signal_cases (cfg : Backtest.Config) (lot : Z)
      (st st' : Backtest.RunState) (sig : Strategy.Signal)
      (bid ask : option Q) :
  coupled st ->
  Backtest.on_signal cfg lot st sig bid ask = Ok st' ->
  st' = st
  \/ (Backtest.open_pos st = None
      /\ Strategy.type sig = Strategy.BUY
      /\ (exists pos t, Backtest.open_pos st' = Some pos
                        /\ Backtest.entry_trade_meta st' = Some t)
      /\ Backtest.day_stats st' = Backtest.count_open (Backtest.day_stats st)
      /\ Backtest.trades_rows st' = Backtest.trades_rows st)
  \/ (exists pos meta t row,
         Backtest.open_pos st = Some pos
         /\ Backtest.entry_trade_meta st = Some meta
         /\ Strategy.type sig <> Strategy.BUY
         /\ Backtest.open_pos st' = None
         /\ Backtest.entry_trade_meta st' = None
         /\ Backtest.day_stats st'
            = update_day_stats_on_close (Backtest.day_stats st)
                (entry_price pos) (Exec.exec_price t) (Risk.qty_shares pos)
                (Exec.commission meta + Exec.commission t)
         /\ Backtest.trades_rows st' = Backtest.trades_rows st ++ [row]).
Proof.
  intros Hc H. unfold Backtest.on_signal in H.
  assert (Hsell :
    Backtest.on_sell cfg lot st sig bid ask = Ok st' ->
    Strategy.type sig <> Strategy.BUY ->
    st' = st
    \/ (exists pos meta t row,
         Backtest.open_pos st = Some pos
         /\ Backtest.entry_trade_meta st = Some meta
         /\ Strategy.type sig <> Strategy.BUY
         /\ Backtest.open_pos st' = None
         /\ Backtest.entry_trade_meta st' = None
         /\ Backtest.day_stats st'
            = update_day_stats_on_close (Backtest.day_stats st)
                (entry_price pos) (Exec.exec_price t) (Risk.qty_shares pos)
                (Exec.commission meta + Exec.commission t)
         /\ Backtest.trades_rows st' = Backtest.trades_rows st ++ [row])).
  { clear H. intros H Hty. unfold Backtest.on_sell in H.
    destruct (Backtest.open_pos st) as [pos|] eqn:Ep;
      [|left; inversion H; reflexivity].
    destruct (Backtest.entry_trade_meta st) as [meta|] eqn:Em;
      [|left; inversion H; reflexivity].
    apply bind_ok in H. destruct H as (o & _ & H).
    destruct o as [t|]; [|left; inversion H; reflexivity].
    destruct (Exec.qty_shares t <=? 0)%Z; [left; inversion H; reflexivity|].
    destruct (Qeq_bool (entry_price pos) 0); [discriminate|].
    right. inversion H; subst; clear H. simpl.
    do 4 eexists. repeat split; try reflexivity. exact Hty. }
  destruct (Strategy.type sig) eqn:Ety.
  - unfold Backtest.on_buy in H.
    destruct (Backtest.open_pos st) as [pos|] eqn:Ep;
      [left; inversion H; reflexivity|].
    destruct (negb (allow_new_trade _ _)); [left; inversion H; reflexivity|].
    apply bind_ok in H. destruct H as (o & _ & H).
    destruct o as [t|]; [|left; inversion H; reflexivity].
    destruct (Exec.qty_shares t <=? 0)%Z; [left; inversion H; reflexivity|].
    right. left. inversion H; subst; clear H. simpl.
    split; [reflexivity|]. split; [reflexivity|].
    split; [eexists; eexists; split; reflexivity|].
    split; reflexivity.
  - destruct (Hsell H ltac:(discriminate)) as [E|E]; [left; exact E|].
    right. right. exact E.
  - destruct (Hsell H ltac:(discriminate)) as [E|E]; [left; exact E|].
    right. right. exact E.
Qed.

Lemma step_cases (cfg : Backtest.Config) (lot : Z) (cdf : list Row)
      (st st' : Backtest.RunState) (sig : Strategy.Signal) :
  coupled st ->
  Backtest.step cfg lot cdf st sig = Ok st' ->
  exists bid ask, Backtest.on_signal cfg lot st sig bid ask = Ok st'
                  \/ st' = st.
Proof.
  intros Hc H. unfold Backtest.step in H.
  destruct (nth_error cdf (Strategy.ts sig)) as [bar|].
  - destruct (Backtest.best_bid_ask_from_bar bar) as [bid ask].
    exists bid, ask. left. exact H.
  - exists None, None. right. inversion H. reflexivity.
Qed.


Lemma step_invariant (cfg : Backtest.Config) (lot : Z) (cdf : list Row)
      (st st' : Backtest.RunState) (sig : Strategy.Signal) :
  coupled st ->
  Backtest.step cfg lot cdf st sig = Ok st' ->
  coupled st' /\ count_balance st' = count_balance st.
Proof.
  intros Hc H.
  destruct (step_cases cfg lot cdf st st' sig Hc H) as (bid & ask & [Hs|E]);
    [|subst st'; auto].
  destruct (on_signal_cases cfg lot st st' sig bid ask Hc Hs)
    as [E|[(Hop & _ & (pos & t & Hop' & Hm') & Hds & Hrows)
          |(pos & meta & t & row & Hop & Hm & _ & Hop' & Hm' & Hds & Hrows)]].
  - subst st'. auto.
  - split.
    + unfold coupled. rewrite Hop', Hm'. split; discriminate.
    + unfold count_balance, round_trips, held.
      rewrite Hop, Hop', Hds, Hrows. unfold Backtest.count_open.
      cbn [trades_count]. lia.
  - split.
    + unfold coupled. rewrite Hop', Hm'. tauto.
    + unfold count_balance, round_trips, held.
      rewrite Hop, Hop', Hds, Hrows. rewrite length_app.
      unfold update_day_stats_on_close. cbn [trades_count length].
      rewrite Nat2Z.inj_add. simpl Z.of_nat. lia.
Qed.

Lemma run_signals_invariant (cfg : Backtest.Config) (lot : Z) (cdf : list Row)
      (signals : list Strategy.Signal) :
  forall st st' : Backtest.RunState,
    coupled st ->
    Backtest.run_signals cfg lot cdf st signals = Ok st' ->
    coupled st' /\ count_balance st' = count_balance st.
Proof.
  induction signals as [|sig t IH]; intros st st' Hc H; simpl in H.
  - inversion H; subst. auto.
  - apply bind_ok in H. destruct H as (st1 & H1 & H2).
    destruct (step_invariant cfg lot cdf st st1 sig Hc H1) as [Hc1 E1].
    destruct (IH st1 st' Hc1 H2) as [Hc' E'].
    split; [exact Hc'|]. congruence.
Qed.

(** One pass of the loop, read off the position before and after it. *)
Lemma step_open_close (cfg : Backtest.Config) (lot : Z) (cdf : list Row)
      (st st' : Backtest.RunState) (sig : Strategy.Signal) :
  coupled st ->
  Backtest.step cfg lot cdf st sig = Ok st' ->
  (Backtest.open_pos st = None -> Backtest.open_pos st' <> None ->
   Backtest.day_stats st' = Backtest.count_open (Backtest.day_stats st)
   /\ round_trips st' = round_trips st)
  /\ (forall pos,
        Backtest.open_pos st = Some pos -> Backtest.open_pos st' = None ->
        (exists exit_price commission,
            Backtest.day_stats st'
            = update_day_stats_on_close (Backtest.day_stats st)
                (entry_price pos) exit_price (Risk.qty_shares pos) commission)
        /\ round_trips st' = (round_trips st + 1)%Z).
Proof.
  intros Hc H.
  destruct (step_cases cfg lot cdf st st' sig Hc H) as (bid & ask & [Hs|E]).
  - destruct (on_signal_cases cfg lot st st' sig bid ask Hc Hs)
      as [E|[(Hop & _ & (pos & t & Hop' & Hm') & Hds & Hrows)
            |(pos & meta & t & row & Hop & Hm & _ & Hop' & Hm' & Hds & Hrows)]].
    + subst st'. split; [intros H0 H1; contradiction|].
      intros pos H0 H1. congruence.
    + split.
      * intros _ _. split; [exact Hds|].
        unfold round_trips. rewrite Hrows. reflexivity.
      * intros pos0 H0. congruence.
    + split; [intros H0; congruence|].
      intros pos0 H0 _. assert (pos0 = pos) by congruence. subst pos0.
      split; [eauto|].
      unfold round_trips. rewrite Hrows, length_app. simpl. lia.
  - subst st'. split; [intros H0 H1; contradiction|].
    intros pos H0 H1. congruence.
Qed.

(** C10.  In the backtest loop a pass that opens a position adds one to
    [trades_count] directly, and a pass that closes it adds one more inside
    [update_day_stats_on_close]; a BUY fill followed by the SELL fill of
    the position therefore raises the counter by exactly 2 for one logged
    round trip.  Over any run of the loop the counter grows by two per
    completed round trip plus one for a position left open, so after [run]
    it is twice the number of logged trades (plus one while a position is
    open), and [allow_new_trade] admits a new entry only while twice the
    number of round trips is below [max_trades_per_day]. *)
Theorem C10_round_trip_counts_two :
  forall (cfg : Backtest.Config) (lot : Z),
    (forall (cdf : list Row) (st st' : Backtest.RunState)
            (sig : Strategy.Signal),
        coupled st ->
        Backtest.step cfg lot cdf st sig = Ok st' ->
        (Backtest.open_pos st = None -> Backtest.open_pos st' <> None ->
         Backtest.day_stats st' = Backtest.count_open (Backtest.day_stats st)
         /\ trades_count (Backtest.day_stats st')
            = (trades_count (Backtest.day_stats st) + 1)%Z)
        /\ (forall pos,
              Backtest.open_pos st = Some pos ->
              Backtest.open_pos st' = None ->
              (exists exit_price commission,
                  Backtest.day_stats st'
                  = update_day_stats_on_close (Backtest.day_stats st)
                      (entry_price pos) exit_price (Risk.qty_shares pos)
                      commission)
              /\ trades_count (Backtest.day_stats st')
                 = (trades_count (Backtest.day_stats st) + 1)%Z))
    /\ (forall (cdf : list Row) (st st1 st2 : Backtest.RunState)
               (b s : Strategy.Signal),
          coupled st ->
          Backtest.open_pos st = None ->
          Backtest.step cfg lot cdf st b = Ok st1 ->
          Backtest.open_pos st1 <> None ->
          Backtest.step cfg lot cdf st1 s = Ok st2 ->
          Backtest.open_pos st2 = None ->
          trades_count (Backtest.day_stats st2)
          = (trades_count (Backtest.day_stats st) + 2)%Z
          /\ round_trips st2 = (round_trips st + 1)%Z)
    /\ (forall (cdf : list Row) (signals : list Strategy.Signal)
               (st st' : Backtest.RunState),
          coupled st ->
          Backtest.run_signals cfg lot cdf st signals = Ok st' ->
          (trades_count (Backtest.day_stats st')
           - trades_count (Backtest.day_stats st)
           = 2 * (round_trips st' - round_trips st) + (held st' - held st))%Z)
    /\ (forall (candles : list Candle) (st' : Backtest.RunState),
          Backtest.run cfg lot candles = Ok st' ->
          trades_count (Backtest.day_stats st')
          = (2 * round_trips st' + held st')%Z
          /\ (allow_new_trade (Backtest.risk cfg) (Backtest.day_stats st')
              = true ->
              (2 * round_trips st' < max_trades_per_day (Backtest.risk cfg))%Z)).
Proof.
  intros cfg lot.
  assert (Hstep :
    forall (cdf : list Row) (st st' : Backtest.RunState)
           (sig : Strategy.Signal),
      coupled st ->
      Backtest.step cfg lot cdf st sig = Ok st' ->
      (Backtest.open_pos st = None -> Backtest.open_pos st' <> None ->
       Backtest.day_stats st' = Backtest.count_open (Backtest.day_stats st)
       /\ trades_count (Backtest.day_stats st')
          = (trades_count (Backtest.day_stats st) + 1)%Z)
      /\ (forall pos,
            Backtest.open_pos st = Some pos ->
            Backtest.open_pos st' = None ->
            (exists exit_price commission,
                Backtest.day_stats st'
                = update_day_stats_on_close (Backtest.day_stats st)
                    (entry_price pos) exit_price (Risk.qty_shares pos)
                    commission)
            /\ trades_count (Backtest.day_stats st')
               = (trades_count (Backtest.day_stats st) + 1)%Z)).
  { intros cdf st st' sig Hc H.
    destruct (step_open_close cfg lot cdf st st' sig Hc H) as [Ho Hcl].
    split.
    - intros H0 H1. destruct (Ho H0 H1) as [Hds _].
      split; [exact Hds|]. rewrite Hds. reflexivity.
    - intros pos H0 H1. destruct (Hcl pos H0 H1) as [(x & c & Hds) _].
      split; [eauto|]. rewrite Hds. reflexivity. }
  assert (Hrun :
    forall (cdf : list Row) (signals : list Strategy.Signal)
           (st st' : Backtest.RunState),
      coupled st ->
      Backtest.run_signals cfg lot cdf st signals = Ok st' ->
      (trades_count (Backtest.day_stats st')
       - trades_count (Backtest.day_stats st)
       = 2 * (round_trips st' - round_trips st) + (held st' - held st))%Z).
  { intros cdf signals st st' Hc H.
    destruct (run_signals_invariant cfg lot cdf signals st st' Hc H)
      as [_ E].
    unfold count_balance in E. lia. }
  split; [exact Hstep|]. split; [|split; [exact Hrun|]].
  - intros cdf st st1 st2 b s Hc Hnone H1 Hopen H2 Hclosed.
    destruct (step_invariant cfg lot cdf st st1 b Hc H1) as [Hc1 _].
    destruct (step_open_close cfg lot cdf st st1 b Hc H1) as [Ho _].
    destruct (Ho Hnone Hopen) as [Hds1 Hr1].
    destruct (Backtest.open_pos st1) as [pos|] eqn:Ep; [|congruence].
    destruct (step_open_close cfg lot cdf st1 st2 s Hc1 H2) as [_ Hcl].
    rewrite Ep in Hcl.
    destruct (Hcl pos eq_refl Hclosed) as [(x & c & Hds2) Hr2].
    split; [|lia].
    rewrite Hds2, Hds1. simpl. lia.
  - intros candles st' H.
    assert (Hinit : coupled Backtest.RunState_init)
      by (unfold coupled; simpl; tauto).
    assert (E : trades_count (Backtest.day_stats st')
                = (2 * round_trips st' + held st')%Z).
    { unfold Backtest.run in H. destruct candles as [|c t].
      - inversion H. reflexivity.
      - apply bind_ok in H. destruct H as (signals & _ & H).
        pose proof (Hrun _ _ _ _ Hinit H) as E.
        assert (E1 : round_trips Backtest.RunState_init = 0%Z) by reflexivity.
        assert (E2 : held Backtest.RunState_init = 0%Z) by reflexivity.
        assert (E3 : trades_count (Backtest.day_stats Backtest.RunState_init)
                     = 0%Z) by reflexivity.
        lia. }
    split; [exact E|].
    intro Hallow. unfold allow_new_trade in Hallow.
    destruct (max_trades_per_day (Backtest.risk cfg)
              <=? trades_count (Backtest.day_stats st'))%Z eqn:El;
      [discriminate|].
    apply Z.leb_gt in El. unfold held in E.
    destruct (Backtest.open_pos st'); lia.
Qed.

(** Witness of C10: the backtest of thirty rising candles and a drop makes
    one round trip and ends with a trade counter of 2. *)
Lemma C10_round_trip_counts_two_witness :
  exists st' : Backtest.RunState,
    Backtest.run Sample.config 10 Sample.round_trip_candles = Ok st'
    /\ round_trips st' = 1%Z
    /\ Backtest.open_pos st' = None
    /\ trades_count (Backtest.day_stats st') = 2%Z.
Proof.
  destruct (Backtest.run Sample.config 10 Sample.round_trip_candles)
    as [st'|e] eqn:E; [|vm_compute in E; discriminate].
  exists st'. split; [reflexivity|].
  destruct (C10_round_trip_counts_two Sample.config 10) as (_ & _ & _ & H).
  destruct (H Sample.round_trip_candles st' E) as [Hcount _].
  assert (Hst : round_trips st' = 1%Z /\ Backtest.open_pos st' = None).
  { vm_compute in E. inversion E. split; reflexivity. }
  destruct Hst as [Hr Ho].
  split; [exact Hr|]. split; [exact Ho|].
  rewrite Hcount, Hr. unfold held. rewrite Ho. reflexivity.
Defined.

(** ** core/trading_engine.py against backtest/runner.py *)

Import EngineSpec.

Lemma truthy_false_no_price (side : Exec.Side) (q other : option Q) (s : Q) :
  truthy q = false ->
  match side with
  | Exec.BUY => Exec.calc_exec_price Exec.BUY other q s = None
  | Exec.SELL => Exec.calc_exec_price Exec.SELL q other s = None
  end.
Proof.
  unfold truthy. intro H.
  destruct q as [x|]; [|destruct side; reflexivity].
  apply negb_false_iff in H. apply Qeq_bool_iff in H.
  assert (E : Qle_bool x 0 = true) by (apply Qle_bool_iff; rewrite H; apply Qle_refl).
  destruct side; simpl; rewrite E; reflexivity.
Qed.

Lemma por_truthy (a b : option Q) : truthy b = true -> truthy (por a b) = true.
Proof.
  intro H. unfold por. destruct (truthy a) eqn:E; [exact E|exact H].
Qed.

(** A BUY leaves the same position in both orchestrators. *)
Lemma buy_positions_agree (cfg : Backtest.Config) (lot : Z)
      (rs : Backtest.RunState) (es : Engine.EngineState)
      (sig : Strategy.Signal) (md : Engine.MarketData) :
  Backtest.open_pos rs = Engine.current_position es ->
  Backtest.day_stats rs = Engine.day_stats es ->
  Strategy.type sig = Strategy.BUY ->
  rmap Backtest.open_pos (runner_step cfg lot rs sig md)
  = rmap Engine.current_position (Engine.process_signal cfg lot es sig md).
Proof.
  intros Hpos Hds Hty.
  unfold runner_step, Backtest.on_signal, Engine.process_signal.
  rewrite Hty. unfold Backtest.on_buy, Engine.process_buy.
  rewrite <- Hds, <- Hpos.
  destruct (Backtest.open_pos rs) as [pos|] eqn:Ep.
  - destruct (negb (allow_new_trade _ _)); simpl; congruence.
  - destruct (negb (allow_new_trade _ _)); [simpl; congruence|].
    destruct (truthy (Engine.OFFER md)) eqn:Et.
    + rewrite (por_truthy _ _ Et). simpl negb. simpl orb. cbv iota.
      match goal with
      | |- rmap _ (bind ?e _) = _ => destruct e as [[t|]|e'] eqn:Ee
      end; simpl; try congruence.
      assert (Hq : (0 < Exec.qty_shares t)%Z).
      { destruct (execute_inv _ _ _ Ee) as (_ & _ & _ & _ & Hq & _).
        exact Hq. }
      apply Z.leb_gt in Hq. rewrite Hq. reflexivity.
    + simpl negb. simpl orb. cbv iota.
      pose proof (truthy_false_no_price Exec.BUY (Engine.OFFER md)
                    (Engine.BID md) (Backtest.slippage_pct cfg) Et) as Hn.
      unfold Exec.execute.
      cbn [Exec.side Exec.best_bid Exec.best_ask Exec.slippage_pct].
      rewrite Hn. simpl. congruence.
Qed.

(** An exit signal on an open position while the daily limits admit a
    trade: both orchestrators submit [exit_request]; without a fill both
    keep their state, with a fill both clear the position and fold the
    close into the day statistics, the backtest with the commissions of
    both sides and the engine with the exit commission alone. *)
Lemma sell_outcomes (cfg : Backtest.Config) (lot : Z)
      (rs : Backtest.RunState) (es : Engine.EngineState)
      (sig : Strategy.Signal) (md : Engine.MarketData)
      (pos : Position) (meta : Exec.ExecutedTrade) :
  Backtest.open_pos rs = Some pos ->
  Backtest.entry_trade_meta rs = Some meta ->
  Engine.current_position es = Some pos ->
  Engine.day_stats es = Backtest.day_stats rs ->
  Strategy.type sig <> Strategy.BUY ->
  allow_new_trade (Backtest.risk cfg) (Backtest.day_stats rs) = true ->
  ~ entry_price pos == 0 ->
  match Exec.execute (exit_request cfg lot sig md pos) (Strategy.reason sig)
  with
  | Raise e =>
      runner_step cfg lot rs sig md = Raise e
      /\ Engine.process_signal cfg lot es sig md = Raise e
  | Ok None =>
      runner_step cfg lot rs sig md = Ok rs
      /\ Engine.process_signal cfg lot es sig md = Ok es
  | Ok (Some t) =>
      exists rs' es',
        runner_step cfg lot rs sig md = Ok rs'
        /\ Engine.process_signal cfg lot es sig md = Ok es'
        /\ Backtest.open_pos rs' = None
        /\ Engine.current_position es' = None
        /\ Backtest.day_stats rs'
           = update_day_stats_on_close (Backtest.day_stats rs)
               (entry_price pos) (Exec.exec_price t) (Risk.qty_shares pos)
               (Exec.commission meta + Exec.commission t)
        /\ Engine.day_stats es'
           = update_day_stats_on_close (Backtest.day_stats rs)
               (entry_price pos) (Exec.exec_price t) (Risk.qty_shares pos)
               (Exec.commission t)
  end.
Proof.
  intros Hrp Hrm Hep Hds Hty Hallow Hentry.
  assert (Hrun : runner_step cfg lot rs sig md
                 = Backtest.on_sell cfg lot rs sig (Engine.BID md)
                                    (Engine.OFFER md)).
  { unfold runner_step, Backtest.on_signal.
    destruct (Strategy.type sig); [congruence|reflexivity|reflexivity]. }
  assert (Heng : Engine.process_signal cfg lot es sig md
                 = Engine.process_sell cfg lot es sig md).
  { unfold Engine.process_signal. rewrite Hds, Hallow. simpl.
    destruct (Strategy.type sig); [congruence|reflexivity|reflexivity]. }
  rewrite Hrun, Heng. unfold Backtest.on_sell, Engine.process_sell.
  rewrite Hrp, Hrm, Hep. fold (exit_request cfg lot sig md pos).
  apply Qeq_bool_false in Hentry.
  destruct (truthy (Engine.BID md)) eqn:Et; simpl negb; cbv iota.
  - destruct (Exec.execute (exit_request cfg lot sig md pos)
                           (Strategy.reason sig)) as [[t|]|e] eqn:Ee;
      simpl; auto.
    assert (Hq : (0 < Exec.qty_shares t)%Z).
    { destruct (execute_inv _ _ _ Ee) as (_ & _ & _ & _ & Hq & _).
      exact Hq. }
    apply Z.leb_gt in Hq. rewrite Hq, Hentry.
    do 2 eexists. split; [reflexivity|]. split; [reflexivity|].
    simpl. rewrite Hds. repeat split.
  - pose proof (truthy_false_no_price Exec.SELL (Engine.BID md)
                  (Engine.OFFER md) (Backtest.slippage_pct cfg) Et) as Hn.
    assert (Ee : Exec.execute (exit_request cfg lot sig md pos)
                              (Strategy.reason sig) = Ok None).
    { unfold Exec.execute, exit_request.
      cbn [Exec.side Exec.best_bid Exec.best_ask Exec.slippage_pct].
      rewrite Hn. reflexivity. }
    rewrite Ee. simpl. auto.
Qed.

(** C2 as stated fails: fed the same BUY and SELL with the same quotes
    from a fresh state, both orchestrators complete the round trip, but
    the backtest ends the day with a trade counter of 2 and the engine
    with 1, and their realized PnL differs. *)
Lemma C2_counterexample :
  exists (rs : Backtest.RunState) (es : Engine.EngineState),
    bind (runner_step Sample.config 10 Backtest.RunState_init
                      Sample.buy_signal Sample.quotes_in)
         (fun rs1 => runner_step Sample.config 10 rs1 Sample.sell_signal
                                 Sample.quotes_out)
    = Ok rs
    /\ bind (Engine.process_signal Sample.config 10 Engine.EngineState_init
                                   Sample.buy_signal Sample.quotes_in)
            (fun es1 => Engine.process_signal Sample.config 10 es1
                                              Sample.sell_signal
                                              Sample.quotes_out)
       = Ok es
    /\ Backtest.open_pos rs = None
    /\ Engine.current_position es = None
    /\ trades_count (Backtest.day_stats rs) = 2%Z
    /\ trades_count (Engine.day_stats es) = 1%Z
    /\ ~ realized_pnl_rub (Backtest.day_stats rs)
         == realized_pnl_rub (Engine.day_stats es).
Proof.
  eexists. eexists.
  split; [vm_compute; reflexivity|].
  split; [vm_compute; reflexivity|].
  split; [reflexivity|]. split; [reflexivity|].
  split; [reflexivity|]. split; [reflexivity|].
  vm_compute. discriminate.
Qed.

(** C2, amended.  From states that hold the same position and the same
    day statistics, and with the same quotes, lot size and configuration:
    a BUY leaves the same position in both orchestrators (both ignore it
    while a position is open or the daily limits refuse it, both open the
    same position with the same stops otherwise); an exit signal without a
    position changes neither; an exit signal on an open position, while
    the daily limits admit a trade, leaves the same position in both, and
    when it fills both fold the close into the day statistics through
    [update_day_stats_on_close] with the same entry price, exit price and
    quantity, the backtest charging the commissions of both sides and the
    engine the exit commission alone. *)
Theorem C2_engine_matches_backtest :
  forall (cfg : Backtest.Config) (lot : Z)
         (rs : Backtest.RunState) (es : Engine.EngineState)
         (sig : Strategy.Signal) (md : Engine.MarketData),
    coupled rs ->
    Backtest.open_pos rs = Engine.current_position es ->
    Backtest.day_stats rs = Engine.day_stats es ->
    (Strategy.type sig = Strategy.BUY ->
     rmap Backtest.open_pos (runner_step cfg lot rs sig md)
     = rmap Engine.current_position
            (Engine.process_signal cfg lot es sig md))
    /\ (Strategy.type sig = Strategy.BUY ->
        Backtest.open_pos rs <> None
        \/ allow_new_trade (Backtest.risk cfg) (Backtest.day_stats rs)
           = false ->
        runner_step cfg lot rs sig md = Ok rs
        /\ Engine.process_signal cfg lot es sig md = Ok es)
    /\ (Strategy.type sig <> Strategy.BUY ->
        Backtest.open_pos rs = None ->
        runner_step cfg lot rs sig md = Ok rs
        /\ Engine.process_signal cfg lot es sig md = Ok es)
    /\ (Strategy.type sig <> Strategy.BUY ->
        allow_new_trade (Backtest.risk cfg) (Backtest.day_stats rs) = true ->
        forall pos : Position,
          Backtest.open_pos rs = Some pos ->
          ~ entry_price pos == 0 ->
          rmap Backtest.open_pos (runner_step cfg lot rs sig md)
          = rmap Engine.current_position
                 (Engine.process_signal cfg lot es sig md)
          /\ (forall rs' es',
                runner_step cfg lot rs sig md = Ok rs' ->
                Engine.process_signal cfg lot es sig md = Ok es' ->
                Backtest.open_pos rs' = None ->
                exists (meta t : Exec.ExecutedTrade),
                  Backtest.entry_trade_meta rs = Some meta
                  /\ Backtest.day_stats rs'
                     = update_day_stats_on_close (Backtest.day_stats rs)
                         (entry_price pos) (Exec.exec_price t)
                         (Risk.qty_shares pos)
                         (Exec.commission meta + Exec.commission t)
                  /\ Engine.day_stats es'
                     = update_day_stats_on_close (Backtest.day_stats rs)
                         (entry_price pos) (Exec.exec_price t)
                         (Risk.qty_shares pos) (Exec.commission t))).
Proof.
  intros cfg lot rs es sig md Hc Hpos Hds.
  split; [|split; [|split]].
  - intro Hty. apply buy_positions_agree; assumption.
  - intros Hty Hlim.
    unfold runner_step, Backtest.on_signal, Engine.process_signal.
    rewrite Hty. unfold Backtest.on_buy, Engine.process_buy.
    rewrite <- Hds, <- Hpos.
    destruct (Backtest.open_pos rs) as [pos|] eqn:Ep.
    + destruct (negb (allow_new_trade _ _)); auto.
    + destruct Hlim as [H|H]; [congruence|]. rewrite H. simpl. auto.
  - intros Hty Hnone.
    assert (Hen : Engine.current_position es = None) by congruence.
    split.
    + unfold runner_step, Backtest.on_signal, Backtest.on_sell.
      rewrite Hnone. destruct (Strategy.type sig); [congruence| |]; reflexivity.
    + unfold Engine.process_signal, Engine.process_sell.
      rewrite Hen. destruct (negb (allow_new_trade _ _)); [reflexivity|].
      destruct (Strategy.type sig); [congruence| |]; reflexivity.
  - intros Hty Hallow pos Hrp Hentry.
    destruct (Backtest.entry_trade_meta rs) as [meta|] eqn:Hrm.
    2:{ exfalso. apply Hc in Hrm. congruence. }
    assert (Hep : Engine.current_position es = Some pos) by congruence.
    pose proof (sell_outcomes cfg lot rs es sig md pos meta Hrp Hrm Hep
                  (eq_sym Hds) Hty Hallow Hentry) as H.
    destruct (Exec.execute (exit_request cfg lot sig md pos)
                           (Strategy.reason sig)) as [[t|]|e].
    + destruct H as (rs' & es' & Hr & He & Hr0 & He0 & Hrd & Hed).
      rewrite Hr, He. simpl. split; [congruence|].
      intros rs2 es2 E1 E2 _. inversion E1; inversion E2; subst.
      exists meta, t. auto.
    + destruct H as [Hr He]. rewrite Hr, He. simpl. split; [congruence|].
      intros rs2 es2 E1 E2 Hn. inversion E1; subst. congruence.
    + destruct H as [Hr He]. rewrite Hr, He. simpl. split; [reflexivity|].
      intros rs2 es2 E1. discriminate.
Qed.

(** Witness of C2: from fresh states the BUY at ask 101 opens the same
    position of 290 shares in both orchestrators. *)
Lemma C2_engine_matches_backtest_witness :
  rmap Backtest.open_pos
       (runner_step Sample.config 10 Backtest.RunState_init
                    Sample.buy_signal Sample.quotes_in)
  = rmap Engine.current_position
         (Engine.process_signal Sample.config 10 Engine.EngineState_init
                                Sample.buy_signal Sample.quotes_in)
  /\ exists pos : Position,
       rmap Engine.current_position
            (Engine.process_signal Sample.config 10 Engine.EngineState_init
                                   Sample.buy_signal Sample.quotes_in)
       = Ok (Some pos)
       /\ Risk.qty_shares pos = 290%Z.
Proof.
  split.
  - refine (proj1 (C2_engine_matches_backtest Sample.config 10
                     Backtest.RunState_init Engine.EngineState_init
                     Sample.buy_signal Sample.quotes_in _ eq_refl eq_refl)
                  eq_refl).
    unfold coupled. simpl. split; reflexivity.
  - eexists. split; [vm_compute; reflexivity|reflexivity].
Defined.

(** What the amended claim leaves out: once the daily limits refuse new
    trades the engine drops exit signals as well, while the backtest still
    closes the position. *)
Remark engine_drops_exit_at_limit :
  let es := {| Engine.current_position := Some Sample.held_position;
               Engine.day_stats := Sample.spent_day;
               Engine.total_pnl := 0;
               Engine.trade_history := [];
               Engine.trades_executed := 1 |} in
  let rs := {| Backtest.open_pos := Some Sample.held_position;
               Backtest.entry_trade_meta := Some Sample.entry_trade;
               Backtest.day_stats := Sample.spent_day;
               Backtest.trades_rows := [] |} in
  Engine.process_signal Sample.config 10 es Sample.sell_signal
                        Sample.quotes_out = Ok es
  /\ rmap Backtest.open_pos
          (runner_step Sample.config 10 rs Sample.sell_signal
                       Sample.quotes_out) = Ok None.
Proof.
  split; vm_compute; reflexivity.
Qed.

(** ** async_client.py *)

Import Breaker BreakerSpec.

Lemma record_failure_open (c : Client) (now : Z) (cb : CircuitBreakerState) :
  state (record_failure c now cb) = open <->
  (circuit_breaker_threshold c <= failures cb + 1)%Z \/ state cb = open.
Proof.
  unfold record_failure. simpl.
  destruct (circuit_breaker_threshold c <=? failures cb + 1)%Z eqn:E.
  - apply Z.leb_le in E. tauto.
  - apply Z.leb_gt in E. split; [auto|]. intros [H|H]; [lia|exact H].
Qed.

Lemma apply_event_tracks (c : Client) (cb : CircuitBreakerState) (n : Z)
      (e : Event) :
  tracks c cb n ->
  tracks c (apply_event c cb e)
         (match e with Failed _ => 1 + n | Succeeded => n end)%Z.
Proof.
  intros [Hf Hs]. destruct e as [now|]; cbn [apply_event].
  - unfold tracks, record_failure. cbn [failures state]. rewrite Hf.
    replace (n + 1)%Z with (1 + n)%Z by lia. split; [reflexivity|].
    destruct (circuit_breaker_threshold c <=? 1 + n)%Z eqn:E; [reflexivity|].
    rewrite Hs. apply Z.leb_gt in E.
    destruct (circuit_breaker_threshold c <=? n)%Z eqn:E'; [|reflexivity].
    apply Z.leb_le in E'. lia.
  - assert (E : record_success cb = cb).
    { unfold record_success. rewrite Hs.
      destruct (circuit_breaker_threshold c <=? n)%Z; reflexivity. }
    rewrite E. split; assumption.
Qed.

Lemma apply_events_tracks (c : Client) (es : list Event) :
  forall (cb : CircuitBreakerState) (n : Z),
    tracks c cb n -> tracks c (apply_events c cb es) (n + count_failed es)%Z.
Proof.
  unfold apply_events.
  induction es as [|e t IH]; intros cb n H; cbn [fold_left count_failed].
  - rewrite Z.add_0_r. exact H.
  - pose proof (apply_event_tracks c cb n e H) as H'.
    apply IH in H'. destruct e as [now|].
    + replace (n + (1 + count_failed t))%Z
        with (1 + n + count_failed t)%Z by lia. exact H'.
    + exact H'.
Qed.

(** Every state the breaker can reach that is open or on trial has a
    failure count at or above the threshold. *)
Lemma reachable_tripped_ok (c : Client) (cb : CircuitBreakerState) :
  reachable c cb -> tripped_ok c cb.
Proof.
  unfold tripped_ok. induction 1 as [|now cb Hr IH|cb Hr IH|now cb Hr IH].
  - simpl. congruence.
  - unfold check_circuit_breaker.
    destruct (state cb) eqn:Es; simpl; try (rewrite Es; exact IH).
    destruct (_ <? _)%Z; simpl; [|rewrite Es; exact IH].
    intros _. apply IH. congruence.
  - unfold record_success.
    destruct (state cb) eqn:Es; simpl; try (rewrite Es; exact IH).
    congruence.
  - unfold record_failure. simpl.
    destruct (circuit_breaker_threshold c <=? failures cb + 1)%Z eqn:E.
    + intros _. apply Z.leb_le in E. exact E.
    + intro Hs. specialize (IH Hs). lia.
Qed.

(** C3 as stated fails: with a threshold of 3, two failures, a success and
    one more failure open the breaker, although the state before the last
    failure was closed and only one failure is consecutive. *)
Lemma C3_counterexample :
  state (apply_events client3 CircuitBreakerState_default
                      [Failed 1; Failed 2; Succeeded]) = closed
  /\ state (apply_events client3 CircuitBreakerState_default interleaved)
     = open
  /\ consecutive_failures interleaved = 1%Z
  /\ (consecutive_failures interleaved < circuit_breaker_threshold client3)%Z.
Proof.
  repeat split.
Qed.

(** C3, amended.  Recording a failure opens the breaker exactly when the
    failure count, which a success resets only on trial, reaches the
    threshold (or the breaker is open already); from a fresh breaker that
    never let a trial request through, the state is open exactly when the
    failures recorded so far, consecutive or not, number at least the
    threshold.  While open, a request checked no later than the timeout
    after the last failure is rejected and makes no network call; checked
    later it is allowed and the breaker goes on trial.  On trial a
    recorded success closes the breaker and resets the count, and a
    recorded failure opens it again. *)
Theorem C3_circuit_breaker :
  forall c : Client,
    (forall (now : Z) (cb : CircuitBreakerState),
        state (record_failure c now cb) = open <->
        (circuit_breaker_threshold c <= failures cb + 1)%Z \/ state cb = open)
    /\ (forall es : list Event,
          (0 < circuit_breaker_threshold c)%Z ->
          (state (apply_events c CircuitBreakerState_default es) = open <->
           (circuit_breaker_threshold c <= count_failed es)%Z))
    /\ (forall (now t since : Z) (net : nat -> Attempt)
               (cb : CircuitBreakerState),
          state cb = open ->
          last_failure_time cb = Some since ->
          (now - since <= circuit_breaker_timeout c)%Z ->
          check_circuit_breaker c now cb = (false, cb)
          /\ request_json c now t net cb
             = {| breaker := cb; returned := false; network_calls := 0 |})
    /\ (forall (now since : Z) (cb : CircuitBreakerState),
          state cb = open ->
          last_failure_time cb = Some since ->
          (circuit_breaker_timeout c < now - since)%Z ->
          fst (check_circuit_breaker c now cb) = true
          /\ state (snd (check_circuit_breaker c now cb)) = half_open
          /\ failures (snd (check_circuit_breaker c now cb)) = failures cb)
    /\ (forall cb : CircuitBreakerState,
          state cb = half_open ->
          state (record_success cb) = closed
          /\ failures (record_success cb) = 0%Z)
    /\ (forall (now : Z) (cb : CircuitBreakerState),
          reachable c cb ->
          state cb = half_open ->
          state (record_failure c now cb) = open).
Proof.
  intro c. split; [|split; [|split; [|split; [|split]]]].
  - intros now cb. apply record_failure_open.
  - intros es Hth.
    assert (H0 : tracks c CircuitBreakerState_default 0).
    { unfold tracks. simpl. split; [reflexivity|].
      destruct (circuit_breaker_threshold c <=? 0)%Z eqn:E; [|reflexivity].
      apply Z.leb_le in E. lia. }
    destruct (apply_events_tracks c es _ _ H0) as [_ Hs].
    rewrite Hs. simpl.
    destruct (circuit_breaker_threshold c <=? count_failed es)%Z eqn:E.
    + apply Z.leb_le in E. tauto.
    + apply Z.leb_gt in E. split; [discriminate|lia].
  - intros now t since net cb Hs Hl Hle.
    assert (E : check_circuit_breaker c now cb = (false, cb)).
    { unfold check_circuit_breaker. rewrite Hs, Hl.
      assert (El : (circuit_breaker_timeout c <? now - since)%Z = false)
        by (apply Z.ltb_ge; exact Hle).
      rewrite El. reflexivity. }
    split; [exact E|]. unfold request_json. rewrite E. reflexivity.
  - intros now since cb Hs Hl Hlt.
    unfold check_circuit_breaker. rewrite Hs, Hl.
    apply Z.ltb_lt in Hlt. rewrite Hlt. simpl. auto.
  - intros cb Hs. unfold record_success. rewrite Hs. simpl. auto.
  - intros now cb Hr Hs. apply record_failure_open. left.
    pose proof (reachable_tripped_ok c cb Hr) as H. unfold tripped_ok in H.
    assert (state cb <> closed) by congruence. specialize (H H0). lia.
Qed.

(** Witness of C3 on the default client: five failures open the breaker;
    a request 60 units after the last failure is rejected without a
    network call; one 61 units after it is let through on trial, and its
    success closes the breaker with a count of zero. *)
Lemma C3_circuit_breaker_witness :
  let cb := apply_events client CircuitBreakerState_default five_failures in
  state cb = open
  /\ request_json client 65 65 (fun _ => Success) cb
     = {| breaker := cb; returned := false; network_calls := 0 |}
  /\ state (snd (check_circuit_breaker client 66 cb)) = half_open
  /\ state (record_success (snd (check_circuit_breaker client 66 cb)))
     = closed
  /\ failures (record_success (snd (check_circuit_breaker client 66 cb)))
     = 0%Z.
Proof.
  intro cb.
  destruct (C3_circuit_breaker client) as (_ & Hopen & Hrej & Htrial & Hok & _).
  assert (Hs : state cb = open).
  { apply Hopen; [reflexivity|]. simpl. lia. }
  split; [exact Hs|]. split.
  - exact (proj2 (Hrej 65%Z 65%Z 5%Z (fun _ => Success) cb Hs eq_refl
                       ltac:(simpl; lia))).
  - destruct (Htrial 66%Z 5%Z cb Hs eq_refl ltac:(simpl; lia))
      as (_ & Hh & _).
    split; [exact Hh|]. exact (Hok _ Hh).
Defined.

(** On trial the check lets every request through, not only the first:
    the breaker leaves the trial state only when a reply is recorded. *)
Remark half_open_allows_every_request :
  forall (c : Client) (now : Z) (cb : CircuitBreakerState),
    state cb = half_open -> check_circuit_breaker c now cb = (true, cb).
Proof.
  intros c now cb H. unfold check_circuit_breaker. rewrite H. reflexivity.
Qed.

(* ================================================================== *)
(** * Further properties of the code                                   *)
(* ================================================================== *)

(** ** risk/manager.py *)

(** X1.  Closing a trade never lowers the trade counter or the realized
    loss, so once [allow_new_trade] refuses a day's statistics it refuses
    them after every further close: a daily limit that was hit stays hit,
    whatever the later trades earn. *)
Theorem X1_daily_limits_stay_hit :
  forall (risk : RiskLimits) (stats : DayStats) (entry exit_ : Q) (qty : Z)
         (commission : Q),
    let stats' := update_day_stats_on_close stats entry exit_ qty commission in
    (trades_count stats <= trades_count stats')%Z
    /\ realized_loss_rub stats <= realized_loss_rub stats'
    /\ (allow_new_trade risk stats = false ->
        allow_new_trade risk stats' = false).
Proof.
  intros risk stats entry exit_ qty commission stats'.
  assert (Hc : (trades_count stats <= trades_count stats')%Z).
  { unfold stats', update_day_stats_on_close. simpl. lia. }
  assert (Hl : realized_loss_rub stats <= realized_loss_rub stats').
  { unfold stats', update_day_stats_on_close. cbn [realized_loss_rub].
    destruct (Qlt_bool _ 0); [|apply Qle_refl].
    pose proof (Qabs_nonneg (close_pnl entry exit_ qty commission)). lra. }
  split; [exact Hc|]. split; [exact Hl|].
  unfold allow_new_trade.
  destruct (max_trades_per_day risk <=? trades_count stats)%Z eqn:E1.
  - intros _. apply Z.leb_le in E1.
    assert (E : (max_trades_per_day risk <=? trades_count stats')%Z = true)
      by (apply Z.leb_le; lia).
    rewrite E. reflexivity.
  - destruct (Qle_bool (daily_loss_limit_rub risk) (realized_loss_rub stats))
      eqn:E2; [|discriminate].
    intros _. apply Qle_bool_iff in E2.
    destruct (max_trades_per_day risk <=? trades_count stats')%Z;
      [reflexivity|].
    assert (E : Qle_bool (daily_loss_limit_rub risk)
                         (realized_loss_rub stats') = true)
      by (apply Qle_bool_iff; lra).
    rewrite E. reflexivity.
Qed.

(** Witness of X1: the day with five trades is refused before and after a
    profitable close. *)
Lemma X1_daily_limits_stay_hit_witness :
  allow_new_trade Sample.limits Sample2.bad_day = false
  /\ allow_new_trade Sample.limits
       (update_day_stats_on_close Sample2.bad_day 100 110 10 1) = false.
Proof.
  split; [reflexivity|].
  exact (proj2 (proj2 (X1_daily_limits_stay_hit Sample.limits Sample2.bad_day
                         100 110 10 1)) eq_refl).
Defined.



(** ** execution/simulator.py *)

(** Whatever the price, lot size and cap, the cap sizing returns a number
    of lots that is not negative with its shares, and a positive number
    only for a positive price, lot size and cap that it fits. *)
Lemma position_value_limit_sizing_any (p : Q) (lot : Z) (cap : Q) :
  exists k : Z,
    Exec.position_value_limit_sizing (Some p) lot cap = (k, (k * lot)%Z)
    /\ (0 <= k)%Z
    /\ ((0 < k)%Z ->
        0 < p /\ (0 < lot)%Z /\ inject_Z (k * lot) * p <= cap).
Proof.
  destruct (Qlt_le_dec 0 p) as [Hp|Hp];
    [destruct (Z_lt_le_dec 0 lot) as [Hl|Hl];
     [destruct (Qlt_le_dec 0 cap) as [Hc|Hc]|]|].
  - destruct (position_value_limit_sizing_spec p lot cap Hp Hl Hc)
      as (k & E & H0 & Hfit & _).
    exists k. auto.
  - exists 0%Z. rewrite position_value_limit_sizing_zero by auto.
    split; [reflexivity|]. split; lia.
  - exists 0%Z. rewrite position_value_limit_sizing_zero by auto.
    split; [reflexivity|]. split; lia.
  - exists 0%Z. rewrite position_value_limit_sizing_zero by auto.
    split; [reflexivity|]. split; lia.
Qed.

(** The sizing step returns whole lots. *)
Lemma sizing_whole_lots (inp : Exec.ExecutionInput) (p : Q) (l q : Z) :
  Exec.sizing inp p = Ok (l, q) -> q = (l * Exec.lot_size inp)%Z.
Proof.
  unfold Exec.sizing.
  destruct (position_value_limit_sizing_any p (Exec.lot_size inp)
              (Exec.max_position_rub inp)) as (k & Ek & _).
  destruct (Exec.desired_position_shares inp) as [d|].
  - destruct (negb (d =? 0)%Z && (0 <? d)%Z).
    + unfold floordiv. destruct (Exec.lot_size inp =? 0)%Z; [discriminate|].
      cbv beta iota zeta delta [bind].
      destruct (Qlt_bool _ _).
      * rewrite Ek. intro H. inversion H. reflexivity.
      * intro H. inversion H. reflexivity.
    + rewrite Ek. intro H. inversion H. reflexivity.
  - rewrite Ek. intro H. inversion H. reflexivity.
Qed.

(** The money fields of a returned trade. *)
Lemma execute_money (inp : Exec.ExecutionInput) (r : reason_text)
      (t : Exec.ExecutedTrade) :
  Exec.execute inp r = Ok (Some t) ->
  Exec.gross_value t = Exec.exec_price t * inject_Z (Exec.qty_shares t)
  /\ Exec.commission t
     = Exec.gross_value t * Exec.commission_pct_per_side inp
  /\ Exec.net_value t
     = match Exec.side inp with
       | Exec.BUY => - (Exec.gross_value t + Exec.commission t)
       | Exec.SELL => Exec.gross_value t - Exec.commission t
       end.
Proof.
  intro H. unfold Exec.execute in H.
  destruct (Exec.calc_exec_price _ _ _ _) as [p|]; [|discriminate].
  destruct (Exec.sizing inp p) as [[l q]|e];
    cbv beta iota zeta delta [bind] in H; [|discriminate].
  destruct (q <=? 0)%Z; [discriminate|].
  inversion H. cbn. auto.
Qed.

(** X3.  The books of a returned trade: the shares are the lots times the
    lot size; gross value is price times shares; the commission is the
    gross value times the rate; the net value is minus (gross +
    commission) for a BUY and gross - commission for a SELL; the side,
    time and reason are those of the request.  The reported slippage cost
    is never negative, and for a slippage rate that is not negative it is
    the quote times the rate times the shares. *)
Theorem X3_trade_accounting :
  forall (inp : Exec.ExecutionInput) (r : reason_text)
         (t : Exec.ExecutedTrade),
    Exec.execute inp r = Ok (Some t) ->
    Exec.qty_shares t = (Exec.qty_lots t * Exec.lot_size inp)%Z
    /\ Exec.gross_value t = Exec.exec_price t * inject_Z (Exec.qty_shares t)
    /\ Exec.commission t
       = Exec.gross_value t * Exec.commission_pct_per_side inp
    /\ Exec.net_value t
       = match Exec.side inp with
         | Exec.BUY => - (Exec.gross_value t + Exec.commission t)
         | Exec.SELL => Exec.gross_value t - Exec.commission t
         end
    /\ Exec.t_side t = Exec.side inp
    /\ Exec.t_ts t = Exec.ts inp
    /\ Exec.reason t = r
    /\ 0 <= Exec.slippage_value t
    /\ (0 <= Exec.slippage_pct inp ->
        exists quote : Q,
          match Exec.side inp with
          | Exec.BUY => Exec.best_ask inp
          | Exec.SELL => Exec.best_bid inp
          end = Some quote
          /\ Exec.slippage_value t
             == quote * Exec.slippage_pct inp * inject_Z (Exec.qty_shares t)).
Proof.
  intros inp r t H. unfold Exec.execute in H.
  destruct (Exec.calc_exec_price (Exec.side inp) (Exec.best_bid inp)
              (Exec.best_ask inp) (Exec.slippage_pct inp))
    as [p|] eqn:Hp; [|discriminate].
  destruct (Exec.sizing inp p) as [[l q]|e] eqn:Hs;
    cbv beta iota zeta delta [bind] in H; [|discriminate].
  destruct (q <=? 0)%Z eqn:E; [discriminate|].
  apply Z.leb_gt in E. rename E into Hq.
  pose proof (sizing_whole_lots inp p l q Hs) as Hlots.
  inversion H as [Ht]. clear H.
  cbn [Exec.qty_shares Exec.qty_lots Exec.gross_value Exec.commission
       Exec.net_value Exec.t_side Exec.t_ts Exec.reason Exec.exec_price
       Exec.slippage_value].
  assert (Hq' : 0 < inject_Z q).
  { replace 0 with (inject_Z 0) by reflexivity. rewrite <- Zlt_Qlt. exact Hq. }
  split; [exact Hlots|].
  split; [reflexivity|]. split; [reflexivity|]. split; [reflexivity|].
  split; [reflexivity|]. split; [reflexivity|]. split; [reflexivity|].
  split.
  - match goal with
    | |- 0 <= Qmax 0 ?u * _ =>
        destruct (Qmax_cases 0 u) as [[Hu ->]|[Hu ->]]
    end; nra.
  - intro Hslip. unfold Exec.calc_exec_price in Hp.
    destruct (Exec.side inp).
    + destruct (Exec.best_ask inp) as [a|] eqn:Ea; [|discriminate].
      destruct (Qle_bool a 0) eqn:Ea0; [discriminate|].
      apply Qle_bool_false in Ea0. inversion Hp as [Hpa]. clear Hp.
      exists a. split; [reflexivity|].
      assert (Tr : truthy (Some a) = true).
      { unfold truthy. apply negb_true_iff. apply Qeq_bool_false.
        intro E0. rewrite E0 in Ea0. discriminate. }
      unfold por. rewrite Tr.
      match goal with
      | |- Qmax 0 ?u * _ == _ =>
          destruct (Qmax_cases 0 u) as [[Hu ->]|[Hu ->]]
      end.
      * ring.
      * assert (a * Exec.slippage_pct inp == 0) by nra.
        setoid_replace (a * Exec.slippage_pct inp * inject_Z q)
          with (0 * inject_Z q) by (rewrite H; reflexivity).
        reflexivity.
    + destruct (Exec.best_bid inp) as [b|] eqn:Eb; [|discriminate].
      destruct (Qle_bool b 0) eqn:Eb0; [discriminate|].
      apply Qle_bool_false in Eb0. inversion Hp as [Hpb]. clear Hp.
      exists b. split; [reflexivity|].
      assert (Tr : truthy (Some b) = true).
      { unfold truthy. apply negb_true_iff. apply Qeq_bool_false.
        intro E0. rewrite E0 in Eb0. discriminate. }
      unfold por. rewrite Tr.
      match goal with
      | |- Qmax 0 ?u * _ == _ =>
          destruct (Qmax_cases 0 u) as [[Hu ->]|[Hu ->]]
      end.
      * ring.
      * assert (b * Exec.slippage_pct inp == 0) by nra.
        setoid_replace (b * Exec.slippage_pct inp * inject_Z q)
          with (0 * inject_Z q) by (rewrite H; reflexivity).
        reflexivity.
Qed.

(** Witness of X3: the BUY of the sample request fills 29 lots of 10 and
    pays 29290 plus commission. *)
Lemma X3_trade_accounting_witness :
  exists t : Exec.ExecutedTrade,
    Exec.execute Sample.buy_request [BreakoutVolume] = Ok (Some t)
    /\ Exec.qty_lots t = 29%Z
    /\ Exec.qty_shares t = (Exec.qty_lots t * 10)%Z
    /\ Exec.gross_value t == 29290
    /\ Exec.net_value t = - (Exec.gross_value t + Exec.commission t).
Proof.
  destruct (Exec.execute Sample.buy_request [BreakoutVolume])
    as [[t|]|e] eqn:E; try (vm_compute in E; discriminate).
  exists t. split; [reflexivity|].
  destruct (X3_trade_accounting Sample.buy_request [BreakoutVolume] t E)
    as (Hl & Hg & _ & Hn & _).
  assert (Hv : Exec.qty_lots t = 29%Z /\ Exec.exec_price t == 101
               /\ Exec.qty_shares t = 290%Z).
  { vm_compute in E. inversion E. cbn. repeat split. }
  destruct Hv as (Hv1 & Hv2 & Hv3).
  split; [exact Hv1|]. split; [exact Hl|]. split; [|exact Hn].
  rewrite Hg, Hv2, Hv3. reflexivity.
Defined.

(** X4.  A request with a positive desired share count never fills more
    than that count: the trade it returns is a positive whole number of
    lots of a positive lot size, and its shares do not exceed the desired
    count, also when the cap cuts the order down. *)
Theorem X4_fill_within_desired :
  forall (inp : Exec.ExecutionInput) (r : reason_text)
         (t : Exec.ExecutedTrade) (d : Z),
    Exec.desired_position_shares inp = Some d ->
    (0 < d)%Z ->
    Exec.execute inp r = Ok (Some t) ->
    (Exec.qty_shares t <= d)%Z
    /\ (0 < Exec.lot_size inp)%Z
    /\ exists k : Z,
         (0 < k)%Z /\ Exec.qty_shares t = (k * Exec.lot_size inp)%Z.
Proof.
  intros inp r t d Hd Hpos H.
  destruct (execute_inv inp r t H) as (p & l & Hp & Hs & Hq & _).
  set (lot := Exec.lot_size inp) in *.
  set (q := Exec.qty_shares t) in *.
  unfold Exec.sizing in Hs. rewrite Hd in Hs.
  assert (Eg : negb (d =? 0)%Z && (0 <? d)%Z = true).
  { apply andb_true_iff. split.
    - apply negb_true_iff. apply Z.eqb_neq. lia.
    - apply Z.ltb_lt. exact Hpos. }
  rewrite Eg in Hs. unfold floordiv in Hs. fold lot in Hs.
  destruct (lot =? 0)%Z eqn:El; [discriminate|].
  apply Z.eqb_neq in El. cbv beta iota zeta delta [bind] in Hs.
  destruct (Qlt_bool (Exec.max_position_rub inp)
                     (inject_Z (Z.max 0 (d / lot) * lot) * p)) eqn:Eover.
  - apply Qlt_bool_true in Eover.
    destruct (position_value_limit_sizing_any p lot
                (Exec.max_position_rub inp)) as (k & Ek & Hk0 & Hk).
    rewrite Ek in Hs.
    assert (Hqk : q = (k * lot)%Z) by congruence.
    assert (Hkpos : (0 < k)%Z).
    { destruct (Z.eq_dec k 0) as [E|E]; [|lia].
      rewrite Hqk, E in Hq. simpl in Hq. lia. }
    destruct (Hk Hkpos) as (Hp0 & Hlot & Hfit).
    assert (Hdl : (0 <= d / lot)%Z) by (apply Z.div_pos; lia).
    rewrite Z.max_r in Eover by exact Hdl.
    assert (Hlt : (k * lot < d / lot * lot)%Z).
    { destruct (Z_lt_le_dec (k * lot) (d / lot * lot)) as [Hc|Hc];
        [exact Hc|]. exfalso.
      assert (Hm : inject_Z (d / lot * lot) <= inject_Z (k * lot))
        by (rewrite <- Zle_Qle; exact Hc).
      nra. }
    assert (Hle : (d / lot * lot <= d)%Z).
    { rewrite Z.mul_comm. apply Z.mul_div_le. exact Hlot. }
    split; [lia|]. split; [exact Hlot|]. exists k. auto.
  - assert (Hqk : q = (Z.max 0 (d / lot) * lot)%Z) by congruence.
    assert (Hm : (0 < Z.max 0 (d / lot))%Z /\ (0 < lot)%Z) by nia.
    destruct Hm as [Hm Hlot].
    assert (Hdl : Z.max 0 (d / lot) = (d / lot)%Z) by lia.
    assert (Hle : (d / lot * lot <= d)%Z).
    { rewrite Z.mul_comm. apply Z.mul_div_le. exact Hlot. }
    split; [lia|]. split; [exact Hlot|].
    exists (d / lot)%Z. split; [lia|]. lia.
Qed.

(** Witness of X4: selling 25 held shares in lots of 10 fills 20. *)
Lemma X4_fill_within_desired_witness :
  exists t : Exec.ExecutedTrade,
    Exec.execute Sample.sell_request [] = Ok (Some t)
    /\ Exec.qty_shares t = 20%Z
    /\ (Exec.qty_shares t <= 25)%Z.
Proof.
  destruct (Exec.execute Sample.sell_request []) as [[t|]|e] eqn:E;
    try (vm_compute in E; discriminate).
  exists t. split; [reflexivity|].
  destruct (X4_fill_within_desired Sample.sell_request [] t 25 eq_refl
              ltac:(lia) E) as (Hle & _).
  split; [|exact Hle].
  vm_compute in E. inversion E. reflexivity.
Defined.

(** X5.  Buying and selling the same number of shares at one pair of
    quotes with bid <= ask, a slippage rate and a commission rate that are
    not negative, never leaves money over: the cash paid for the BUY is at
    least the cash received from the SELL. *)
Theorem X5_round_trip_at_same_quotes_costs :
  forall (buy sell : Exec.ExecutionInput) (r1 r2 : reason_text)
         (tb ts : Exec.ExecutedTrade) (bid ask : Q),
    Exec.side buy = Exec.BUY -> Exec.side sell = Exec.SELL ->
    Exec.best_ask buy = Some ask -> Exec.best_bid sell = Some bid ->
    bid <= ask ->
    Exec.slippage_pct sell = Exec.slippage_pct buy ->
    0 <= Exec.slippage_pct buy ->
    Exec.commission_pct_per_side sell = Exec.commission_pct_per_side buy ->
    0 <= Exec.commission_pct_per_side buy ->
    Exec.execute buy r1 = Ok (Some tb) ->
    Exec.execute sell r2 = Ok (Some ts) ->
    Exec.qty_shares ts = Exec.qty_shares tb ->
    Exec.net_value tb + Exec.net_value ts <= 0.
Proof.
  intros buy sell r1 r2 tb ts bid ask Hb Hs Ea Eb Hba Hslip Hs0 Hcom Hc0
         H1 H2 Hq.
  destruct (execute_money buy r1 tb H1) as (Hg1 & Hc1 & Hn1).
  destruct (execute_money sell r2 ts H2) as (Hg2 & Hc2 & Hn2).
  destruct (execute_inv buy r1 tb H1) as (p1 & _ & Hp1 & _ & Hq1 & Hpr1 & _).
  destruct (execute_inv sell r2 ts H2) as (p2 & _ & Hp2 & _ & _ & Hpr2 & _).
  rewrite Hb, Ea in Hp1. cbn in Hp1.
  destruct (Qle_bool ask 0) eqn:Ea0; [discriminate|].
  rewrite Hs, Eb in Hp2. cbn in Hp2.
  destruct (Qle_bool bid 0) eqn:Eb0; [discriminate|].
  apply Qle_bool_false in Ea0. apply Qle_bool_false in Eb0.
  inversion Hp1 as [Hp1']. inversion Hp2 as [Hp2']. clear Hp1 Hp2.
  rewrite Hn1, Hn2, Hb, Hs, Hc1, Hc2, Hg1, Hg2, Hpr1, Hpr2, Hq, Hcom.
  rewrite <- Hp1', <- Hp2', Hslip.
  set (s := Exec.slippage_pct buy) in *.
  set (c := Exec.commission_pct_per_side buy) in *.
  assert (Hqq : 0 < inject_Z (Exec.qty_shares tb)).
  { replace 0 with (inject_Z 0) by reflexivity. rewrite <- Zlt_Qlt. exact Hq1. }
  set (q := inject_Z (Exec.qty_shares tb)) in *.
  assert (Hd : bid * (1 - s) - ask * (1 + s) <= 0) by nra.
  assert (Hsum : 0 <= bid * (1 - s) + ask * (1 + s)) by nra.
  assert (Hcs : 0 <= c * (bid * (1 - s) + ask * (1 + s)))
    by (apply Qmult_le_0_compat; assumption).
  assert (Hin : bid * (1 - s) - ask * (1 + s)
                - c * (bid * (1 - s) + ask * (1 + s)) <= 0) by lra.
  setoid_replace
    (- (ask * (1 + s) * q + ask * (1 + s) * q * c)
     + (bid * (1 - s) * q - bid * (1 - s) * q * c))
    with (q * (bid * (1 - s) - ask * (1 + s)
               - c * (bid * (1 - s) + ask * (1 + s)))) by ring.
  nra.
Qed.

(** Witness of X5: 20 shares bought at ask 101 and sold at bid 100. *)
Lemma X5_round_trip_at_same_quotes_costs_witness :
  exists tb ts : Exec.ExecutedTrade,
    Exec.execute Sample2.buy20 [] = Ok (Some tb)
    /\ Exec.execute Sample2.sell20 [] = Ok (Some ts)
    /\ Exec.net_value tb + Exec.net_value ts <= 0.
Proof.
  destruct (Exec.execute Sample2.buy20 []) as [[tb|]|e] eqn:E1;
    try (vm_compute in E1; discriminate).
  destruct (Exec.execute Sample2.sell20 []) as [[ts|]|e] eqn:E2;
    try (vm_compute in E2; discriminate).
  exists tb, ts. split; [reflexivity|]. split; [reflexivity|].
  apply (X5_round_trip_at_same_quotes_costs Sample2.buy20 Sample2.sell20
           [] [] tb ts 100 101); try reflexivity; try discriminate;
    try assumption.
  vm_compute in E1. vm_compute in E2. inversion E1. inversion E2. reflexivity.
Defined.

(** ** indicators/technicals.py *)

Import IndicatorSpec.

Lemma alpha_of_span_range (span : positive) :
  0 < alpha_of_span span /\ alpha_of_span span <= 1.
Proof.
  unfold alpha_of_span.
  assert (H1 : 1 <= inject_Z (Z.pos span)).
  { replace 1 with (inject_Z 1) by reflexivity. rewrite <- Zle_Qle. lia. }
  split.
  - apply Qlt_shift_div_l; lra.
  - apply Qle_shift_div_r; lra.
Qed.

(** The smoothing loop on a constant series returns the constant in every
    row, exactly. *)
Lemma ewm_loop_constant (alpha c : Q) (n : nat) :
  forall st : ewm_state,
    weighted st = Some c -> (1 <= nobs st)%nat ->
    ewm_loop alpha 1 st (repeat (Some c) n) = repeat (Some c) n.
Proof.
  induction n as [|n IH]; intros st Hw Hn; simpl; [reflexivity|].
  assert (Hstep : ewm_step alpha st (Some c)
                  = {| weighted := Some c; old_wt := 1;
                       nobs := S (nobs st) |}).
  { unfold ewm_step. rewrite Hw.
    assert (E : Qeq_bool c c = true) by (apply Qeq_bool_iff; reflexivity).
    rewrite E. reflexivity. }
  rewrite Hstep. rewrite IH; [reflexivity|reflexivity|simpl; lia].
Qed.

Lemma ewm_mean_constant (alpha c : Q) (n : nat) :
  ewm_mean alpha 1 (repeat (Some c) n) = repeat (Some c) n.
Proof.
  destruct n as [|n]; simpl; [reflexivity|].
  rewrite ewm_loop_constant; [reflexivity|reflexivity|simpl; lia].
Qed.

Lemma series_sub_repeat (a b : option Q) (n : nat) :
  series_sub (repeat a n) (repeat b n) = repeat (lift2 Qminus a b) n.
Proof.
  unfold series_sub. induction n as [|n IH]; simpl; [reflexivity|].
  rewrite IH. reflexivity.
Qed.

Lemma skipn_repeat {A} (x : A) (n k : nat) :
  skipn k (repeat x n) = repeat x (n - k).
Proof.
  revert n. induction k as [|k IH]; intro n.
  - rewrite Nat.sub_0_r. reflexivity.
  - destruct n as [|n]; simpl; [reflexivity|]. apply IH.
Qed.

Lemma firstn_repeat {A} (x : A) (n k : nat) :
  firstn k (repeat x n) = repeat x (Nat.min k n).
Proof.
  revert n. induction k as [|k IH]; intro n; simpl; [reflexivity|].
  destruct n as [|n]; simpl; [reflexivity|]. rewrite IH. reflexivity.
Qed.

Lemma observations_repeat (c : Q) (k : nat) :
  observations (repeat (Some c) k) = repeat c k.
Proof.
  induction k as [|k IH]; simpl; [reflexivity|]. rewrite IH. reflexivity.
Qed.

Lemma fold_left_Qplus_repeat (c : Q) (k : nat) :
  forall a : Q,
    fold_left Qplus (repeat c k) a == a + inject_Z (Z.of_nat k) * c.
Proof.
  induction k as [|k IH]; intro a.
  - simpl. ring.
  - cbn [repeat fold_left]. rewrite IH.
    rewrite Nat2Z.inj_succ. unfold Z.succ. rewrite inject_Z_plus. ring.
Qed.

Lemma list_mean_repeat (c : Q) (k : nat) :
  (1 <= k)%nat -> cell_is c (list_mean (repeat c k)).
Proof.
  intro Hk. destruct k as [|k]; [lia|].
  unfold cell_is, list_mean. cbn [repeat].
  eexists. split; [reflexivity|].
  change (c :: repeat c k) with (repeat c (S k)).
  unfold Qsum. rewrite fold_left_Qplus_repeat, repeat_length.
  assert (Hpos : 0 < inject_Z (Z.of_nat (S k))).
  { replace 0 with (inject_Z 0) by reflexivity. rewrite <- Zlt_Qlt. lia. }
  field. intro E. rewrite E in Hpos. discriminate.
Qed.

(** X6.  On a constant series the EMA column is the constant in every
    row, exactly; every row of the SMA column equals the constant; and the
    three MACD columns (line, signal, histogram) are zero in every row. *)
Theorem X6_indicators_of_constant_series :
  forall (c : Q) (n : nat) (window span fast slow signal : positive),
    compute_ema (repeat (Some c) n) span = repeat (Some c) n
    /\ (forall i : nat,
          (i < n)%nat ->
          cell_is c (cell (compute_sma (repeat (Some c) n) window) i))
    /\ (let '(macd_line, signal_line, hist) :=
          compute_macd (repeat (Some c) n) fast slow signal in
        length macd_line = n /\ length signal_line = n /\ length hist = n
        /\ Forall (cell_is 0) macd_line
        /\ Forall (cell_is 0) signal_line
        /\ Forall (cell_is 0) hist).
Proof.
  intros c n window span fast slow signal. split; [|split].
  - apply ewm_mean_constant.
  - intros i Hi. unfold compute_sma.
    rewrite rolling_cell by (rewrite repeat_length; exact Hi).
    unfold slice. rewrite skipn_repeat, firstn_repeat, observations_repeat.
    apply list_mean_repeat.
    pose proof (Pos2Nat.is_pos window). lia.
  - unfold compute_macd. rewrite !ewm_mean_constant, series_sub_repeat.
    cbn [lift2]. rewrite ewm_mean_constant, series_sub_repeat. cbn [lift2].
    rewrite !repeat_length.
    split; [reflexivity|]. split; [reflexivity|]. split; [reflexivity|].
    split; [|split]; apply Forall_forall; intros x Hx;
      apply repeat_spec in Hx; subst x; eexists; split;
      try reflexivity; ring.
Qed.

(** Witness of X6: row 2 of the three-bar SMA of four fives. *)
Lemma X6_indicators_of_constant_series_witness :
  cell_is 5 (cell (compute_sma (repeat (Some 5) 4) 3) 2).
Proof.
  apply (proj1 (proj2 (X6_indicators_of_constant_series
                         5 4 3 9 12 26 9)) 2%nat).
  lia.
Defined.

(** Pointwise agreement of a column with a list of reference values. *)
Lemma ewm_loop_textbook (alpha : Q) (xs : list Q) :
  forall (st : ewm_state) (w prev : Q),
    weighted st = Some w -> w == prev -> old_wt st = 1 ->
    (1 <= nobs st)%nat ->
    Forall2 (fun o e => cell_is e o)
            (ewm_loop alpha 1 st (map Some xs)) (ema_ref alpha prev xs).
Proof.
  induction xs as [|x t IH]; intros st w prev Hw Hwp Ho Hn; simpl.
  - constructor.
  - set (e := (1 - alpha) * prev + alpha * x).
    assert (Hstep : exists v : Q,
               ewm_step alpha st (Some x)
               = {| weighted := Some v; old_wt := 1; nobs := S (nobs st) |}
               /\ v == e).
    { unfold ewm_step. rewrite Hw, Ho.
      destruct (Qeq_bool w x) eqn:E.
      - exists w. split; [reflexivity|].
        apply Qeq_bool_iff in E. unfold e. rewrite <- Hwp, <- E. ring.
      - eexists. split; [reflexivity|]. unfold e. rewrite <- Hwp.
        field. intro E0. ring_simplify in E0. discriminate. }
    destruct Hstep as (v & Hs & Hv). rewrite Hs. constructor.
    + exists v. split; [reflexivity|exact Hv].
    + apply (IH _ v e); simpl; try reflexivity; [exact Hv|lia].
Qed.

(** X7.  On a series without NaN the EMA column is the textbook recursion
    with smoothing factor 2 / (span + 1): the first row is the first
    value, and every later row equals (1 - alpha) x previous row +
    alpha x input, so no row depends on later inputs. *)
Theorem X7_ema_is_textbook_recursion :
  forall (xs : list Q) (span : positive),
    Forall2 (fun o e => cell_is e o)
            (compute_ema (map Some xs) span)
            (ema_textbook (alpha_of_span span) xs).
Proof.
  intros xs span. unfold compute_ema, ema_textbook.
  destruct xs as [|x t]; simpl; [constructor|].
  constructor.
  - exists x. split; [reflexivity|reflexivity].
  - apply (ewm_loop_textbook _ t _ x x); simpl; try reflexivity; try lia.
Qed.

(** Witness of X7: the EMA of 1, 2, 3 with span 9. *)
Lemma X7_ema_is_textbook_recursion_witness :
  Forall2 (fun o e => cell_is e o)
          (compute_ema (map Some [1; 2; 3]) 9)
          (ema_textbook (alpha_of_span 9) [1; 2; 3]).
Proof.
  exact (X7_ema_is_textbook_recursion [1; 2; 3] 9).
Defined.

Lemma Qdiv_between (lo hi num den : Q) :
  0 < den -> lo * den <= num -> num <= hi * den ->
  lo <= num / den /\ num / den <= hi.
Proof.
  intros Hd H1 H2. split.
  - apply Qle_shift_div_l; assumption.
  - apply Qle_shift_div_r; assumption.
Qed.

Lemma ewm_step_within (lo hi alpha : Q) (st : ewm_state) (cur : option Q) :
  0 < alpha -> alpha <= 1 ->
  cell_within lo hi (weighted st) -> 0 <= old_wt st ->
  cell_within lo hi cur ->
  cell_within lo hi (weighted (ewm_step alpha st cur))
  /\ 0 <= old_wt (ewm_step alpha st cur).
Proof.
  intros Ha0 Ha1 Hw Ho Hc. unfold ewm_step.
  destruct (weighted st) as [w|] eqn:Ew; destruct cur as [c|]; simpl in *.
  - split; [|discriminate].
    destruct (Qeq_bool w c); [exact Hw|].
    assert (Hf : 0 <= 1 - alpha) by lra.
    pose proof (Qmult_le_0_compat _ _ Ho Hf) as How.
    set (ow := old_wt st * (1 - alpha)) in *.
    destruct Hw as [Hw1 Hw2]. destruct Hc as [Hc1 Hc2].
    apply Qdiv_between; nra.
  - split; [exact Hw|]. apply Qmult_le_0_compat; [exact Ho|lra].
  - split; [exact Hc|exact Ho].
  - rewrite Ew. simpl. split; [exact I|exact Ho].
Qed.

Lemma ewm_loop_within (lo hi alpha : Q) (minp : nat) (l : list (option Q)) :
  0 < alpha -> alpha <= 1 ->
  Forall (cell_within lo hi) l ->
  forall st, cell_within lo hi (weighted st) -> 0 <= old_wt st ->
             Forall (cell_within lo hi) (ewm_loop alpha minp st l).
Proof.
  intros Ha0 Ha1 Hl. induction Hl as [|cur t Hcur Ht IH]; intros st Hw Ho.
  - constructor.
  - simpl.
    destruct (ewm_step_within lo hi alpha st cur Ha0 Ha1 Hw Ho Hcur)
      as [Hw' Ho'].
    constructor.
    + unfold ewm_out. destruct (_ <=? _)%nat; [exact Hw'|exact I].
    + apply IH; assumption.
Qed.

Lemma ewm_mean_within (lo hi alpha : Q) (minp : nat) (l : list (option Q)) :
  0 < alpha -> alpha <= 1 ->
  Forall (cell_within lo hi) l ->
  Forall (cell_within lo hi) (ewm_mean alpha minp l).
Proof.
  intros Ha0 Ha1 Hl. destruct Hl as [|x t Hx Ht]; simpl; [constructor|].
  constructor.
  - unfold ewm_out. simpl. destruct (_ <=? _)%nat; [exact Hx|exact I].
  - apply ewm_loop_within; try assumption. simpl. discriminate.
Qed.

Lemma observations_within (lo hi : Q) (l : list (option Q)) :
  Forall (cell_within lo hi) l ->
  Forall (fun x => lo <= x /\ x <= hi) (observations l).
Proof.
  induction 1 as [|c t Hc Ht IH]; simpl; [constructor|].
  destruct c as [x|]; [constructor; assumption|assumption].
Qed.

Lemma fold_left_Qplus_within (lo hi : Q) (l : list Q) :
  Forall (fun x => lo <= x /\ x <= hi) l ->
  forall a : Q,
    a + inject_Z (Z.of_nat (length l)) * lo <= fold_left Qplus l a
    /\ fold_left Qplus l a <= a + inject_Z (Z.of_nat (length l)) * hi.
Proof.
  induction 1 as [|x t [Hx1 Hx2] Ht IH]; intro a.
  - cbn [fold_left length Z.of_nat]. change (inject_Z 0) with 0. lra.
  - cbn [fold_left length]. destruct (IH (a + x)) as [H1 H2].
    assert (E : inject_Z (Z.of_nat (S (length t)))
                == inject_Z (Z.of_nat (length t)) + 1).
    { rewrite Nat2Z.inj_succ. unfold Z.succ. rewrite inject_Z_plus.
      reflexivity. }
    rewrite E.
    set (k := inject_Z (Z.of_nat (length t))) in *.
    split; nra.
Qed.

Lemma list_mean_within (lo hi : Q) (l : list Q) :
  Forall (fun x => lo <= x /\ x <= hi) l ->
  cell_within lo hi (list_mean l).
Proof.
  intro H. destruct l as [|x t]; [exact I|].
  unfold list_mean, cell_within, Qsum.
  destruct (fold_left_Qplus_within lo hi _ H 0) as [H1 H2].
  assert (Hpos : 0 < inject_Z (Z.of_nat (length (x :: t)))).
  { replace 0 with (inject_Z 0) by reflexivity. rewrite <- Zlt_Qlt.
    simpl. lia. }
  apply Qdiv_between; [exact Hpos| |]; lra.
Qed.

Lemma In_slice {A} (lo hi : nat) (l : list A) (x : A) :
  In x (slice lo hi l) -> In x l.
Proof.
  unfold slice. intro H.
  rewrite <- (firstn_skipn lo l). apply in_or_app. right.
  rewrite <- (firstn_skipn (hi - lo) (skipn lo l)). apply in_or_app.
  left. exact H.
Qed.

Lemma Forall_slice {A} (P : A -> Prop) (lo hi : nat) (l : list A) :
  Forall P l -> Forall P (slice lo hi l).
Proof.
  intro H. apply Forall_forall. intros x Hx.
  apply In_slice in Hx. rewrite Forall_forall in H. apply H. exact Hx.
Qed.

(** X10.  The moving averages stay within the data: when every defined
    value of a series lies in [lo, hi], so does every defined value of its
    SMA and of its EMA, for every window and span. *)
Theorem X10_averages_within_data_range :
  forall (lo hi : Q) (series : list (option Q)) (window span : positive),
    Forall (cell_within lo hi) series ->
    Forall (cell_within lo hi) (compute_sma series window)
    /\ Forall (cell_within lo hi) (compute_ema series span).
Proof.
  intros lo hi series window span H. split.
  - unfold compute_sma, rolling. apply Forall_forall. intros c Hc.
    apply in_map_iff in Hc. destruct Hc as (i & <- & _).
    apply list_mean_within. apply observations_within.
    apply Forall_slice. exact H.
  - destruct (alpha_of_span_range span) as [H0 H1].
    apply ewm_mean_within; assumption.
Qed.

(** Witness of X10: the closes 1, 2, 1, 3, 2 lie in [1, 3], and so do
    their SMA(3) and EMA(3). *)
Lemma X10_averages_within_data_range_witness :
  Forall (cell_within 1 3)
         (compute_sma [Some 1; Some 2; Some 1; Some 3; Some 2] 3)
  /\ Forall (cell_within 1 3)
            (compute_ema [Some 1; Some 2; Some 1; Some 3; Some 2] 3).
Proof.
  apply X10_averages_within_data_range.
  repeat constructor; discriminate.
Defined.

Lemma ewm_mean_as_loop (alpha : Q) (minp : nat) (l : list (option Q)) :
  ewm_mean alpha minp l = ewm_loop alpha minp ewm_start l.
Proof.
  destruct l as [|x t]; [reflexivity|].
  unfold ewm_mean. cbn [ewm_loop].
  assert (E : ewm_step alpha ewm_start x
              = {| weighted := x; old_wt := 1;
                   nobs := match x with Some _ => 1 | None => 0 end |})
    by (destruct x; reflexivity).
  rewrite E. reflexivity.
Qed.

(** Row [i] of the smoothing loop shows the state after rows 0 .. i. *)
Lemma ewm_loop_cell (alpha : Q) (minp : nat) (l : list (option Q)) :
  forall (st : ewm_state) (i : nat),
    (i < length l)%nat ->
    cell (ewm_loop alpha minp st l) i
    = ewm_out minp (fold_left (ewm_step alpha) (firstn (S i) l) st).
Proof.
  induction l as [|x t IH]; intros st i Hi; [simpl in Hi; lia|].
  destruct i as [|i].
  - reflexivity.
  - cbn [ewm_loop]. unfold cell. cbn [nth].
    change (firstn (S (S i)) (x :: t)) with (x :: firstn (S i) t).
    cbn [fold_left]. apply IH. simpl in Hi. lia.
Qed.

Lemma fold_step_nobs (alpha : Q) (l : list (option Q)) :
  forall st : ewm_state,
    nobs (fold_left (ewm_step alpha) l st)
    = (nobs st + length (observations l))%nat.
Proof.
  induction l as [|x t IH]; intro st; cbn [fold_left observations].
  - simpl. lia.
  - rewrite IH. unfold ewm_step.
    destruct (weighted st); destruct x; simpl; lia.
Qed.

Lemma fold_step_weighted (alpha : Q) (l : list (option Q)) :
  forall st : ewm_state,
    weighted (fold_left (ewm_step alpha) l st) = None <->
    weighted st = None /\ observations l = [].
Proof.
  induction l as [|x t IH]; intro st; cbn [fold_left observations].
  - tauto.
  - rewrite IH. unfold ewm_step.
    destruct (weighted st) eqn:Ew; destruct x; simpl;
      try rewrite Ew; intuition discriminate.
Qed.

(** A row of an exponentially weighted mean is defined exactly when the
    rows up to it hold at least one value, and at least [min_periods]. *)
Lemma ewm_mean_defined (alpha : Q) (minp : nat) (l : list (option Q))
      (i : nat) :
  (i < length l)%nat ->
  (cell (ewm_mean alpha minp l) i = None <->
   (seen (S i) l < Nat.max 1 minp)%nat).
Proof.
  intro Hi. rewrite ewm_mean_as_loop, ewm_loop_cell by exact Hi.
  unfold ewm_out, seen. rewrite fold_step_nobs. cbn [nobs ewm_start].
  rewrite Nat.add_0_l.
  pose proof (fold_step_weighted alpha (firstn (S i) l) ewm_start) as Hw.
  cbn [weighted ewm_start] in Hw.
  destruct (minp <=? length (observations (firstn (S i) l)))%nat eqn:E.
  - apply Nat.leb_le in E. rewrite Hw. split.
    + intros [_ H]. rewrite H in *. cbn [length] in *. lia.
    + intro H. split; [reflexivity|].
      destruct (observations (firstn (S i) l)); [reflexivity|].
      cbn [length] in *. lia.
  - apply Nat.leb_gt in E. split; [intros _; lia|reflexivity].
Qed.

Lemma cell_overflow (l : list (option Q)) (i : nat) :
  (length l <= i)%nat -> cell l i = None.
Proof. intro H. unfold cell. apply nth_overflow. exact H. Qed.

Lemma observations_length_le (l : list (option Q)) :
  (length (observations l) <= length l)%nat.
Proof.
  induction l as [|[x|] t IH]; simpl; lia.
Qed.

(** The first difference has no value in its first row. *)
Lemma seen_after_nan (k : nat) (t : list (option Q)) :
  (seen (S k) (None :: t) <= k)%nat.
Proof.
  unfold seen. cbn [firstn observations].
  pose proof (observations_length_le (firstn k t)) as H.
  rewrite length_firstn in H. lia.
Qed.

Lemma observations_map_Some (xs : list Q) :
  observations (map Some xs) = xs.
Proof.
  induction xs as [|x t IH]; simpl; [reflexivity|]. rewrite IH. reflexivity.
Qed.

Lemma series_sub_map_Some (a b : list Q) :
  series_sub (map Some a) (map Some b)
  = map Some (map (fun '(x, y) => x - y) (combine a b)).
Proof.
  unfold series_sub. revert b. induction a as [|x t IH]; intro b.
  - reflexivity.
  - destruct b as [|y u]; [reflexivity|]. simpl. rewrite IH. reflexivity.
Qed.

(** On a series without NaN, gains and losses have a value in every row
    but the first. *)
Lemma gains_losses_of_values (xs : list Q) :
  exists gs ls : list Q,
    gains_of (diff (map Some xs))
    = match xs with [] => [] | _ :: _ => None :: map Some gs end
    /\ losses_of (diff (map Some xs))
       = match xs with [] => [] | _ :: _ => None :: map Some ls end
    /\ length gs = (length xs - 1)%nat
    /\ length ls = (length xs - 1)%nat.
Proof.
  destruct xs as [|x t].
  - exists [], []. repeat split.
  - set (d := map (fun '(a, b) => a - b) (combine t (x :: t))).
    exists (map (fun v => Qmax v 0) d), (map (fun v => - Qmin v 0) d).
    assert (Hd : diff (map Some (x :: t)) = None :: map Some d).
    { cbn [map diff]. f_equal.
      change (Some x :: map Some t) with (map Some (x :: t)).
      apply series_sub_map_Some. }
    assert (Hlen : length d = length t).
    { unfold d. rewrite length_map, length_combine. simpl. lia. }
    rewrite Hd. unfold gains_of, losses_of. cbn [map option_map].
    rewrite !map_map. cbn [option_map].
    split; [f_equal; rewrite map_map; reflexivity|].
    split; [f_equal; rewrite map_map; reflexivity|].
    rewrite !length_map. simpl. lia.
Qed.

Lemma seen_nan_then_values (k : nat) (vs : list Q) :
  (k <= length vs)%nat -> seen (S k) (None :: map Some vs) = k.
Proof.
  intro H. unfold seen. cbn [firstn observations].
  rewrite firstn_map. rewrite observations_map_Some.
  rewrite length_firstn. lia.
Qed.

Lemma rsi_row_defined (g l : Q) : rsi_row (Some g) (Some l) <> None.
Proof.
  unfold rsi_row, rsi_formula, where_nonzero.
  destruct (Qeq_bool g 0); [discriminate|].
  destruct (Qeq_bool l 0); discriminate.
Qed.

(** X8.  The RSI needs [period] earlier differences: on every close
    series its first [period] rows are NaN, and on a series without NaN
    every row from row [period] on has a value. *)
Theorem X8_rsi_warm_up :
  forall (period : positive),
    (forall (close : list (option Q)) (i : nat),
        (i < Pos.to_nat period)%nat ->
        cell (compute_rsi close period) i = None)
    /\ (forall (xs : list Q) (i : nat),
          (Pos.to_nat period <= i < length xs)%nat ->
          exists r : Q,
            cell (compute_rsi (map Some xs) period) i = Some r).
Proof.
  intro period. pose proof (Pos2Nat.is_pos period) as Hpos. split.
  - intros close i Hi. rewrite compute_rsi_cell.
    assert (Hcol : forall col : list (option Q),
               cell (ewm_mean (1 / inject_Z (Z.pos period))
                              (Pos.to_nat period) (None :: col)) i = None).
    { intro col.
      destruct (Nat.lt_ge_cases i (length (None :: col))) as [Hl|Hl].
      - apply ewm_mean_defined; [exact Hl|].
        pose proof (seen_after_nan i col). lia.
      - apply cell_overflow. rewrite ewm_mean_length. exact Hl. }
    unfold avg_gain, avg_loss.
    destruct close as [|x t]; [destruct i; reflexivity|].
    cbn [diff gains_of losses_of map option_map].
    rewrite !Hcol. reflexivity.
  - intros xs i [Hp Hi]. rewrite compute_rsi_cell.
    destruct (gains_losses_of_values xs) as (gs & ls & Hg & Hl & Lg & Ll).
    unfold avg_gain, avg_loss. rewrite Hg, Hl.
    destruct xs as [|x t]; [simpl in Hi; lia|].
    simpl in Lg, Ll, Hi.
    assert (Hdef : forall vs : list Q,
               length vs = (length t - 0)%nat ->
               cell (ewm_mean (1 / inject_Z (Z.pos period))
                              (Pos.to_nat period) (None :: map Some vs)) i
               <> None).
    { intros vs Hvs Hnone.
      apply ewm_mean_defined in Hnone;
        [|simpl; rewrite length_map; lia].
      rewrite seen_nan_then_values in Hnone by lia. lia. }
    pose proof (Hdef gs Lg) as H1. pose proof (Hdef ls Ll) as H2.
    destruct (cell (ewm_mean _ _ (None :: map Some gs)) i) as [g|];
      [|contradiction].
    destruct (cell (ewm_mean _ _ (None :: map Some ls)) i) as [l|];
      [|contradiction].
    pose proof (rsi_row_defined g l) as Hr.
    destruct (rsi_row (Some g) (Some l)) as [r|]; [|contradiction].
    exists r. reflexivity.
Qed.

(** Witness of X8 on the closes 1, 2, 1, 3, 2 with period 2: row 1 is NaN
    and row 2 has a value. *)
Lemma X8_rsi_warm_up_witness :
  cell (compute_rsi [Some 1; Some 2; Some 1; Some 3; Some 2] 2) 1 = None
  /\ exists r : Q,
       cell (compute_rsi (map Some [1; 2; 1; 3; 2]) 2) 2 = Some r.
Proof.
  split.
  - apply (proj1 (X8_rsi_warm_up 2)). simpl. lia.
  - apply (proj2 (X8_rsi_warm_up 2)). simpl. lia.
Defined.

Lemma In_observations (l : list (option Q)) (x : Q) :
  In (Some x) l -> In x (observations l).
Proof.
  induction l as [|[y|] t IH]; simpl; intro H.
  - exact H.
  - destruct H as [H|H]; [left; congruence|right; apply IH; exact H].
  - destruct H as [H|H]; [discriminate|apply IH; exact H].
Qed.

Lemma cell_nth_error (l : list (option Q)) (i : nat) (x : Q) :
  cell l i = Some x -> nth_error l i = Some (Some x).
Proof.
  unfold cell. revert i. induction l as [|y t IH]; intros [|i] H;
    simpl in *; try discriminate.
  - congruence.
  - apply IH. exact H.
Qed.

Lemma cell_some_length (l : list (option Q)) (i : nat) :
  cell l i <> None -> (i < length l)%nat.
Proof.
  intro H. destruct (Nat.lt_ge_cases i (length l)) as [Hl|Hl]; [exact Hl|].
  exfalso. apply H. unfold cell. apply nth_overflow. exact Hl.
Qed.

(** A window that ends at row [i] holds row [i]. *)
Lemma In_window (l : list (option Q)) (lo i : nat) (x : Q) :
  (lo <= i)%nat -> cell l i = Some x -> In (Some x) (slice lo (i + 1) l).
Proof.
  intros Hlo Hx. apply cell_nth_error in Hx.
  apply (nth_error_In _ (i - lo)). unfold slice.
  rewrite nth_error_firstn.
  assert (E : (i - lo <? i + 1 - lo)%nat = true) by (apply Nat.ltb_lt; lia).
  rewrite E, nth_error_skipn.
  replace (lo + (i - lo))%nat with i by lia. exact Hx.
Qed.

(** With [min_periods=1] a rolling mean has a value wherever its input
    has one. *)
Lemma compute_sma_defined (l : list (option Q)) (w : positive) (i : nat) :
  cell l i <> None -> cell (compute_sma l w) i <> None.
Proof.
  intro H. pose proof (cell_some_length _ _ H) as Hi.
  unfold compute_sma. rewrite rolling_cell by exact Hi.
  destruct (cell l i) as [x|] eqn:E; [|contradiction].
  pose proof (Pos2Nat.is_pos w) as Hw.
  assert (Hin : In x (observations
                        (slice (i + 1 - Pos.to_nat w) (i + 1) l))).
  { apply In_observations, In_window; [lia|exact E]. }
  destruct (observations (slice (i + 1 - Pos.to_nat w) (i + 1) l));
    [destruct Hin|discriminate].
Qed.

(** A rolling mean over a column without any value has none either. *)
Lemma observations_all_nan (l : list (option Q)) :
  (forall c, In c l -> c = None) -> observations l = [].
Proof.
  induction l as [|[x|] t IH]; intro H; simpl.
  - reflexivity.
  - specialize (H (Some x) (or_introl eq_refl)). discriminate.
  - apply IH. intros c Hc. apply H. right. exact Hc.
Qed.

Lemma compute_sma_all_nan (l : list (option Q)) (w : positive) (i : nat) :
  (forall c, In c l -> c = None) -> cell (compute_sma l w) i = None.
Proof.
  intro H. destruct (Nat.lt_ge_cases i (length l)) as [Hi|Hi].
  - unfold compute_sma. rewrite rolling_cell by exact Hi.
    rewrite observations_all_nan; [reflexivity|].
    intros c Hc. apply H. apply In_slice in Hc. exact Hc.
  - apply cell_overflow. unfold compute_sma. rewrite rolling_length.
    exact Hi.
Qed.

(** With [min_periods=1] an exponential mean has a value wherever its
    input has one. *)
Lemma ewm_mean_defined_at (alpha : Q) (l : list (option Q)) (i : nat) :
  cell l i <> None -> cell (ewm_mean alpha 1 l) i <> None.
Proof.
  intros H Hnone. pose proof (cell_some_length _ _ H) as Hi.
  apply ewm_mean_defined in Hnone; [|exact Hi].
  destruct (cell l i) as [x|] eqn:E; [|contradiction].
  assert (Hin : In x (observations (firstn (S i) l))).
  { apply In_observations. apply cell_nth_error in E.
    apply (nth_error_In _ i). rewrite nth_error_firstn.
    assert (E1 : (i <? S i)%nat = true) by (apply Nat.ltb_lt; lia).
    rewrite E1. exact E. }
  unfold seen in Hnone.
  destruct (observations (firstn (S i) l)); [destruct Hin|].
  cbn [length] in Hnone. simpl in Hnone. lia.
Qed.

Lemma series_sub_cell (a b : list (option Q)) (i : nat) :
  length a = length b ->
  cell (series_sub a b) i = lift2 Qminus (cell a i) (cell b i).
Proof.
  intro H. unfold series_sub, cell.
  change (@None Q)
    with ((fun '(x, y) => lift2 Qminus x y) (@None Q, @None Q)) at 1.
  rewrite map_nth. rewrite combine_nth by exact H. reflexivity.
Qed.

Lemma lift2_defined (f : Q -> Q -> Q) (a b : option Q) :
  a <> None -> b <> None -> lift2 f a b <> None.
Proof.
  destruct a, b; simpl; congruence.
Qed.

(** MACD line, signal line and histogram have a value wherever the close
    has one. *)
Lemma compute_macd_defined (close : list (option Q))
      (fast slow signal : positive) (i : nat) :
  cell close i <> None ->
  let '(macd_line, signal_line, hist) :=
    compute_macd close fast slow signal in
  cell macd_line i <> None /\ cell signal_line i <> None
  /\ cell hist i <> None.
Proof.
  intro H. unfold compute_macd.
  set (ema_fast := ewm_mean (alpha_of_span fast) 1 close).
  set (ema_slow := ewm_mean (alpha_of_span slow) 1 close).
  assert (Hm : cell (series_sub ema_fast ema_slow) i <> None).
  { rewrite series_sub_cell
      by (unfold ema_fast, ema_slow; rewrite !ewm_mean_length; reflexivity).
    apply lift2_defined; apply ewm_mean_defined_at; exact H. }
  assert (Hs : cell (ewm_mean (alpha_of_span signal) 1
                              (series_sub ema_fast ema_slow)) i <> None)
    by (apply ewm_mean_defined_at; exact Hm).
  repeat split; [exact Hm|exact Hs|].
  rewrite series_sub_cell by (rewrite ewm_mean_length; reflexivity).
  apply lift2_defined; assumption.
Qed.

Lemma nth_error_enumerate {A} (l : list A) (i : nat) :
  forall s : nat,
    nth_error (combine (seq s (length l)) l) i
    = option_map (fun c => ((s + i)%nat, c)) (nth_error l i).
Proof.
  revert i. induction l as [|x t IH]; intros [|i] s; simpl;
    try reflexivity.
  - rewrite Nat.add_0_r. reflexivity.
  - rewrite IH. replace (S s + i)%nat with (s + S i)%nat by lia.
    reflexivity.
Qed.

Lemma cell_map_nth_error {A} (f : A -> option Q) (l : list A) (i : nat)
      (c : A) :
  nth_error l i = Some c -> cell (map f l) i = f c.
Proof.
  unfold cell. revert i. induction l as [|x t IH]; intros [|i] H;
    simpl in *; try discriminate.
  - congruence.
  - apply IH. exact H.
Qed.

(** Row [i] of [attach_all] is candle [i] with row [i] of each indicator
    column. *)
Lemma attach_all_row (candles_df : list Candle) (p : IndicatorParams)
      (i : nat) (row : Row) :
  nth_error (attach_all candles_df p) i = Some row ->
  nth_error candles_df i = Some (candle row)
  /\ sma20 row
     = cell (compute_sma (map close candles_df) (sma_window p)) i
  /\ ema9 row = cell (compute_ema (map close candles_df) (ema_span p)) i
  /\ rsi14 row
     = cell (compute_rsi (map close candles_df) (rsi_period p)) i
  /\ (let '(macd_line, signal_line, hist) :=
        compute_macd (map close candles_df) (macd_fast p) (macd_slow p)
                     (macd_signal_span p) in
      macd row = cell macd_line i /\ macd_signal row = cell signal_line i
      /\ macd_hist row = cell hist i)
  /\ vol_sma20 row
     = cell (compute_sma (map volume candles_df) (vol_avg_window p)) i.
Proof.
  unfold attach_all, compute_macd. cbv zeta.
  rewrite nth_error_map, nth_error_enumerate.
  destruct (nth_error candles_df i) as [c|]; [|discriminate].
  cbn [option_map Nat.add]. intro H. inversion H; subst; clear H.
  cbn. repeat split.
Qed.

(** X9.  [attach_all] keeps the candles as they are and in order.  SMA,
    EMA, MACD line, signal line and histogram have a value on every row
    whose close has one (there is no warm-up: [min_periods=1]); the volume
    average has a value on every row whose volume has one and is NaN on
    every row when no candle has a volume; the RSI is NaN on the first
    [rsi_period] rows. *)
Theorem X9_attach_all_columns :
  forall (candles_df : list Candle) (p : IndicatorParams),
    map candle (attach_all candles_df p) = candles_df
    /\ forall (i : nat) (row : Row),
        nth_error (attach_all candles_df p) i = Some row ->
        (close (candle row) <> None ->
         sma20 row <> None /\ ema9 row <> None /\ macd row <> None
         /\ macd_signal row <> None /\ macd_hist row <> None)
        /\ (volume (candle row) <> None -> vol_sma20 row <> None)
        /\ ((forall c, In c candles_df -> volume c = None) ->
            vol_sma20 row = None)
        /\ ((i < Pos.to_nat (rsi_period p))%nat -> rsi14 row = None).
Proof.
  intros candles_df p. split.
  - apply nth_error_ext. intro i.
    rewrite nth_error_map.
    destruct (nth_error (attach_all candles_df p) i) as [row|] eqn:E.
    + apply attach_all_row in E. destruct E as [E _]. rewrite E.
      reflexivity.
    + apply nth_error_None in E. symmetry. apply nth_error_None.
      unfold attach_all, compute_macd in E. cbv zeta in E.
      rewrite length_map, length_combine, length_seq in E. lia.
  - intros i row Hrow.
    destruct (attach_all_row _ _ _ _ Hrow)
      as (Hc & Hsma & Hema & Hrsi & Hmacd & Hvol).
    assert (Hclose : cell (map close candles_df) i = close (candle row))
      by (apply cell_map_nth_error; exact Hc).
    assert (Hvolume : cell (map volume candles_df) i = volume (candle row))
      by (apply cell_map_nth_error; exact Hc).
    split; [|split; [|split]].
    + intro Hdef. rewrite <- Hclose in Hdef.
      pose proof (compute_macd_defined _ (macd_fast p) (macd_slow p)
                                       (macd_signal_span p) _ Hdef) as Hm.
      destruct (compute_macd (map close candles_df) (macd_fast p)
                             (macd_slow p) (macd_signal_span p))
        as [[macd_line signal_line] hist].
      destruct Hmacd as (-> & -> & ->). destruct Hm as (H1 & H2 & H3).
      rewrite Hsma, Hema. repeat split; try assumption.
      * apply compute_sma_defined. exact Hdef.
      * apply ewm_mean_defined_at. exact Hdef.
    + intro Hdef. rewrite <- Hvolume in Hdef. rewrite Hvol.
      apply compute_sma_defined. exact Hdef.
    + intro Hall. rewrite Hvol. apply compute_sma_all_nan.
      intros c Hin. apply in_map_iff in Hin.
      destruct Hin as (c0 & <- & Hin). apply Hall. exact Hin.
    + intro Hi. rewrite Hrsi, compute_rsi_cell.
      unfold avg_gain, avg_loss.
      destruct (map close candles_df) as [|x t];
        [destruct i; reflexivity|].
      cbn [diff gains_of losses_of map option_map].
      assert (Hcol : forall col : list (option Q),
                 cell (ewm_mean (1 / inject_Z (Z.pos (rsi_period p)))
                                (Pos.to_nat (rsi_period p)) (None :: col)) i
                 = None).
      { intro col.
        destruct (Nat.lt_ge_cases i (length (None :: col))) as [Hl|Hl].
        - apply ewm_mean_defined; [exact Hl|].
          pose proof (seen_after_nan i col). lia.
        - apply cell_overflow. rewrite ewm_mean_length. exact Hl. }
      rewrite !Hcol. reflexivity.
Qed.

(** Witness of X9 on the first of the four gap candles. *)
Lemma X9_attach_all_columns_witness :
  exists row : Row,
    nth_error (attach_all Sample.gap_candles IndicatorParams_default) 0
    = Some row
    /\ sma20 row <> None /\ vol_sma20 row <> None /\ rsi14 row = None.
Proof.
  destruct (nth_error (attach_all Sample.gap_candles
                                  IndicatorParams_default) 0)
    as [row|] eqn:E; [|vm_compute in E; discriminate].
  exists row. split; [reflexivity|].
  destruct (proj2 (X9_attach_all_columns Sample.gap_candles
                                         IndicatorParams_default) 0%nat row E)
    as (Hc & Hv & _ & Hr).
  assert (Hrow : candle row = Sample.bar 100 (Some 5)).
  { destruct (attach_all_row _ _ _ _ E) as [H _].
    cbn in H. congruence. }
  split; [apply Hc; rewrite Hrow; discriminate|].
  split; [apply Hv; rewrite Hrow; discriminate|].
  apply Hr. vm_compute. lia.
Defined.

(** ** strategy/gazp_breakout.py, further *)

Lemma seq_sorted (n : nat) :
  forall s : nat, StronglySorted lt (seq s n).
Proof.
  induction n as [|n IH]; intro s; simpl; constructor.
  - apply IH.
  - apply Forall_forall. intros x Hx. apply in_seq in Hx. lia.
Qed.

(** A scan over increasing bar indices lists its signals by increasing
    bar. *)
Lemma scan_sorted (p : Strategy.StrategyParams) (df : list Row)
      (sh sl : list (option Q)) :
  forall idxs sigs,
    StronglySorted lt idxs ->
    Strategy.scan p df sh sl idxs = Ok sigs ->
    StronglySorted lt (map Strategy.ts sigs).
Proof.
  induction idxs as [|i t IH]; intros sigs Hs H.
  - simpl in H. inversion H. constructor.
  - pose proof H as Hall. simpl in H.
    apply bind_ok in H. destruct H as (o & Ho & H).
    apply bind_ok in H. destruct H as (rest & Hrest & H).
    inversion H; subst; clear H.
    apply StronglySorted_inv in Hs. destruct Hs as [Hst Hlt].
    specialize (IH rest Hst Hrest).
    destruct o as [s0|]; [|exact IH].
    cbn [map]. constructor; [exact IH|].
    apply Forall_forall. intros x Hx. apply in_map_iff in Hx.
    destruct Hx as (s & <- & Hin).
    apply (scan_In p df sh sl s t rest Hrest) in Hin.
    destruct Hin as (j & Hj & Hev).
    apply eval_bar_ts in Hev. apply eval_bar_ts in Ho. rewrite Ho, Hev.
    rewrite Forall_forall in Hlt. apply Hlt. exact Hj.
Qed.

(** X11.  The signals of [generate_signals] are listed in bar order and
    no bar contributes more than one: the bar indices of the returned
    signals are strictly increasing. *)
Theorem X11_signals_chronological :
  forall (p : Strategy.StrategyParams) (df : list Row)
         (sigs : list Strategy.Signal),
    Strategy.generate_signals p df = Ok sigs ->
    StronglySorted lt (map Strategy.ts sigs).
Proof.
  intros p df sigs H. unfold Strategy.generate_signals in H.
  destruct (length df <? Strategy.min_bars_for_indicators p)%nat.
  - inversion H. constructor.
  - destruct (Strategy.lookback_swing p =? 0)%nat; [discriminate|].
    unfold Strategy.swing_levels in H.
    apply scan_sorted in H; [exact H|]. apply seq_sorted.
Qed.

(** Witness of X11: the signals of the four-bar frame. *)
Lemma X11_signals_chronological_witness :
  exists sigs : list Strategy.Signal,
    Strategy.generate_signals Sample.short_params Sample.gap_frame = Ok sigs
    /\ StronglySorted lt (map Strategy.ts sigs).
Proof.
  destruct (Strategy.generate_signals Sample.short_params Sample.gap_frame)
    as [sigs|e] eqn:E; [|vm_compute in E; discriminate].
  exists sigs. split; [reflexivity|].
  apply (X11_signals_chronological Sample.short_params Sample.gap_frame).
  exact E.
Defined.

(** What one bar can emit: a BUY at the bar's close when an entry rule
    fired, otherwise (no entry rule fired) a SELL or a CLOSE_LONG at the
    close, or at the high respectively the low when the close is NaN. *)
Lemma eval_bar_cases (p : Strategy.StrategyParams) (df : list Row)
      (sh sl : list (option Q)) (i : nat) (s : Strategy.Signal) :
  Strategy.eval_bar p df sh sl i = Ok (Some s) ->
  let row := nth i df Strategy.dummy_row in
  let prev := nth (i - 1) df Strategy.dummy_row in
  exists d : bool,
    Strategy.has_positive_macd_divergence
      df i (Strategy.macd_div_lookback p) = Ok d
    /\ ((Strategy.type s = Strategy.BUY
         /\ Strategy.breakout_buy p row (cell sh i)
            || Strategy.rsi_buy p prev row || d = true
         /\ close (candle row) = Some (Strategy.price s)
         /\ Strategy.reason s <> [])
        \/ (Strategy.breakout_buy p row (cell sh i)
            || Strategy.rsi_buy p prev row || d = false
            /\ ((Strategy.type s = Strategy.SELL
                 /\ (close (candle row) = Some (Strategy.price s)
                     \/ close (candle row) = None
                        /\ high (candle row) = Some (Strategy.price s)))
                \/ (Strategy.type s = Strategy.CLOSE_LONG
                    /\ (close (candle row) = Some (Strategy.price s)
                        \/ close (candle row) = None
                           /\ low (candle row)
                              = Some (Strategy.price s)))))).
Proof.
  unfold Strategy.eval_bar. intro H. cbv zeta.
  apply bind_ok in H. destruct H as (pd & Hpd & H).
  exists pd. split; [exact Hpd|].
  destruct (Strategy.breakout_buy p (nth i df Strategy.dummy_row) (cell sh i))
    eqn:Eb;
    destruct (Strategy.rsi_buy p (nth (i - 1) df Strategy.dummy_row)
                               (nth i df Strategy.dummy_row)) eqn:Er;
    destruct pd; cbn [orb] in H |- *;
    try (left;
         destruct (close (candle (nth i df Strategy.dummy_row)));
         [|discriminate];
         inversion H; subst; clear H; cbn;
         repeat split; discriminate).
  right. split; [reflexivity|].
  apply bind_ok in H. destruct H as (nd & _ & H).
  destruct (_ && nd).
  - left.
    destruct (close (candle (nth i df Strategy.dummy_row))).
    + inversion H; subst; clear H. cbn. split; [reflexivity|].
      left. reflexivity.
    + destruct (high (candle (nth i df Strategy.dummy_row)));
        [|discriminate].
      inversion H; subst; clear H. cbn. split; [reflexivity|].
      right. split; reflexivity.
  - right.
    destruct (low (candle (nth i df Strategy.dummy_row))); [|discriminate].
    destruct (cell sl i); [|discriminate].
    destruct (_ && _); [|discriminate].
    destruct (close (candle (nth i df Strategy.dummy_row))).
    + inversion H; subst; clear H. cbn. split; [reflexivity|].
      left. reflexivity.
    + inversion H; subst; clear H. cbn. split; [reflexivity|].
      right. split; reflexivity.
Qed.

Lemma generate_signals_In (p : Strategy.StrategyParams) (df : list Row)
      (sigs : list Strategy.Signal) (s : Strategy.Signal) :
  Strategy.generate_signals p df = Ok sigs ->
  In s sigs ->
  (1 <= Strategy.ts s < length df)%nat
  /\ Strategy.eval_bar p df (Strategy.swing_high_prev p df)
                       (Strategy.swing_low_prev p df) (Strategy.ts s)
     = Ok (Some s).
Proof.
  intros H Hin. unfold Strategy.generate_signals in H.
  destruct (length df <? Strategy.min_bars_for_indicators p)%nat.
  - inversion H; subst. destruct Hin.
  - destruct (Strategy.lookback_swing p =? 0)%nat; [discriminate|].
    unfold Strategy.swing_levels in H.
    apply (scan_In _ _ _ _ s _ _ H) in Hin.
    destruct Hin as (j & Hj & Hev).
    pose proof (eval_bar_ts _ _ _ _ _ _ Hev) as Ets. subst j.
    apply in_seq in Hj. split; [lia|exact Hev].
Qed.

(** X12.  Entry has priority over exit on a bar, and signals are priced
    at the close.  Every BUY returned by [generate_signals] is priced at
    the close of its own bar, which is then not NaN, and names at least
    one rule; a SELL or CLOSE_LONG is returned only for a bar on which no
    entry rule fired, priced at the bar's close, or when the close is NaN
    at the bar's high (SELL) or low (CLOSE_LONG). *)
Theorem X12_entry_priority_and_pricing :
  forall (p : Strategy.StrategyParams) (df : list Row)
         (sigs : list Strategy.Signal) (s : Strategy.Signal),
    Strategy.generate_signals p df = Ok sigs ->
    In s sigs ->
    let i := Strategy.ts s in
    let row := nth i df Strategy.dummy_row in
    let prev := nth (i - 1) df Strategy.dummy_row in
    (forall cl, close (candle row) = Some cl -> Strategy.price s = cl)
    /\ (Strategy.type s = Strategy.BUY ->
        close (candle row) = Some (Strategy.price s)
        /\ Strategy.reason s <> [])
    /\ (Strategy.type s <> Strategy.BUY ->
        Strategy.breakout_buy p row (cell (Strategy.swing_high_prev p df) i)
        = false
        /\ Strategy.rsi_buy p prev row = false
        /\ Strategy.has_positive_macd_divergence
             df i (Strategy.macd_div_lookback p) = Ok false)
    /\ (close (candle row) = None ->
        (Strategy.type s = Strategy.SELL
         /\ high (candle row) = Some (Strategy.price s))
        \/ (Strategy.type s = Strategy.CLOSE_LONG
            /\ low (candle row) = Some (Strategy.price s))).
Proof.
  intros p df sigs s H Hin. cbv zeta.
  destruct (generate_signals_In _ _ _ _ H Hin) as [_ Hev].
  apply eval_bar_cases in Hev. cbv zeta in Hev.
  destruct Hev as (d & Hd & Hcases).
  destruct Hcases as [(Ht & Hfire & Hc & Hr)|(Hno & Hexit)].
  - split; [intros cl Hcl; congruence|].
    split; [intros _; split; assumption|].
    split; [intro Hn; contradiction|].
    intro Hnone. congruence.
  - apply orb_false_iff in Hno. destruct Hno as [Hno Hd0].
    apply orb_false_iff in Hno. destruct Hno as [Hb Hr]. subst d.
    split.
    { intros cl Hcl.
      destruct Hexit as [(_ & [Hc|[Hc _]])|(_ & [Hc|[Hc _]])]; congruence. }
    split.
    { intro Ht.
      destruct Hexit as [(Ht' & _)|(Ht' & _)]; congruence. }
    split; [intros _; repeat split; assumption|].
    intro Hnone.
    destruct Hexit as [(Ht & [Hc|[_ Hh]])|(Ht & [Hc|[_ Hl]])];
      try congruence.
    + left. split; assumption.
    + right. split; assumption.
Qed.

(** Witness of X12: the first signal of the four-bar frame is a BUY at the
    close of its bar. *)
Lemma X12_entry_priority_and_pricing_witness :
  exists (sigs : list Strategy.Signal) (s : Strategy.Signal),
    Strategy.generate_signals Sample.short_params Sample.gap_frame = Ok sigs
    /\ In s sigs
    /\ Strategy.type s = Strategy.BUY
    /\ close (candle (nth (Strategy.ts s) Sample.gap_frame
                         Strategy.dummy_row))
       = Some (Strategy.price s).
Proof.
  destruct (Strategy.generate_signals Sample.short_params Sample.gap_frame)
    as [sigs|e] eqn:E; [|vm_compute in E; discriminate].
  destruct sigs as [|s rest]; [vm_compute in E; discriminate|].
  exists (s :: rest), s.
  assert (Hin : In s (s :: rest)) by (left; reflexivity).
  assert (Ht : Strategy.type s = Strategy.BUY).
  { pose proof E as E'. vm_compute in E'. inversion E'. reflexivity. }
  split; [reflexivity|]. split; [exact Hin|]. split; [exact Ht|].
  apply (proj1 (proj2 (X12_entry_priority_and_pricing
                         Sample.short_params Sample.gap_frame
                         (s :: rest) s E Hin))).
  exact Ht.
Defined.

(** The position [idxmin]/[idxmax] returns lies inside the series. *)
Lemma arg_first_bound (better : Q -> Q -> bool) (l : list (option Q)) :
  forall (i : nat) (best : option (nat * Q)) (k : nat),
    Strategy.arg_first better l i best = Some k ->
    (exists b, best = Some (k, b)) \/ (i <= k < i + length l)%nat.
Proof.
  induction l as [|[x|] t IH]; intros i best k H; cbn [Strategy.arg_first] in H.
  - left. destruct best as [[j b]|]; [|discriminate].
    simpl in H. inversion H. exists b. reflexivity.
  - assert (Hnew : Strategy.arg_first better t (S i) (Some (i, x)) = Some k ->
                   (i <= k < i + length (Some x :: t))%nat).
    { intro H1. apply IH in H1. destruct H1 as [(b & Hb)|Hr].
      - inversion Hb. simpl. lia.
      - simpl. lia. }
    destruct best as [[j b]|]; [|right; apply Hnew; exact H].
    destruct (better x b); [right; apply Hnew; exact H|].
    apply IH in H. destruct H as [Hb|Hr]; [left; exact Hb|].
    right. simpl. lia.
  - apply IH in H. destruct H as [Hb|Hr]; [left; exact Hb|].
    right. simpl. lia.
Qed.

Lemma arg_first_some (better : Q -> Q -> bool) (l : list (option Q)) :
  forall (i : nat) (best : option (nat * Q)),
    best <> None \/ (exists x, In (Some x) l) ->
    Strategy.arg_first better l i best <> None.
Proof.
  induction l as [|[x|] t IH]; intros i best H; cbn [Strategy.arg_first].
  - destruct H as [H|(x & [])].
    destruct best as [[j b]|]; [discriminate|contradiction].
  - destruct best as [[j b]|].
    + destruct (better x b); apply IH; left; discriminate.
    + apply IH. left. discriminate.
  - apply IH. destruct H as [H|(x & [Hx|Hx])].
    + left. exact H.
    + discriminate.
    + right. exists x. exact Hx.
Qed.

Lemma cell_of_nth_error (l : list (option Q)) (i : nat) :
  cell l i = match nth_error l i with Some c => c | None => None end.
Proof.
  unfold cell. revert i. induction l as [|x t IH]; intros [|i]; simpl;
    try reflexivity. apply IH.
Qed.

(** Row [k] of a window that starts at row [lo] is row [lo + k] of the
    frame. *)
Lemma cell_slice_map {A} (f : A -> option Q) (lo hi : nat) (l : list A)
      (k : nat) :
  (k < length (slice lo hi l))%nat ->
  cell (map f (slice lo hi l)) k = cell (map f l) (lo + k).
Proof.
  intro Hk. rewrite !cell_of_nth_error, !nth_error_map.
  unfold slice in *. rewrite nth_error_firstn.
  rewrite length_firstn in Hk.
  assert (E : (k <? hi - lo)%nat = true) by (apply Nat.ltb_lt; lia).
  rewrite E, nth_error_skipn. reflexivity.
Qed.

(** The common body of the two divergence tests reports nothing when the
    price comparison fails for every pair of an earlier and a later row. *)
Lemma divergence_never (arg : list (option Q) -> option nat)
      (price_cmp macd_cmp : option Q -> option Q -> bool)
      (df : list Row) (idx lookback : nat) :
  (forall l k, arg l = Some k -> (k < length l)%nat) ->
  (forall i j : nat,
      (i <= j)%nat ->
      price_cmp (cell (StrategySpec.closes df) j)
                (cell (StrategySpec.closes df) i) = false) ->
  Strategy.divergence arg price_cmp macd_cmp df idx lookback <> Ok true.
Proof.
  intros Harg Hcmp. unfold Strategy.divergence.
  destruct (idx <? 5)%nat; [discriminate|].
  set (sub := slice (idx - lookback) (idx + 1) df).
  set (price := map (fun r => close (candle r)) sub).
  destruct (_ || _ || _); [discriminate|].
  destruct (_ || _); [discriminate|].
  destruct (arg (firstn (length sub / 2) price)) as [li|] eqn:El;
    [|discriminate].
  destruct (arg (skipn (length sub / 2) price)) as [r|] eqn:Er;
    [|discriminate].
  apply Harg in El. apply Harg in Er.
  rewrite length_firstn in El. rewrite length_skipn in Er.
  assert (Hlen : length price = length sub)
    by (unfold price; apply length_map).
  rewrite Hlen in El, Er.
  assert (Hp : price_cmp (cell price (length sub / 2 + r)) (cell price li)
               = false).
  { subst price. subst sub.
    rewrite !cell_slice_map by lia.
    apply Hcmp. lia. }
  rewrite Hp. discriminate.
Qed.

Lemma In_firstn_list {A} (n : nat) (l : list A) (x : A) :
  In x (firstn n l) -> In x l.
Proof.
  intro H. rewrite <- (firstn_skipn n l). apply in_or_app. left. exact H.
Qed.

Lemma In_skipn_list {A} (n : nat) (l : list A) (x : A) :
  In x (skipn n l) -> In x l.
Proof.
  intro H. rewrite <- (firstn_skipn n l). apply in_or_app. right. exact H.
Qed.

(** On a frame whose closes all have a value the divergence tests do not
    fail. *)
Lemma divergence_returns (arg : list (option Q) -> option nat)
      (price_cmp macd_cmp : option Q -> option Q -> bool)
      (df : list Row) (idx lookback : nat) :
  (forall l, (exists x, In (Some x) l) -> arg l <> None) ->
  (forall r, In r df -> close (candle r) <> None) ->
  exists b : bool,
    Strategy.divergence arg price_cmp macd_cmp df idx lookback = Ok b.
Proof.
  intros Harg Hdef. unfold Strategy.divergence.
  destruct (idx <? 5)%nat; [exists false; reflexivity|].
  set (sub := slice (idx - lookback) (idx + 1) df).
  set (price := map (fun r => close (candle r)) sub).
  destruct (_ || _ || _); [exists false; reflexivity|].
  assert (Hall : forall c, In c price -> exists x, c = Some x).
  { intros c Hc. unfold price in Hc. apply in_map_iff in Hc.
    destruct Hc as (r & <- & Hr). apply In_slice in Hr.
    specialize (Hdef r Hr).
    destruct (close (candle r)) as [x|]; [exists x; reflexivity|].
    contradiction. }
  assert (Hhalf : forall h : list (option Q),
             (forall c, In c h -> In c price) ->
             Strategy.is_nil h = false -> arg h <> None).
  { intros h Hsub Hnil. apply Harg.
    destruct h as [|c t]; [discriminate|].
    destruct (Hall c (Hsub c (or_introl eq_refl))) as (x & ->).
    exists x. left. reflexivity. }
  destruct (Strategy.is_nil (firstn (length sub / 2) price)) eqn:Nl;
    [exists false; reflexivity|].
  destruct (Strategy.is_nil (skipn (length sub / 2) price)) eqn:Nr;
    [exists false; reflexivity|].
  cbn [orb].
  destruct (arg (firstn (length sub / 2) price)) as [li|] eqn:El.
  - destruct (arg (skipn (length sub / 2) price)) as [r|] eqn:Er.
    + eexists. reflexivity.
    + exfalso. revert Er. apply Hhalf; [|exact Nr].
      intros c Hc. apply In_skipn_list in Hc. exact Hc.
  - exfalso. revert El. apply Hhalf; [|exact Nl].
    intros c Hc. apply In_firstn_list in Hc. exact Hc.
Qed.

Lemma idxmin_bound (l : list (option Q)) (k : nat) :
  Strategy.idxmin l = Some k -> (k < length l)%nat.
Proof.
  unfold Strategy.idxmin. intro H. apply arg_first_bound in H.
  destruct H as [(b & Hb)|H]; [discriminate|lia].
Qed.

Lemma idxmax_bound (l : list (option Q)) (k : nat) :
  Strategy.idxmax l = Some k -> (k < length l)%nat.
Proof.
  unfold Strategy.idxmax. intro H. apply arg_first_bound in H.
  destruct H as [(b & Hb)|H]; [discriminate|lia].
Qed.

Lemma cell_lt_false_of_le (a b : option Q) :
  (forall x y, a = Some x -> b = Some y -> y <= x) ->
  Strategy.cell_lt a b = false.
Proof.
  intro H. unfold Strategy.cell_lt.
  destruct a as [x|]; [|reflexivity]. destruct b as [y|]; [|reflexivity].
  apply Qlt_bool_false. apply H; reflexivity.
Qed.

(** X13.  A divergence needs a new extreme in the later half of the
    window: on closes that never fall from one bar to a later one
    [_has_positive_macd_divergence] never reports a divergence, whatever
    the histogram, and on closes that never rise
    [_has_negative_macd_divergence] never does; when in addition every
    close has a value both return False rather than fail. *)
Theorem X13_no_divergence_on_monotone_closes :
  forall (df : list Row) (idx lookback : nat),
    (StrategySpec.non_decreasing (StrategySpec.closes df) ->
     Strategy.has_positive_macd_divergence df idx lookback <> Ok true)
    /\ (StrategySpec.non_increasing (StrategySpec.closes df) ->
        Strategy.has_negative_macd_divergence df idx lookback <> Ok true)
    /\ ((forall r, In r df -> close (candle r) <> None) ->
        (StrategySpec.non_decreasing (StrategySpec.closes df) ->
         Strategy.has_positive_macd_divergence df idx lookback = Ok false)
        /\ (StrategySpec.non_increasing (StrategySpec.closes df) ->
            Strategy.has_negative_macd_divergence df idx lookback
            = Ok false)).
Proof.
  intros df idx lookback.
  assert (Hpos : StrategySpec.non_decreasing (StrategySpec.closes df) ->
                 Strategy.has_positive_macd_divergence df idx lookback
                 <> Ok true).
  { intro Hmono. unfold Strategy.has_positive_macd_divergence.
    apply divergence_never; [exact idxmin_bound|].
    intros i j Hij. apply cell_lt_false_of_le. intros x y Hx Hy.
    apply (Hmono i j y x Hij Hy Hx). }
  assert (Hneg : StrategySpec.non_increasing (StrategySpec.closes df) ->
                 Strategy.has_negative_macd_divergence df idx lookback
                 <> Ok true).
  { intro Hmono. unfold Strategy.has_negative_macd_divergence.
    apply divergence_never; [exact idxmax_bound|].
    intros i j Hij. cbv beta. apply cell_lt_false_of_le. intros x y Hx Hy.
    apply (Hmono i j x y Hij Hx Hy). }
  split; [exact Hpos|]. split; [exact Hneg|].
  intro Hdef. split; intro Hmono.
  - destruct (divergence_returns Strategy.idxmin Strategy.cell_lt
                (fun a b => Strategy.cell_lt b a) df idx lookback)
      as (b & Hb); [|exact Hdef|].
    + intros l Hl. apply arg_first_some. right. exact Hl.
    + specialize (Hpos Hmono).
      unfold Strategy.has_positive_macd_divergence in *.
      rewrite Hb in *. destruct b; [contradiction|reflexivity].
  - destruct (divergence_returns Strategy.idxmax
                (fun a b => Strategy.cell_lt b a) Strategy.cell_lt
                df idx lookback)
      as (b & Hb); [|exact Hdef|].
    + intros l Hl. apply arg_first_some. right. exact Hl.
    + specialize (Hneg Hmono).
      unfold Strategy.has_negative_macd_divergence in *.
      rewrite Hb in *. destruct b; [contradiction|reflexivity].
Qed.

Ltac six_rows i H tac :=
  do 6 (destruct i as [|i]; [tac|]); destruct i; discriminate H.

(** Witness of X13: six rising closes show no positive divergence although
    the histogram rises at the lows, six falling closes no negative one. *)
Lemma X13_no_divergence_on_monotone_closes_witness :
  Strategy.has_positive_macd_divergence Sample2.climb 5 20 = Ok false
  /\ Strategy.has_negative_macd_divergence Sample2.slide 5 20 = Ok false.
Proof.
  split.
  - apply (proj2 (proj2 (X13_no_divergence_on_monotone_closes
                           Sample2.climb 5 20))).
    + intros r Hr. repeat (destruct Hr as [<-|Hr]; [discriminate|]).
      destruct Hr.
    + intros i j x y Hij Hi Hj.
      six_rows i Hi ltac:(six_rows j Hj
        ltac:(first [ lia
                    | cbv in Hi, Hj; inversion Hi; inversion Hj;
                      discriminate ])).
  - apply (proj2 (proj2 (X13_no_divergence_on_monotone_closes
                           Sample2.slide 5 20))).
    + intros r Hr. repeat (destruct Hr as [<-|Hr]; [discriminate|]).
      destruct Hr.
    + intros i j x y Hij Hi Hj.
      six_rows i Hi ltac:(six_rows j Hj
        ltac:(first [ lia
                    | cbv in Hi, Hj; inversion Hi; inversion Hj;
                      discriminate ])).
Defined.

Lemma full_range_positive (hi lo : Q) : 0 < Strategy.full_range hi lo.
Proof.
  unfold Strategy.full_range.
  destruct (Qmax_cases (1 # 1000000000) (hi - lo)) as [[H ->]|[H ->]];
    [|reflexivity].
  apply Qlt_trans with (1 # 1000000000); [reflexivity|exact H].
Qed.

Lemma Qle_bool_true_of_le (a b : Q) : a <= b -> Qle_bool a b = true.
Proof. intro H. apply Qle_bool_iff. exact H. Qed.

(** X14.  The two candle patterns.  Both return False when any input is
    NaN.  In [_is_bullish_engulfing] the final test close > open never
    decides: a bearish previous candle whose body is engulfed already
    implies it, and when the pattern holds the current body is at least
    the previous body and at least [min_body_ratio] of the bar's range.
    In [_is_hammer] the test of the upper shadow against 0.3 never
    decides: a close within 0.2 of the range from the high implies it. *)
Theorem X14_candle_patterns :
  forall (po pc co cc ch cl ratio : Q),
    let rng := Strategy.full_range ch cl in
    Strategy.is_bullish_engulfing (Some po) (Some pc) (Some co) (Some cc)
                                  (Some ch) (Some cl) ratio
    = Qlt_bool pc po
      && Qge_bool (Qabs (cc - co) / rng) ratio
      && (Qle_bool co pc && Qge_bool cc po)
    /\ (Strategy.is_bullish_engulfing (Some po) (Some pc) (Some co) (Some cc)
                                      (Some ch) (Some cl) ratio = true ->
        0 < po - pc /\ po - pc <= cc - co /\ ratio * rng <= cc - co)
    /\ Strategy.is_hammer (Some co) (Some cc) (Some ch) (Some cl) ratio
       = Qge_bool ((Qmin co cc - cl) / rng) ratio
         && Qle_bool ((ch - cc) / rng) (2 # 10)
    /\ (forall a b c d e f : option Q,
          a = None \/ b = None \/ c = None \/ d = None \/ e = None
          \/ f = None ->
          Strategy.is_bullish_engulfing a b c d e f ratio = false)
    /\ (forall a b c d : option Q,
          a = None \/ b = None \/ c = None \/ d = None ->
          Strategy.is_hammer a b c d ratio = false).
Proof.
  intros po pc co cc ch cl ratio. cbv zeta.
  pose proof (full_range_positive ch cl) as Hrng.
  set (rng := Strategy.full_range ch cl) in *.
  assert (Hengulf :
    Qlt_bool pc po = true -> Qle_bool co pc = true ->
    Qge_bool cc po = true -> co < cc /\ po - pc <= cc - co /\ 0 < po - pc).
  { intros H1 H2 H3. apply Qlt_bool_true in H1.
    apply Qle_bool_iff in H2. unfold Qge_bool in H3.
    apply Qle_bool_iff in H3. repeat split; lra. }
  split; [|split; [|split; [|split]]].
  - unfold Strategy.is_bullish_engulfing. cbv zeta. fold rng.
    destruct (Qlt_bool pc po) eqn:E1; cbn [andb]; [|reflexivity].
    destruct (Qge_bool (Qabs (cc - co) / rng) ratio); cbn [andb];
      [|reflexivity].
    destruct (Qle_bool co pc) eqn:E2; cbn [andb]; [|reflexivity].
    destruct (Qge_bool cc po) eqn:E3; cbn [andb]; [|reflexivity].
    destruct (Hengulf eq_refl eq_refl eq_refl) as (Hlt & _).
    unfold Qgt_bool. apply Qlt_bool_true. exact Hlt.
  - unfold Strategy.is_bullish_engulfing. cbv zeta. fold rng. intro H.
    apply andb_true_iff in H. destruct H as [H _].
    apply andb_true_iff in H. destruct H as [H He].
    apply andb_true_iff in H. destruct H as [Hb Hbody].
    apply andb_true_iff in He. destruct He as [He1 He2].
    destruct (Hengulf Hb He1 He2) as (Hlt & Hle & Hpos).
    split; [exact Hpos|]. split; [exact Hle|].
    unfold Qge_bool in Hbody. apply Qle_bool_iff in Hbody.
    rewrite Qabs_pos in Hbody by lra.
    apply (Qmult_le_compat_r _ _ rng) in Hbody; [|lra].
    assert (E : (cc - co) / rng * rng == cc - co) by (field; lra).
    rewrite E in Hbody. exact Hbody.
  - unfold Strategy.is_hammer. cbv zeta. fold rng.
    destruct (Qge_bool ((Qmin co cc - cl) / rng) ratio); cbn [andb];
      [|reflexivity].
    destruct (Qle_bool ((ch - cc) / rng) (2 # 10)) eqn:Ec;
      [|apply andb_false_r].
    rewrite andb_true_r. apply Qle_bool_true_of_le.
    apply Qle_bool_iff in Ec.
    apply Qle_trans with ((ch - cc) / rng); [|lra].
    apply Qle_shift_div_l; [exact Hrng|].
    assert (E : (ch - Qmax co cc) / rng * rng == ch - Qmax co cc)
      by (field; lra).
    rewrite E. pose proof (Q.le_max_r co cc). lra.
  - intros a b c d e f H. unfold Strategy.is_bullish_engulfing.
    destruct a, b, c, d, e, f; try reflexivity;
      destruct H as [H|[H|[H|[H|[H|H]]]]]; discriminate.
  - intros a b c d H. unfold Strategy.is_hammer.
    destruct a, b, c, d; try reflexivity;
      destruct H as [H|[H|[H|H]]]; discriminate.
Qed.

(** Witness of X14: after the bearish candle 102 -> 100 the candle
    99 -> 103 (range 98.5 .. 103.5) is a bullish engulfing whose body 4
    covers the previous body 2. *)
Lemma X14_candle_patterns_witness :
  Strategy.is_bullish_engulfing (Some 102) (Some 100) (Some 99) (Some 103)
                                (Some (207 # 2)) (Some (197 # 2)) (55 # 100)
  = true
  /\ 102 - 100 <= 103 - 99.
Proof.
  assert (H : Strategy.is_bullish_engulfing
                (Some 102) (Some 100) (Some 99) (Some 103)
                (Some (207 # 2)) (Some (197 # 2)) (55 # 100) = true)
    by (vm_compute; reflexivity).
  split; [exact H|].
  apply (proj1 (proj2 (X14_candle_patterns 102 100 99 103 (207 # 2)
                                           (197 # 2) (55 # 100)))).
  exact H.
Defined.

(** ** backtest/runner.py, further *)

(** X15.  The quotes the backtest derives from a bar: none when close, high
    or low is missing; otherwise both are given, the bid is never below
    the low and the ask never above the high, and on a bar with
    low <= close <= high they straddle the close,
    low <= bid <= close <= ask <= high, at most half the bar's range
    apart. *)
Theorem X15_quotes_from_bar :
  forall row : Row,
    (close (candle row) = None \/ high (candle row) = None
     \/ low (candle row) = None ->
     Backtest.best_bid_ask_from_bar row = (None, None))
    /\ (forall c h l : Q,
          close (candle row) = Some c ->
          high (candle row) = Some h ->
          low (candle row) = Some l ->
          exists bid ask : Q,
            Backtest.best_bid_ask_from_bar row = (Some bid, Some ask)
            /\ l <= bid /\ ask <= h
            /\ (l <= c -> c <= h ->
                bid <= c /\ c <= ask
                /\ ask - bid <= Qmax (1 # 1000000000) (h - l) / 2)).
Proof.
  intro row. unfold Backtest.best_bid_ask_from_bar. split.
  - intros [H|[H|H]]; rewrite H.
    + reflexivity.
    + destruct (close (candle row)); reflexivity.
    + destruct (close (candle row)); [|reflexivity].
      destruct (high (candle row)); reflexivity.
  - intros c h l -> -> ->. cbv zeta.
    set (rng := Qmax (1 # 1000000000) (h - l)).
    assert (Hrng : 0 < rng).
    { unfold rng.
      destruct (Qmax_cases (1 # 1000000000) (h - l)) as [[H ->]|[H ->]];
        [|reflexivity].
      apply Qlt_trans with (1 # 1000000000); [reflexivity|exact H]. }
    assert (Hhalf : rng / 2 == (1 # 2) * rng) by field.
    eexists. eexists. split; [reflexivity|].
    destruct (Qmin_cases (c - (25 # 100) * rng) c) as [[H1 ->]|[H1 ->]];
      destruct (Qmax_cases (c + (25 # 100) * rng) c) as [[H2 ->]|[H2 ->]];
      try (exfalso; lra).
    destruct (Qmax_cases l (c - (25 # 100) * rng)) as [[H3 ->]|[H3 ->]];
      destruct (Qmin_cases h (c + (25 # 100) * rng)) as [[H4 ->]|[H4 ->]];
      (split; [lra|]; split; [lra|]; intros Hlc Hch;
       split; [lra|]; split; [lra|]; rewrite Hhalf; lra).
Qed.

(** Witness of X15 on a bar with low 99, close 100 and high 101. *)
Lemma X15_quotes_from_bar_witness :
  exists bid ask : Q,
    Backtest.best_bid_ask_from_bar (Sample2.ohlc_row 100 101 99)
    = (Some bid, Some ask)
    /\ 99 <= bid /\ bid <= 100 /\ 100 <= ask /\ ask <= 101.
Proof.
  destruct (proj2 (X15_quotes_from_bar (Sample2.ohlc_row 100 101 99))
                  100 101 99 eq_refl eq_refl eq_refl)
    as (bid & ask & E & Hl & Hh & H).
  exists bid, ask. split; [exact E|].
  destruct H as (Hb & Ha & _); [discriminate|discriminate|].
  repeat split; assumption.
Defined.

Lemma execute_ts (inp : Exec.ExecutionInput) (r : reason_text)
      (t : Exec.ExecutedTrade) :
  Exec.execute inp r = Ok (Some t) ->
  Exec.t_ts t = Exec.ts inp /\ (0 < Exec.qty_shares t)%Z.
Proof.
  unfold Exec.execute.
  destruct (Exec.calc_exec_price _ _ _ _) as [p|]; [|discriminate].
  destruct (Exec.sizing inp p) as [[l q]|e]; simpl; [|discriminate].
  destruct (q <=? 0)%Z eqn:E; [discriminate|].
  intro H. inversion H; subst; clear H. simpl.
  apply Z.leb_gt in E. split; [reflexivity|exact E].
Qed.

(** What one pass of the execution loop does: nothing; or, with no
    position open and [allow_new_trade] passing, it opens a position at
    the fill of the signal's bar; or it closes the open position and logs
    the round trip. *)
Lemma step_effect (cfg : Backtest.Config) (lot : Z) (cdf : list Row)
      (st st' : Backtest.RunState) (sig : Strategy.Signal) :
  Backtest.step cfg lot cdf st sig = Ok st' ->
  st' = st
  \/ (Backtest.open_pos st = None
      /\ allow_new_trade (Backtest.risk cfg) (Backtest.day_stats st) = true
      /\ exists t : Exec.ExecutedTrade,
          Exec.t_ts t = Strategy.ts sig
          /\ (0 < Exec.qty_shares t)%Z
          /\ st' = {| Backtest.open_pos :=
                        Some (assign_stops_for_long (Backtest.risk cfg)
                                (Position_new (Exec.exec_price t)
                                              (Exec.qty_shares t)));
                      Backtest.entry_trade_meta := Some t;
                      Backtest.day_stats :=
                        Backtest.count_open (Backtest.day_stats st);
                      Backtest.trades_rows := Backtest.trades_rows st |})
  \/ (exists (pos : Position) (meta t : Exec.ExecutedTrade),
         Backtest.open_pos st = Some pos
         /\ Backtest.entry_trade_meta st = Some meta
         /\ Exec.t_ts t = Strategy.ts sig
         /\ st' = {| Backtest.open_pos := None;
                     Backtest.entry_trade_meta := None;
                     Backtest.day_stats :=
                       update_day_stats_on_close (Backtest.day_stats st)
                         (entry_price pos) (Exec.exec_price t)
                         (Risk.qty_shares pos)
                         (Exec.commission meta + Exec.commission t);
                     Backtest.trades_rows :=
                       Backtest.trades_rows st ++
                       [ {| Backtest.entry_ts := Exec.t_ts meta;
                            Backtest.exit_ts := Exec.t_ts t;
                            Backtest.row_entry_price := entry_price pos;
                            Backtest.row_exit_price := Exec.exec_price t;
                            Backtest.row_qty_shares := Risk.qty_shares pos;
                            Backtest.commission_rub :=
                              Exec.commission meta + Exec.commission t;
                            Backtest.pnl_rub :=
                              (Exec.exec_price t - entry_price pos)
                              * inject_Z (Risk.qty_shares pos)
                              - (Exec.commission meta + Exec.commission t);
                            Backtest.pnl_pct :=
                              (Exec.exec_price t - entry_price pos)
                              / entry_price pos;
                            Backtest.entry_reason := Exec.reason meta;
                            Backtest.exit_reason := Exec.reason t |} ] |}).
Proof.
  unfold Backtest.step. intro H.
  destruct (nth_error cdf (Strategy.ts sig)) as [bar|];
    [|left; inversion H; reflexivity].
  destruct (Backtest.best_bid_ask_from_bar bar) as [bid ask].
  unfold Backtest.on_signal in H.
  assert (Hsell :
    Backtest.on_sell cfg lot st sig bid ask = Ok st' ->
    st' = st
    \/ (exists (pos : Position) (meta t : Exec.ExecutedTrade),
         Backtest.open_pos st = Some pos
         /\ Backtest.entry_trade_meta st = Some meta
         /\ Exec.t_ts t = Strategy.ts sig
         /\ st' = {| Backtest.open_pos := None;
                     Backtest.entry_trade_meta := None;
                     Backtest.day_stats :=
                       update_day_stats_on_close (Backtest.day_stats st)
                         (entry_price pos) (Exec.exec_price t)
                         (Risk.qty_shares pos)
                         (Exec.commission meta + Exec.commission t);
                     Backtest.trades_rows :=
                       Backtest.trades_rows st ++
                       [ {| Backtest.entry_ts := Exec.t_ts meta;
                            Backtest.exit_ts := Exec.t_ts t;
                            Backtest.row_entry_price := entry_price pos;
                            Backtest.row_exit_price := Exec.exec_price t;
                            Backtest.row_qty_shares := Risk.qty_shares pos;
                            Backtest.commission_rub :=
                              Exec.commission meta + Exec.commission t;
                            Backtest.pnl_rub :=
                              (Exec.exec_price t - entry_price pos)
                              * inject_Z (Risk.qty_shares pos)
                              - (Exec.commission meta + Exec.commission t);
                            Backtest.pnl_pct :=
                              (Exec.exec_price t - entry_price pos)
                              / entry_price pos;
                            Backtest.entry_reason := Exec.reason meta;
                            Backtest.exit_reason := Exec.reason t |} ] |})).
  { clear H. intro H. unfold Backtest.on_sell in H.
    destruct (Backtest.open_pos st) as [pos|] eqn:Ep;
      [|left; inversion H; reflexivity].
    destruct (Backtest.entry_trade_meta st) as [meta|] eqn:Em;
      [|left; inversion H; reflexivity].
    apply bind_ok in H. destruct H as (o & Ho & H).
    destruct o as [t|]; [|left; inversion H; reflexivity].
    destruct (Exec.qty_shares t <=? 0)%Z; [left; inversion H; reflexivity|].
    destruct (Qeq_bool (entry_price pos) 0); [discriminate|].
    right. apply execute_ts in Ho. destruct Ho as [Hts _].
    exists pos, meta, t. inversion H; subst; clear H.
    repeat split; reflexivity || exact Hts. }
  destruct (Strategy.type sig).
  - unfold Backtest.on_buy in H.
    destruct (Backtest.open_pos st) as [pos|] eqn:Ep;
      [left; inversion H; reflexivity|].
    destruct (allow_new_trade (Backtest.risk cfg) (Backtest.day_stats st))
      eqn:Ea; cbn [negb] in H; [|left; inversion H; reflexivity].
    apply bind_ok in H. destruct H as (o & Ho & H).
    destruct o as [t|]; [|left; inversion H; reflexivity].
    destruct (Exec.qty_shares t <=? 0)%Z; [left; inversion H; reflexivity|].
    right. left. apply execute_ts in Ho. destruct Ho as [Hts Hq].
    split; [reflexivity|]. split; [reflexivity|].
    exists t. inversion H; subst; clear H.
    repeat split; assumption.
  - destruct (Hsell H) as [E|E]; [left; exact E|right; right; exact E].
  - destruct (Hsell H) as [E|E]; [left; exact E|right; right; exact E].
Qed.

Lemma Qsum_snoc (l : list Q) (x : Q) : Qsum (l ++ [x]) = Qsum l + x.
Proof. unfold Qsum. rewrite fold_left_app. reflexivity. Qed.

Lemma observations_pnl_column (rows : list Backtest.TradeRow) :
  observations (Metrics.pnl_column rows) = map Backtest.pnl_rub rows.
Proof.
  unfold Metrics.pnl_column. rewrite <- (map_map Backtest.pnl_rub Some).
  apply observations_map_Some.
Qed.

(** The day statistics of the backtest agree with its trade log. *)
Lemma run_signals_ledger (cfg : Backtest.Config) (lot : Z) (cdf : list Row)
      (signals : list Strategy.Signal) :
  forall st st' : Backtest.RunState,
    Backtest.run_signals cfg lot cdf st signals = Ok st' ->
    realized_pnl_rub (Backtest.day_stats st)
    == Qsum (map Backtest.pnl_rub (Backtest.trades_rows st)) ->
    realized_loss_rub (Backtest.day_stats st)
    == Qsum (map LedgerSpec.row_loss (Backtest.trades_rows st)) ->
    realized_pnl_rub (Backtest.day_stats st')
    == Qsum (map Backtest.pnl_rub (Backtest.trades_rows st'))
    /\ realized_loss_rub (Backtest.day_stats st')
       == Qsum (map LedgerSpec.row_loss (Backtest.trades_rows st')).
Proof.
  induction signals as [|sig rest IH]; intros st st' H Hp Hl; simpl in H.
  - inversion H; subst. split; assumption.
  - apply bind_ok in H. destruct H as (st1 & H1 & H2).
    destruct (step_effect _ _ _ _ _ _ H1)
      as [->|[(_ & _ & t & _ & _ & ->)|(pos & meta & t & _ & _ & _ & ->)]].
    + apply (IH st st' H2); assumption.
    + apply (IH _ st' H2); simpl; assumption.
    + apply (IH _ st' H2);
        cbn [Backtest.day_stats Backtest.trades_rows realized_pnl_rub
             realized_loss_rub update_day_stats_on_close];
        rewrite map_app; cbn [map]; rewrite Qsum_snoc.
      * rewrite Hp. reflexivity.
      * unfold LedgerSpec.row_loss. cbn [Backtest.pnl_rub].
        unfold close_pnl.
        set (pnl := (Exec.exec_price t - entry_price pos)
                    * inject_Z (Risk.qty_shares pos)
                    - (Exec.commission meta + Exec.commission t)).
        rewrite <- Hl.
        destruct (Qlt_bool pnl 0) eqn:E.
        -- apply Qlt_bool_true in E.
           rewrite Qabs_neg by lra.
           destruct (Qmax_cases 0 (- pnl)) as [[_ ->]|[H0 _]];
             [reflexivity|lra].
        -- apply Qlt_bool_false in E.
           destruct (Qmax_cases 0 (- pnl)) as [[H0 _]|[_ ->]]; lra.
Qed.

(** X16.  After a backtest the day statistics agree with the trade log:
    the realized PnL is the sum of the logged PnL (the figure the summary
    reports), and the realized loss is the sum of the logged losses and is
    not negative. *)
Theorem X16_day_stats_match_trade_log :
  forall (cfg : Backtest.Config) (lot : Z) (candles : list Candle)
         (st : Backtest.RunState),
    Backtest.run cfg lot candles = Ok st ->
    realized_pnl_rub (Backtest.day_stats st)
    == Metrics.summary_realized_pnl (Backtest.trades_rows st)
    /\ realized_loss_rub (Backtest.day_stats st)
       == Qsum (map LedgerSpec.row_loss (Backtest.trades_rows st))
    /\ 0 <= realized_loss_rub (Backtest.day_stats st).
Proof.
  intros cfg lot candles st H.
  assert (Hinv :
    realized_pnl_rub (Backtest.day_stats st)
    == Qsum (map Backtest.pnl_rub (Backtest.trades_rows st))
    /\ realized_loss_rub (Backtest.day_stats st)
       == Qsum (map LedgerSpec.row_loss (Backtest.trades_rows st))).
  { unfold Backtest.run in H. destruct candles as [|c t].
    - inversion H. split; reflexivity.
    - apply bind_ok in H. destruct H as (signals & _ & H).
      apply (run_signals_ledger _ _ _ _ _ _ H); reflexivity. }
  destruct Hinv as [Hp Hl]. split; [|split; [exact Hl|]].
  - rewrite Hp. unfold Metrics.summary_realized_pnl.
    rewrite observations_pnl_column.
    destruct (Backtest.trades_rows st); reflexivity.
  - rewrite Hl. clear.
    induction (Backtest.trades_rows st) as [|r t IH] using rev_ind.
    + discriminate.
    + rewrite map_app. cbn [map]. rewrite Qsum_snoc.
      unfold LedgerSpec.row_loss at 2.
      pose proof (Q.le_max_l 0 (- Backtest.pnl_rub r)). lra.
Qed.

(** The backtest of the thirty rising candles and a drop returns. *)
Lemma round_trip_run_returns :
  exists st : Backtest.RunState,
    Backtest.run Sample.config 10 Sample.round_trip_candles = Ok st.
Proof.
  destruct (Backtest.run Sample.config 10 Sample.round_trip_candles)
    as [st|e] eqn:E; [|vm_compute in E; discriminate].
  exists st. reflexivity.
Qed.

(** Witness of X16 on the thirty rising candles and a drop. *)
Lemma X16_day_stats_match_trade_log_witness :
  exists st : Backtest.RunState,
    Backtest.run Sample.config 10 Sample.round_trip_candles = Ok st
    /\ realized_pnl_rub (Backtest.day_stats st)
       == Metrics.summary_realized_pnl (Backtest.trades_rows st).
Proof.
  destruct round_trip_run_returns as [st E].
  exists st. split; [exact E|].
  apply (X16_day_stats_match_trade_log Sample.config 10
           Sample.round_trip_candles st E).
Defined.

(** The trade counter is the number of logged round trips plus the number
    of positions opened, and a position is opened only while the counter
    is below the daily maximum. *)
Lemma run_signals_entries (cfg : Backtest.Config) (lot : Z) (cdf : list Row)
      (signals : list Strategy.Signal) :
  forall st st' : Backtest.RunState,
    Backtest.run_signals cfg lot cdf st signals = Ok st' ->
    (trades_count (Backtest.day_stats st)
     = Z.of_nat (length (Backtest.trades_rows st)) + LedgerSpec.entries st
     /\ (LedgerSpec.entries st = 0
         \/ 2 * (LedgerSpec.entries st - 1)
            < max_trades_per_day (Backtest.risk cfg)))%Z ->
    (trades_count (Backtest.day_stats st')
     = Z.of_nat (length (Backtest.trades_rows st')) + LedgerSpec.entries st'
     /\ (LedgerSpec.entries st' = 0
         \/ 2 * (LedgerSpec.entries st' - 1)
            < max_trades_per_day (Backtest.risk cfg)))%Z.
Proof.
  induction signals as [|sig rest IH]; intros st st' H Hinv; simpl in H.
  - inversion H; subst. exact Hinv.
  - apply bind_ok in H. destruct H as (st1 & H1 & H2).
    apply (IH st1 st' H2). clear IH H2.
    destruct Hinv as [Hc Hb]. unfold LedgerSpec.entries in *.
    destruct (step_effect _ _ _ _ _ _ H1)
      as [->|[(Ho & Ha & t & _ & _ & ->)|(pos & meta & t & Ho & _ & _ & ->)]].
    + split; assumption.
    + rewrite Ho in Hc, Hb.
      unfold allow_new_trade in Ha.
      destruct (max_trades_per_day (Backtest.risk cfg)
                <=? trades_count (Backtest.day_stats st))%Z eqn:El;
        [discriminate|].
      apply Z.leb_gt in El.
      cbn [Backtest.day_stats Backtest.trades_rows Backtest.open_pos
           Backtest.count_open trades_count].
      split; [lia|]. right. lia.
    + rewrite Ho in Hc, Hb.
      cbn [Backtest.day_stats Backtest.trades_rows Backtest.open_pos
           update_day_stats_on_close trades_count].
      rewrite length_app. cbn [length]. rewrite Nat2Z.inj_add.
      change (Z.of_nat 1) with 1%Z.
      split; [lia|]. destruct Hb as [Hb|Hb]; [lia|]. right. lia.
Qed.

(** X17.  The daily trade limit bounds a backtest: a position is opened
    only while [trades_count] is below [max_trades_per_day], and since the
    counter grows by one at the entry and one at the exit, a run that
    trades at all opens at most (max_trades_per_day + 1) / 2 positions and
    its counter never passes max_trades_per_day + 1. *)
Theorem X17_trade_limit_bounds_backtest :
  forall (cfg : Backtest.Config) (lot : Z) (candles : list Candle)
         (st : Backtest.RunState),
    Backtest.run cfg lot candles = Ok st ->
    (LedgerSpec.entries st = 0 /\ trades_count (Backtest.day_stats st) = 0
     \/ 2 * LedgerSpec.entries st
        <= max_trades_per_day (Backtest.risk cfg) + 1
        /\ trades_count (Backtest.day_stats st)
           <= max_trades_per_day (Backtest.risk cfg) + 1)%Z.
Proof.
  intros cfg lot candles st H.
  assert (Hinv :
    (trades_count (Backtest.day_stats st)
     = Z.of_nat (length (Backtest.trades_rows st)) + LedgerSpec.entries st
     /\ (LedgerSpec.entries st = 0
         \/ 2 * (LedgerSpec.entries st - 1)
            < max_trades_per_day (Backtest.risk cfg)))%Z).
  { unfold Backtest.run in H. destruct candles as [|c t].
    - inversion H. split; [reflexivity|left; reflexivity].
    - apply bind_ok in H. destruct H as (signals & _ & H).
      apply (run_signals_entries _ _ _ _ _ _ H).
      split; [reflexivity|left; reflexivity]. }
  destruct Hinv as [Hc Hb]. unfold LedgerSpec.entries in *.
  destruct (Backtest.open_pos st); destruct Hb as [Hb|Hb]; lia.
Qed.

(** Witness of X17: the run on the thirty rising candles and a drop. *)
Lemma X17_trade_limit_bounds_backtest_witness :
  exists st : Backtest.RunState,
    Backtest.run Sample.config 10 Sample.round_trip_candles = Ok st
    /\ (2 * LedgerSpec.entries st
        <= max_trades_per_day (Backtest.risk Sample.config) + 1)%Z.
Proof.
  destruct round_trip_run_returns as [st E].
  exists st. split; [exact E|].
  destruct (X17_trade_limit_bounds_backtest Sample.config 10
              Sample.round_trip_candles st E) as [[H0 _]|[H _]].
  - rewrite H0. vm_compute. discriminate.
  - exact H.
Defined.




(** ** core/trading_engine.py, further *)

(** A SELL fills at the bid less slippage. *)
Lemma sell_fill_price (inp : Exec.ExecutionInput) (r : reason_text)
      (t : Exec.ExecutedTrade) :
  Exec.execute inp r = Ok (Some t) ->
  Exec.side inp = Exec.SELL ->
  exists bid : Q,
    Exec.best_bid inp = Some bid /\ 0 < bid
    /\ Exec.exec_price t = bid * (1 - Exec.slippage_pct inp).
Proof.
  intros H Hside.
  destruct (execute_inv inp r t H) as (p & l & Hp & _ & _ & Hprice & _).
  rewrite Hside in Hp. unfold Exec.calc_exec_price in Hp.
  destruct (Exec.best_bid inp) as [bid|]; [|discriminate].
  destruct (Qle_bool bid 0) eqn:E; [discriminate|].
  apply Qle_bool_false in E.
  exists bid. split; [reflexivity|]. split; [exact E|].
  rewrite Hprice. congruence.
Qed.

(** What processing one signal does to the engine: nothing; or, the
    limits passing and no position being open, it opens one and records
    the fill; or, the limits passing, it closes the open position at the
    bid less slippage and books the result. *)
Lemma process_signal_effect (cfg : Backtest.Config) (lot : Z)
      (st st' : Engine.EngineState) (sig : Strategy.Signal)
      (md : Engine.MarketData) :
  Engine.process_signal cfg lot st sig md = Ok st' ->
  st' = st
  \/ (allow_new_trade (Backtest.risk cfg) (Engine.day_stats st) = true
      /\ Engine.current_position st = None
      /\ exists t : Exec.ExecutedTrade,
          let position :=
            assign_stops_for_long (Backtest.risk cfg)
              (Position_new (Exec.exec_price t) (Exec.qty_shares t)) in
          st' = {| Engine.current_position := Some position;
                   Engine.day_stats := Engine.day_stats st;
                   Engine.total_pnl := Engine.total_pnl st;
                   Engine.trade_history :=
                     Engine.trade_history st ++
                     [ {| Engine.signal := sig; Engine.execution := t;
                          Engine.position_after := Some position;
                          Engine.pnl_realized := None |} ];
                   Engine.trades_executed :=
                     (Engine.trades_executed st + 1)%Z |})
  \/ (allow_new_trade (Backtest.risk cfg) (Engine.day_stats st) = true
      /\ exists (position : Position) (t : Exec.ExecutedTrade) (bid : Q),
          Engine.current_position st = Some position
          /\ Engine.BID md = Some bid
          /\ Exec.exec_price t = bid * (1 - Backtest.slippage_pct cfg)
          /\ let pnl :=
               (Exec.exec_price t - entry_price position)
               * inject_Z (Risk.qty_shares position) - Exec.commission t in
             st' = {| Engine.current_position := None;
                      Engine.day_stats :=
                        update_day_stats_on_close (Engine.day_stats st)
                          (entry_price position) (Exec.exec_price t)
                          (Risk.qty_shares position) (Exec.commission t);
                      Engine.total_pnl := Engine.total_pnl st + pnl;
                      Engine.trade_history :=
                        Engine.trade_history st ++
                        [ {| Engine.signal := sig; Engine.execution := t;
                             Engine.position_after := None;
                             Engine.pnl_realized := Some pnl |} ];
                      Engine.trades_executed :=
                        (Engine.trades_executed st + 1)%Z |}).
Proof.
  unfold Engine.process_signal. intro H.
  destruct (allow_new_trade (Backtest.risk cfg) (Engine.day_stats st))
    eqn:Ea; cbn [negb] in H; [|left; inversion H; reflexivity].
  assert (Hsell :
    Engine.process_sell cfg lot st sig md = Ok st' ->
    st' = st
    \/ exists (position : Position) (t : Exec.ExecutedTrade) (bid : Q),
          Engine.current_position st = Some position
          /\ Engine.BID md = Some bid
          /\ Exec.exec_price t = bid * (1 - Backtest.slippage_pct cfg)
          /\ let pnl :=
               (Exec.exec_price t - entry_price position)
               * inject_Z (Risk.qty_shares position) - Exec.commission t in
             st' = {| Engine.current_position := None;
                      Engine.day_stats :=
                        update_day_stats_on_close (Engine.day_stats st)
                          (entry_price position) (Exec.exec_price t)
                          (Risk.qty_shares position) (Exec.commission t);
                      Engine.total_pnl := Engine.total_pnl st + pnl;
                      Engine.trade_history :=
                        Engine.trade_history st ++
                        [ {| Engine.signal := sig; Engine.execution := t;
                             Engine.position_after := None;
                             Engine.pnl_realized := Some pnl |} ];
                      Engine.trades_executed :=
                        (Engine.trades_executed st + 1)%Z |}).
  { clear H. intro H. unfold Engine.process_sell in H.
    destruct (Engine.current_position st) as [position|] eqn:Ep;
      [|left; inversion H; reflexivity].
    destruct (truthy (Engine.BID md)) eqn:Eb; cbn [negb] in H;
      [|left; inversion H; reflexivity].
    apply bind_ok in H. destruct H as (o & Ho & H).
    destruct o as [t|]; [|left; inversion H; reflexivity].
    right. destruct (Engine.BID md) as [bid|] eqn:Ebid; [|discriminate].
    exists position, t, bid. inversion H; subst; clear H.
    destruct (sell_fill_price _ _ _ Ho eq_refl) as (b & Hb & _ & Hprice).
    cbn [Exec.best_bid Exec.slippage_pct] in Hb, Hprice.
    assert (b = bid) by congruence. subst b.
    repeat split; try reflexivity; assumption. }
  destruct (Strategy.type sig).
  - unfold Engine.process_buy in H.
    destruct (Engine.current_position st) as [position|] eqn:Ep;
      [left; inversion H; reflexivity|].
    destruct (negb (truthy (Engine.OFFER md)) || _);
      [left; inversion H; reflexivity|].
    apply bind_ok in H. destruct H as (o & Ho & H).
    destruct o as [t|]; [|left; inversion H; reflexivity].
    right. left. split; [reflexivity|]. split; [reflexivity|].
    exists t. inversion H; subst; clear H. reflexivity.
  - destruct (Hsell H) as [E|E]; [left; exact E|].
    right. right. split; [reflexivity|exact E].
  - destruct (Hsell H) as [E|E]; [left; exact E|].
    right. right. split; [reflexivity|exact E].
Qed.

Lemma closed_pnl_snoc (h : list Engine.TradeRecord) (r : Engine.TradeRecord) :
  EngineLedger.closed_pnl (h ++ [r])
  = EngineLedger.closed_pnl h
    ++ match Engine.pnl_realized r with Some p => [p] | None => [] end.
Proof.
  unfold EngineLedger.closed_pnl. rewrite flat_map_app. cbn [flat_map].
  rewrite app_nil_r. reflexivity.
Qed.

Lemma process_signal_ledger (cfg : Backtest.Config) (lot : Z)
      (st st' : Engine.EngineState) (sig : Strategy.Signal)
      (md : Engine.MarketData) :
  EngineLedger.ledger st ->
  Engine.process_signal cfg lot st sig md = Ok st' ->
  EngineLedger.ledger st'.
Proof.
  intros (Ht & Hr & He & Hc & Hp) H.
  destruct (process_signal_effect _ _ _ _ _ _ H)
    as [->|[(_ & Hnone & t & ->)
           |(_ & position & t & bid & Hpos & _ & _ & ->)]].
  - repeat split; assumption.
  - unfold EngineLedger.ledger.
    cbn [Engine.total_pnl Engine.day_stats Engine.trade_history
         Engine.trades_executed Engine.current_position].
    rewrite closed_pnl_snoc, rev_app_distr, length_app.
    cbn [Engine.pnl_realized Engine.position_after rev app length].
    rewrite app_nil_r, Nat2Z.inj_add.
    repeat split; try assumption. rewrite He. reflexivity.
  - unfold EngineLedger.ledger.
    cbn [Engine.total_pnl Engine.day_stats Engine.trade_history
         Engine.trades_executed Engine.current_position
         update_day_stats_on_close realized_pnl_rub trades_count].
    rewrite closed_pnl_snoc, rev_app_distr, !length_app.
    cbn [Engine.pnl_realized Engine.position_after rev app length].
    rewrite Qsum_snoc, !Nat2Z.inj_add. unfold close_pnl.
    repeat split.
    + rewrite Ht. reflexivity.
    + rewrite Hr. reflexivity.
    + rewrite He. reflexivity.
    + rewrite Hc. reflexivity.
Qed.

Lemma check_position_exits_effect (cfg : Backtest.Config) (lot : Z)
      (st st' : Engine.EngineState) (md : Engine.MarketData) (now : nat) :
  Engine.check_position_exits cfg lot st md now = Ok st' ->
  st' = st
  \/ exists (position : Position) (last : Q),
       Engine.current_position st = Some position
       /\ Engine.LAST md = Some last
       /\ action (check_exit_rules_for_long position (Some last)) <> NONE
       /\ Engine.process_signal cfg lot st
            {| Strategy.type := Strategy.CLOSE_LONG;
               Strategy.ts := now;
               Strategy.price := last;
               Strategy.reason :=
                 Risk.reason
                   (check_exit_rules_for_long position (Some last)) |}
            md = Ok st'.
Proof.
  unfold Engine.check_position_exits. intro H.
  destruct (Engine.current_position st) as [position|];
    [|left; inversion H; reflexivity].
  destruct (Engine.LAST md) as [last|]; [|left; inversion H; reflexivity].
  destruct (negb (truthy (Some last))); [left; inversion H; reflexivity|].
  destruct (action (check_exit_rules_for_long position (Some last))) eqn:Ea.
  - left. inversion H. reflexivity.
  - right. exists position, last. rewrite Ea.
    repeat split; [discriminate|exact H].
  - right. exists position, last. rewrite Ea.
    repeat split; [discriminate|exact H].
Qed.

Lemma process_signals_ledger (cfg : Backtest.Config) (lot : Z)
      (md : Engine.MarketData) (signals : list Strategy.Signal) :
  forall st st' : Engine.EngineState,
    EngineLedger.ledger st ->
    Engine.process_signals cfg lot st signals md = Ok st' ->
    EngineLedger.ledger st'.
Proof.
  induction signals as [|sig rest IH]; intros st st' Hl H; simpl in H.
  - inversion H; subst. exact Hl.
  - apply bind_ok in H. destruct H as (st1 & H1 & H2).
    apply (IH st1 st'); [|exact H2].
    apply (process_signal_ledger _ _ _ _ _ _ Hl H1).
Qed.

Lemma trading_iteration_ledger (cfg : Backtest.Config) (lot : Z)
      (st st' : Engine.EngineState) (candles_df : list Candle)
      (md : Engine.MarketData) (now : nat) :
  EngineLedger.ledger st ->
  Engine.trading_iteration cfg lot st candles_df md now = Ok st' ->
  EngineLedger.ledger st'.
Proof.
  intros Hl H. unfold Engine.trading_iteration in H.
  destruct (length candles_df <? 30)%nat; [inversion H; subst; exact Hl|].
  apply bind_ok in H. destruct H as (signals & _ & H).
  apply bind_ok in H. destruct H as (st1 & H1 & H2).
  pose proof (process_signals_ledger _ _ _ _ _ _ Hl H1) as Hl1.
  destruct (check_position_exits_effect _ _ _ _ _ _ H2)
    as [->|(position & last & _ & _ & _ & H3)]; [exact Hl1|].
  apply (process_signal_ledger _ _ _ _ _ _ Hl1 H3).
Qed.

(** X19.  The books of the trading engine agree with each other along
    any sequence of passes of the trading loop from a fresh engine that
    raise no exception: the session PnL is
    the sum of the realized results in the trade history and equals the
    realized PnL of the day statistics, [trades_executed] is the number of
    history records, the day's [trades_count] is the number of closing
    records only (entries are not counted), and a position is open
    exactly when the last record opened one.  Processing one signal and
    one pass of the loop keep them in agreement. *)
Theorem X19_engine_books_agree :
  forall (cfg : Backtest.Config) (lot : Z),
    (forall (st st' : Engine.EngineState) (sig : Strategy.Signal)
            (md : Engine.MarketData),
        EngineLedger.ledger st ->
        Engine.process_signal cfg lot st sig md = Ok st' ->
        EngineLedger.ledger st')
    /\ (forall (st st' : Engine.EngineState) (candles_df : list Candle)
               (md : Engine.MarketData) (now : nat),
          EngineLedger.ledger st ->
          Engine.trading_iteration cfg lot st candles_df md now = Ok st' ->
          EngineLedger.ledger st')
    /\ (forall (its : list (list Candle * Engine.MarketData * nat))
               (st : Engine.EngineState),
          EngineLedger.run_iterations cfg lot Engine.EngineState_init its
          = Ok st ->
          EngineLedger.ledger st).
Proof.
  intros cfg lot.
  split; [intros; eapply process_signal_ledger; eassumption|].
  split; [intros; eapply trading_iteration_ledger; eassumption|].
  intros its.
  assert (Hgen : forall st0 st : Engine.EngineState,
             EngineLedger.ledger st0 ->
             EngineLedger.run_iterations cfg lot st0 its = Ok st ->
             EngineLedger.ledger st).
  { induction its as [|[[candles_df md] now] rest IH]; intros st0 st Hl H;
      simpl in H.
    - inversion H; subst. exact Hl.
    - apply bind_ok in H. destruct H as (st1 & H1 & H2).
      apply (IH st1 st); [|exact H2].
      apply (trading_iteration_ledger _ _ _ _ _ _ _ Hl H1). }
  intros st H. apply (Hgen Engine.EngineState_init st); [|exact H].
  repeat split; reflexivity.
Qed.

(** Witness of X19: a fresh engine that processes the BUY of the round
    trip. *)
Lemma X19_engine_books_agree_witness :
  exists st' : Engine.EngineState,
    Engine.process_signal Sample.config 10 Engine.EngineState_init
                          Sample.buy_signal Sample.quotes_in = Ok st'
    /\ Engine.current_position st' <> None
    /\ EngineLedger.ledger st'.
Proof.
  destruct (Engine.process_signal Sample.config 10 Engine.EngineState_init
                                  Sample.buy_signal Sample.quotes_in)
    as [st'|e] eqn:E; [|vm_compute in E; discriminate].
  exists st'. split; [reflexivity|]. split.
  - vm_compute in E. inversion E. discriminate.
  - apply (proj1 (X19_engine_books_agree Sample.config 10)
                 Engine.EngineState_init st' Sample.buy_signal
                 Sample.quotes_in); [|exact E].
    repeat split; reflexivity.
Defined.



(** ** async_client.py, further *)

(** The retry loop from attempt [k] with [fuel] attempts left. *)
Lemma attempt_loop_spec (c : Client) (t : Z) (net : nat -> Attempt) :
  forall (fuel k : nat) (cb : CircuitBreakerState) (calls : nat),
    let o := attempt_loop c t net k fuel cb calls in
    (returned o = true ->
     exists j : nat,
       (j < fuel)%nat /\ net (k + j)%nat = Success
       /\ (forall i : nat, (i < j)%nat -> net (k + i)%nat <> Success)
       /\ network_calls o = (calls + j + 1)%nat)
    /\ (returned o = false ->
        (forall j : nat, (j < fuel)%nat -> net (k + j)%nat <> Success)
        /\ network_calls o = (calls + fuel)%nat
        /\ failures (breaker o)
           = (failures cb + RetrySpec.bad_replies net k fuel + 1)%Z
        /\ last_failure_time (breaker o) = Some t).
Proof.
  induction fuel as [|fuel IH]; intros k cb calls; cbn [attempt_loop].
  - cbv zeta. cbn [returned network_calls breaker RetrySpec.bad_replies].
    split; [discriminate|]. intros _.
    split; [intros j Hj; lia|]. split; [lia|].
    unfold record_failure. cbn [failures last_failure_time].
    split; [lia|reflexivity].
  - cbv zeta. cbn [RetrySpec.bad_replies].
    destruct (net k) eqn:En.
    + cbn [returned network_calls breaker]. split; [|discriminate].
      intros _. exists 0%nat. rewrite Nat.add_0_r.
      split; [lia|]. split; [exact En|]. split; [intros i Hi; lia|lia].
    + specialize (IH (S k) (record_failure c t cb) (S calls)).
      cbv zeta in IH. destruct IH as [IHt IHf]. split.
      * intro Hr. destruct (IHt Hr) as (j & Hj & Hs & Hbefore & Hcalls).
        exists (S j). split; [lia|].
        replace (k + S j)%nat with (S k + j)%nat by lia.
        split; [exact Hs|]. split; [|lia].
        intros [|i] Hi; [rewrite Nat.add_0_r, En; discriminate|].
        replace (k + S i)%nat with (S k + i)%nat by lia.
        apply Hbefore. lia.
      * intro Hr. destruct (IHf Hr) as (Hnone & Hcalls & Hfail & Htime).
        split.
        { intros [|j] Hj; [rewrite Nat.add_0_r, En; discriminate|].
          replace (k + S j)%nat with (S k + j)%nat by lia.
          apply Hnone. lia. }
        split; [lia|]. split; [|exact Htime].
        rewrite Hfail. unfold record_failure. cbn [failures]. lia.
    + specialize (IH (S k) cb (S calls)).
      cbv zeta in IH. destruct IH as [IHt IHf]. split.
      * intro Hr. destruct (IHt Hr) as (j & Hj & Hs & Hbefore & Hcalls).
        exists (S j). split; [lia|].
        replace (k + S j)%nat with (S k + j)%nat by lia.
        split; [exact Hs|]. split; [|lia].
        intros [|i] Hi; [rewrite Nat.add_0_r, En; discriminate|].
        replace (k + S i)%nat with (S k + i)%nat by lia.
        apply Hbefore. lia.
      * intro Hr. destruct (IHf Hr) as (Hnone & Hcalls & Hfail & Htime).
        split.
        { intros [|j] Hj; [rewrite Nat.add_0_r, En; discriminate|].
          replace (k + S j)%nat with (S k + j)%nat by lia.
          apply Hnone. lia. }
        split; [lia|]. split; [|exact Htime].
        rewrite Hfail. lia.
Qed.

Lemma check_keeps_failures (c : Client) (now : Z) (cb : CircuitBreakerState) :
  failures (snd (check_circuit_breaker c now cb)) = failures cb.
Proof.
  unfold check_circuit_breaker.
  destruct (state cb); [reflexivity| |reflexivity].
  destruct (_ <? _)%Z; reflexivity.
Qed.

(** X21.  One call of [_request_json].  Refused by the breaker it makes
    no network call and leaves the breaker as it is.  Allowed, it makes
    between 1 and retries + 1 network calls; it returns data exactly when
    one of the first retries + 1 attempts gets a good reply, and then
    stops at the first such attempt; otherwise it raises after
    retries + 1 calls and has added one failure for every bad reply plus
    one for giving up to the breaker's count (so a single call can add up
    to retries + 2 failures), stamped with the time of the failure. *)
Theorem X21_request_json_retries :
  forall (c : Client) (now t : Z) (net : nat -> Attempt)
         (cb : CircuitBreakerState),
    let o := request_json c now t net cb in
    (fst (check_circuit_breaker c now cb) = false ->
     returned o = false /\ network_calls o = 0%nat /\ breaker o = cb)
    /\ (fst (check_circuit_breaker c now cb) = true ->
        (1 <= network_calls o <= retries c + 1)%nat
        /\ (returned o = true <->
            exists j : nat, (j <= retries c)%nat /\ net j = Success)
        /\ (returned o = true ->
            net (network_calls o - 1)%nat = Success
            /\ forall i : nat,
                 (i < network_calls o - 1)%nat -> net i <> Success)
        /\ (returned o = false ->
            network_calls o = (retries c + 1)%nat
            /\ failures (breaker o)
               = (failures cb
                  + RetrySpec.bad_replies net 0 (retries c + 1) + 1)%Z
            /\ (failures cb + 1 <= failures (breaker o)
                <= failures cb + Z.of_nat (retries c) + 2)%Z
            /\ last_failure_time (breaker o) = Some t)).
Proof.
  intros c now t net cb. cbv zeta. unfold request_json.
  pose proof (check_keeps_failures c now cb) as Hkeep.
  destruct (check_circuit_breaker c now cb) as [allowed cb1] eqn:Ec.
  cbn [fst snd] in *. split.
  - intros ->. cbn [returned network_calls breaker].
    split; [reflexivity|]. split; [reflexivity|].
    unfold check_circuit_breaker in Ec.
    destruct (state cb); try (inversion Ec; reflexivity).
    destruct (_ <? _)%Z; inversion Ec. reflexivity.
  - intros ->.
    pose proof (attempt_loop_spec c t net (S (retries c)) 0 cb1 0) as Hs.
    cbv zeta in Hs. destruct Hs as [Ht Hf].
    set (o := attempt_loop c t net 0 (S (retries c)) cb1 0) in *.
    assert (Hbad : forall n k,
               (0 <= RetrySpec.bad_replies net k n <= Z.of_nat n)%Z).
    { induction n as [|n IHn]; intro k; cbn [RetrySpec.bad_replies].
      - simpl. lia.
      - specialize (IHn (S k)). rewrite Nat2Z.inj_succ.
        destruct (net k); lia. }
    split.
    { destruct (returned o) eqn:Er.
      - destruct (Ht eq_refl) as (j & Hj & _ & _ & Hc). lia.
      - destruct (Hf eq_refl) as (_ & Hc & _). lia. }
    split.
    { split.
      - intro Hr. destruct (Ht Hr) as (j & Hj & Hsucc & _).
        exists j. split; [lia|exact Hsucc].
      - intros (j & Hj & Hsucc).
        destruct (returned o) eqn:Er; [reflexivity|].
        destruct (Hf eq_refl) as (Hnone & _).
        exfalso. apply (Hnone j); [lia|exact Hsucc]. }
    split.
    { intro Hr. destruct (Ht Hr) as (j & Hj & Hsucc & Hbefore & Hc).
      rewrite Hc. replace (0 + j + 1 - 1)%nat with j by lia.
      split; [exact Hsucc|exact Hbefore]. }
    intro Hr. destruct (Hf Hr) as (_ & Hc & Hfail & Htime).
    rewrite Hkeep in Hfail.
    replace (retries c + 1)%nat with (S (retries c)) by lia.
    split; [lia|]. split; [exact Hfail|]. split; [|exact Htime].
    specialize (Hbad (S (retries c)) 0%nat).
    rewrite Nat2Z.inj_succ in Hbad. lia.
Qed.

(** Witness of X21: with three retries a closed breaker lets a request
    through that succeeds at its third attempt; one answered by bad
    replies only adds five failures. *)
Lemma X21_request_json_retries_witness :
  let c := {| circuit_breaker_threshold := 10;
              circuit_breaker_timeout := 60; retries := 3 |} in
  returned (request_json c 0 0 RetrySpec.third_time
                         CircuitBreakerState_default) = true
  /\ failures (breaker (request_json c 0 7 RetrySpec.always_bad
                                     CircuitBreakerState_default)) = 5%Z.
Proof.
  intro c. split.
  - destruct (proj2 (X21_request_json_retries
                       c 0 0 RetrySpec.third_time
                       CircuitBreakerState_default) eq_refl)
      as (_ & Hiff & _).
    apply Hiff. exists 2%nat. split; [simpl; lia|reflexivity].
  - destruct (proj2 (X21_request_json_retries
                       c 0 7 RetrySpec.always_bad
                       CircuitBreakerState_default) eq_refl)
      as (_ & _ & _ & H).
    destruct (H eq_refl) as (_ & Hfail & _). rewrite Hfail. reflexivity.
Defined.

(** ** metrics/performance.py *)

(** Row [k] of the running maximum started at [m] is [m] or one of the
    values up to row [k], and bounds them all. *)
Lemma cummax_from_spec (l : list Q) :
  forall (m : Q) (k : nat),
    (k < length l)%nat ->
    let M := nth k (Metrics.cummax_from m l) 0 in
    (M = m \/ exists i, (i <= k)%nat /\ M = nth i l 0)
    /\ m <= M
    /\ forall i, (i <= k)%nat -> nth i l 0 <= M.
Proof.
  induction l as [|y l IH]; intros m k Hk; [simpl in Hk; lia|].
  cbn [Metrics.cummax_from]. cbv zeta. destruct k as [|k]; cbn [nth].
  - split; [|split].
    + destruct (Qmax_cases m y) as [[_ ->]|[_ ->]];
        [right; exists 0%nat; split; [lia|reflexivity]|left; reflexivity].
    + apply Q.le_max_l.
    + intros i Hi. assert (i = 0%nat) by lia. subst i. apply Q.le_max_r.
  - assert (Hk' : (k < length l)%nat) by (simpl in Hk; lia).
    destruct (IH (Qmax m y) k Hk') as (Hin & Hle & Hall).
    split; [|split].
    + destruct Hin as [E|(i & Hi & E)].
      * rewrite E.
        destruct (Qmax_cases m y) as [[_ ->]|[_ ->]];
          [right; exists 0%nat; split; [lia|reflexivity]|left; reflexivity].
      * right. exists (S i). split; [lia|exact E].
    + apply Qle_trans with (Qmax m y); [apply Q.le_max_l|exact Hle].
    + intros [|i] Hi.
      * apply Qle_trans with (Qmax m y); [apply Q.le_max_r|exact Hle].
      * apply Hall. lia.
Qed.

Lemma cummax_from_length (l : list Q) :
  forall m : Q, length (Metrics.cummax_from m l) = length l.
Proof.
  induction l as [|y l IH]; intro m; simpl; [reflexivity|].
  rewrite IH. reflexivity.
Qed.

Lemma cummax_length (e : list Q) : length (Metrics.cummax e) = length e.
Proof.
  destruct e as [|x t]; simpl; [reflexivity|].
  rewrite cummax_from_length. reflexivity.
Qed.

(** Row [k] of [cummax] is one of the values up to row [k] and bounds
    them all. *)
Lemma cummax_spec (e : list Q) (k : nat) :
  (k < length e)%nat ->
  let M := nth k (Metrics.cummax e) 0 in
  (exists i, (i <= k)%nat /\ M = nth i e 0)
  /\ forall i, (i <= k)%nat -> nth i e 0 <= M.
Proof.
  intro Hk. destruct e as [|x t]; [simpl in Hk; lia|].
  cbn [Metrics.cummax]. cbv zeta. destruct k as [|k]; cbn [nth].
  - split; [exists 0%nat; split; [lia|reflexivity]|].
    intros i Hi. assert (i = 0%nat) by lia. subst i. apply Qle_refl.
  - assert (Hk' : (k < length t)%nat) by (simpl in Hk; lia).
    destruct (cummax_from_spec t x k Hk') as (Hin & Hle & Hall).
    split.
    + destruct Hin as [E|(i & Hi & E)].
      * exists 0%nat. split; [lia|exact E].
      * exists (S i). split; [lia|exact E].
    + intros [|i] Hi; [exact Hle|apply Hall; lia].
Qed.

Lemma nth_sub_combine (a b : list Q) (k : nat) :
  length a = length b -> (k < length b)%nat ->
  nth k (map (fun '(m, x) => m - x) (combine a b)) 0 = nth k a 0 - nth k b 0.
Proof.
  intros Hlen Hk.
  set (f := fun '(m, x) => m - x : Q).
  rewrite (nth_indep _ 0 (f (0, 0)))
    by (rewrite length_map, length_combine; lia).
  rewrite (map_nth f). rewrite combine_nth by exact Hlen. reflexivity.
Qed.

(** X22.  [max_drawdown] over the non-NaN points of an equity curve is
    never negative, is at least every drop from an earlier point to a
    later one, is the drop between two such points when the curve is not
    empty, and is zero on a curve that never falls. *)
Theorem X22_max_drawdown_is_largest_drop :
  forall equity_curve : list (option Q),
    let e := observations equity_curve in
    let mdd := Metrics.max_drawdown equity_curve in
    0 <= mdd
    /\ (forall i j : nat,
          (i <= j < length e)%nat -> nth i e 0 - nth j e 0 <= mdd)
    /\ (e <> [] ->
        exists i j : nat,
          (i <= j < length e)%nat /\ mdd = nth i e 0 - nth j e 0)
    /\ ((forall i j : nat,
            (i <= j < length e)%nat -> nth i e 0 <= nth j e 0) ->
        mdd == 0).
Proof.
  intro equity_curve. cbv zeta. unfold Metrics.max_drawdown.
  set (e := observations equity_curve).
  destruct e as [|x t] eqn:Ee.
  - split; [discriminate|]. split; [intros i j Hij; simpl in Hij; lia|].
    split; [congruence|]. intros _. reflexivity.
  - rewrite <- Ee. cbv zeta.
    set (dd := map (fun '(m, x) => m - x) (combine (Metrics.cummax e) e)).
    assert (Hlen : length dd = length e).
    { unfold dd. rewrite length_map, length_combine, cummax_length. lia. }
    assert (Hnth : forall k, (k < length e)%nat ->
                     nth k dd 0 = nth k (Metrics.cummax e) 0 - nth k e 0).
    { intros k Hk. unfold dd.
      apply nth_sub_combine; [apply cummax_length|exact Hk]. }
    destruct (list_max dd) as [mdd|] eqn:Em.
    2:{ exfalso. destruct dd; [|discriminate].
        rewrite Ee in Hlen. simpl in Hlen. lia. }
    destruct (list_max_spec dd mdd Em) as [Hin Hall].
    assert (Hbound : forall i j : nat,
               (i <= j < length e)%nat -> nth i e 0 - nth j e 0 <= mdd).
    { intros i j [Hij Hj].
      destruct (cummax_spec e j Hj) as [_ Hle]. cbv zeta in Hle.
      specialize (Hle i Hij).
      assert (Hd : nth j dd 0 <= mdd)
        by (apply Hall, nth_In; lia).
      rewrite (Hnth j Hj) in Hd. lra. }
    assert (Hatt : exists i j : nat,
               (i <= j < length e)%nat /\ mdd = nth i e 0 - nth j e 0).
    { destruct (In_nth dd mdd 0 Hin) as (j & Hj & E).
      rewrite Hlen in Hj. rewrite (Hnth j Hj) in E.
      destruct (cummax_spec e j Hj) as [(i & Hi & EM) _]. cbv zeta in EM.
      exists i, j. split; [lia|]. rewrite <- E, EM. reflexivity. }
    split; [|split; [exact Hbound|split; [intros _; exact Hatt|]]].
    + assert (H0 : nth 0 e 0 - nth 0 e 0 <= mdd)
        by (apply Hbound; rewrite Ee; simpl; lia).
      lra.
    + intro Hmono. destruct Hatt as (i & j & Hij & E).
      specialize (Hmono i j Hij).
      assert (H0 : nth 0 e 0 - nth 0 e 0 <= mdd)
        by (apply Hbound; rewrite Ee; simpl; lia).
      rewrite E in *. lra.
Qed.

(** Witness of X22: on the curve 10, 12, 9, NaN, 11 the drawdown is at
    least the drop from 12 to 9. *)
Lemma X22_max_drawdown_is_largest_drop_witness :
  12 - 9 <= Metrics.max_drawdown [Some 10; Some 12; Some 9; None; Some 11].
Proof.
  apply (proj1 (proj2 (X22_max_drawdown_is_largest_drop
                         [Some 10; Some 12; Some 9; None; Some 11]))
               1%nat 2%nat).
  simpl. lia.
Defined.

Lemma filter_length_le_all {A} (f : A -> bool) (l : list A) :
  (length (filter f l) <= length l)%nat
  /\ (length (filter f l) = length l <-> forall x, In x l -> f x = true)
  /\ (length (filter f l) = 0%nat <-> forall x, In x l -> f x = false).
Proof.
  induction l as [|a l (Hle & Hall & Hnone)]; cbn [filter length In].
  - split; [lia|]. split; split; intros; try reflexivity; contradiction.
  - destruct (f a) eqn:E; cbn [length].
    + split; [lia|]. split; split.
      * intros H x [Hx|Hx]; [subst x; exact E|].
        apply Hall; [lia|exact Hx].
      * intro H. f_equal. apply Hall. intros x Hx. apply H. right. exact Hx.
      * intro H. lia.
      * intro H. specialize (H a (or_introl eq_refl)). congruence.
    + split; [lia|]. split; split.
      * intro H. lia.
      * intro H. specialize (H a (or_introl eq_refl)). congruence.
      * intros H x [Hx|Hx]; [subst x; exact E|].
        apply Hnone; [exact H|exact Hx].
      * intro H. apply Hnone. intros x Hx. apply H. right. exact Hx.
Qed.

(** X23.  [win_rate] is a share: it lies between 0 and 1, is 0 exactly
    when no non-NaN result is positive (a break-even trade is not a win;
    an empty or all-NaN column gives 0), and is 1 exactly when there is a
    non-NaN result and all of them are positive. *)
Theorem X23_win_rate_is_a_share :
  forall pnl : list (option Q),
    let results := observations pnl in
    0 <= Metrics.win_rate pnl <= 1
    /\ (Metrics.win_rate pnl == 0 <->
        forall x, In x results -> x <= 0)
    /\ (Metrics.win_rate pnl == 1 <->
        results <> [] /\ forall x, In x results -> 0 < x).
Proof.
  intro pnl. cbv zeta. unfold Metrics.win_rate.
  destruct (observations pnl) as [|x t] eqn:Eo.
  - split; [split; discriminate|]. split.
    + split; [intros _ y []|reflexivity].
    + split; [discriminate|]. intros [H _]. contradiction.
  - rewrite <- Eo. cbv zeta.
    set (obs := observations pnl) in *.
    set (pos := fun y => Qlt_bool 0 y).
    destruct (filter_length_le_all pos obs) as (Hle & Hall & Hnone).
    set (w := length (filter pos obs)) in *.
    assert (Hn : (0 < length obs)%nat) by (rewrite Eo; simpl; lia).
    set (W := inject_Z (Z.of_nat w)).
    set (N := inject_Z (Z.of_nat (length obs))).
    assert (HN : 0 < N).
    { unfold N. change 0 with (inject_Z 0). rewrite <- Zlt_Qlt. lia. }
    assert (HW : 0 <= W).
    { unfold W. change 0 with (inject_Z 0). rewrite <- Zle_Qle. lia. }
    assert (HWN : W <= N).
    { unfold W, N. rewrite <- Zle_Qle. lia. }
    assert (E : W / N * N == W) by (field; lra).
    split; [split|split].
    + apply Qle_shift_div_l; [exact HN|lra].
    + apply Qle_shift_div_r; [exact HN|lra].
    + split.
      * intros H0 y Hy. rewrite H0 in E.
        assert (Hw : w = 0%nat).
        { assert (HW0 : W == inject_Z 0) by (rewrite <- E; ring).
          unfold W in HW0. apply -> inject_Z_injective in HW0.
          apply Nat2Z.inj. exact HW0. }
        apply Qlt_bool_false. apply (proj1 Hnone Hw y Hy).
      * intro H.
        assert (Hw : w = 0%nat).
        { apply Hnone. intros y Hy. apply Qlt_bool_false. apply H. exact Hy. }
        unfold W. rewrite Hw. reflexivity.
    + split.
      * intro H1. rewrite H1 in E. split; [rewrite Eo; discriminate|].
        assert (Hw : w = length obs).
        { assert (HWN' : W == N) by (rewrite <- E; ring).
          unfold W, N in HWN'. apply -> inject_Z_injective in HWN'.
          apply Nat2Z.inj. exact HWN'. }
        intros y Hy. apply Qlt_bool_true. apply (proj1 Hall Hw y Hy).
      * intros [_ H].
        assert (Hw : w = length obs).
        { apply Hall. intros y Hy. apply Qlt_bool_true. apply H. exact Hy. }
        unfold W. rewrite Hw. fold N. field. lra.
Qed.

(** Witness of X23: two wins, a loss and a NaN give a share within
    [0, 1]; wins only give 1. *)
Lemma X23_win_rate_is_a_share_witness :
  0 <= Metrics.win_rate [Some 5; Some (-3); None; Some 2] <= 1
  /\ Metrics.win_rate [Some 5; None; Some 2] == 1.
Proof.
  split.
  - apply (proj1 (X23_win_rate_is_a_share
                    [Some 5; Some (-3); None; Some 2])).
  - apply (proj2 (proj2 (X23_win_rate_is_a_share [Some 5; None; Some 2]))).
    split; [discriminate|].
    intros x [<-|[<-|[]]]; reflexivity.
Defined.

Lemma fold_left_Qplus_acc (l : list Q) :
  forall a : Q, fold_left Qplus l a == a + Qsum l.
Proof.
  unfold Qsum. induction l as [|y l IH]; intro a; cbn [fold_left].
  - ring.
  - rewrite (IH (a + y)), (IH (0 + y)). ring.
Qed.

Lemma cumsum_from_nth (l : list Q) :
  forall (acc : Q) (k : nat),
    (k < length l)%nat ->
    nth k (Metrics.cumsum_from acc l) 0 == acc + Qsum (firstn (S k) l).
Proof.
  induction l as [|y l IH]; intros acc k Hk; [simpl in Hk; lia|].
  cbn [Metrics.cumsum_from]. destruct k as [|k]; cbn [nth].
  - cbn [firstn]. unfold Qsum. cbn [fold_left]. ring.
  - rewrite IH by (simpl in Hk; lia).
    change (firstn (S (S k)) (y :: l)) with (y :: firstn (S k) l).
    unfold Qsum at 2. cbn [fold_left].
    rewrite (fold_left_Qplus_acc _ (0 + y)). ring.
Qed.

Lemma cumsum_from_length (l : list Q) :
  forall acc : Q, length (Metrics.cumsum_from acc l) = length l.
Proof.
  induction l as [|y l IH]; intro acc; simpl; [reflexivity|].
  rewrite IH. reflexivity.
Qed.

(** X24.  [equity_from_trades] has one point per trade; point [k] is the
    start equity plus the results of trades 0 .. k, a NaN result counting
    as 0, so the last point is the start equity plus all results. *)
Theorem X24_equity_curve_is_running_total :
  forall (pnl : list (option Q)) (start_equity : Q),
    let eq := Metrics.equity_from_trades pnl start_equity in
    length eq = length pnl
    /\ (forall k : nat,
          (k < length pnl)%nat ->
          nth k eq 0
          == start_equity + Qsum (firstn (S k) (Metrics.fillna0 pnl)))
    /\ (pnl <> [] ->
        nth (length pnl - 1) eq 0
        == start_equity + Qsum (Metrics.fillna0 pnl)).
Proof.
  intros pnl start_equity. cbv zeta.
  unfold Metrics.equity_from_trades.
  set (p := Metrics.fillna0 pnl).
  assert (Hp : length p = length pnl)
    by (unfold p, Metrics.fillna0; apply length_map).
  assert (Hlen : length (Metrics.cumsum p) = length p).
  { destruct p as [|x t]; simpl; [reflexivity|].
    rewrite cumsum_from_length. reflexivity. }
  assert (Hnth : forall k : nat,
             (k < length pnl)%nat ->
             nth k (map (fun c => c + start_equity) (Metrics.cumsum p)) 0
             == start_equity + Qsum (firstn (S k) p)).
  { intros k Hk.
    rewrite (nth_indep _ 0 ((fun c => c + start_equity) 0))
      by (rewrite length_map; lia).
    rewrite (map_nth (fun c => c + start_equity)).
    destruct p as [|x t]; [simpl in Hp; lia|].
    cbn [Metrics.cumsum]. destruct k as [|k]; cbn [nth].
    - cbn [firstn]. unfold Qsum. cbn [fold_left]. ring.
    - rewrite cumsum_from_nth by (simpl in Hp; lia).
      change (firstn (S (S k)) (x :: t)) with (x :: firstn (S k) t).
      unfold Qsum at 2. cbn [fold_left].
      rewrite (fold_left_Qplus_acc _ (0 + x)). ring. }
  split; [rewrite length_map; lia|]. split; [exact Hnth|].
  intro Hne.
  assert (Hpos : (0 < length pnl)%nat)
    by (destruct pnl; [contradiction|simpl; lia]).
  rewrite Hnth by lia.
  replace (S (length pnl - 1)) with (length p) by lia.
  rewrite firstn_all. reflexivity.
Qed.

(** Witness of X24: three trades from a start equity of 100. *)
Lemma X24_equity_curve_is_running_total_witness :
  nth 2 (Metrics.equity_from_trades [Some 5; None; Some (-2)] 100) 0
  == 100 + Qsum (Metrics.fillna0 [Some 5; None; Some (-2)]).
Proof.
  apply (proj2 (proj2 (X24_equity_curve_is_running_total
                         [Some 5; None; Some (-2)] 100))).
  discriminate.
Defined.

(** ** utils/time_utils.py *)

Lemma micros_range (t : TimeUtils.time) :
  TimeUtils.valid_time t -> (0 <= TimeUtils.micros t < 86400000000)%Z.
Proof.
  unfold TimeUtils.valid_time, TimeUtils.micros. lia.
Qed.

(** X25.  The session clock, for valid times of day.
    [seconds_until_session_end] is never negative; it is 0 whenever
    [is_trading_time] is false; inside the session it is the whole number
    of seconds left to the session end, rounded down, below one day, so a
    positive value implies [is_trading_time], while in the last second of
    the session, the end included, it is already 0. *)
Theorem X25_session_clock :
  forall (now : TimeUtils.datetime) (start_t end_t : TimeUtils.time),
    TimeUtils.valid_datetime now ->
    TimeUtils.valid_time start_t ->
    TimeUtils.valid_time end_t ->
    let s := TimeUtils.seconds_until_session_end now start_t end_t in
    let left := (TimeUtils.micros end_t
                 - TimeUtils.micros (TimeUtils.time_of now))%Z in
    (0 <= s < 86400)%Z
    /\ (TimeUtils.is_trading_time now start_t end_t = false -> s = 0%Z)
    /\ (TimeUtils.is_trading_time now start_t end_t = true ->
        (0 <= left /\ s * 1000000 <= left < (s + 1) * 1000000)%Z)
    /\ ((0 < s)%Z -> TimeUtils.is_trading_time now start_t end_t = true).
Proof.
  intros now start_t end_t Hnow Hs He. cbv zeta.
  assert (Hn : TimeUtils.valid_time (TimeUtils.time_of now)) by exact Hnow.
  pose proof (micros_range _ Hn) as Rn.
  pose proof (micros_range _ Hs) as Rs.
  pose proof (micros_range _ He) as Re.
  unfold TimeUtils.seconds_until_session_end, TimeUtils.is_trading_time,
    TimeUtils.time_lt, TimeUtils.time_le.
  set (n := TimeUtils.micros (TimeUtils.time_of now)) in *.
  set (a := TimeUtils.micros start_t) in *.
  set (b := TimeUtils.micros end_t) in *.
  destruct (n <? a)%Z eqn:E1; destruct (b <? n)%Z eqn:E2;
    destruct (a <=? n)%Z eqn:E3; destruct (n <=? b)%Z eqn:E4;
    cbn [orb andb];
    try apply Z.ltb_lt in E1; try apply Z.ltb_ge in E1;
    try apply Z.ltb_lt in E2; try apply Z.ltb_ge in E2;
    try apply Z.leb_le in E3; try apply Z.leb_gt in E3;
    try apply Z.leb_le in E4; try apply Z.leb_gt in E4;
    try lia;
    try (split; [lia|]; split; [reflexivity|];
         split; [discriminate|lia]).
  assert (Hq : (0 <= b - n)%Z) by lia.
  rewrite Z.quot_div_nonneg by lia.
  pose proof (Z.div_mod (b - n) 1000000 ltac:(lia)) as Hd.
  pose proof (Z.mod_pos_bound (b - n) 1000000 ltac:(lia)) as Hm.
  assert (H0 : (0 <= (b - n) / 1000000)%Z) by (apply Z.div_pos; lia).
  rewrite Z.max_r by exact H0.
  split; [lia|]. split; [discriminate|]. split; [intros _; lia|].
  intros _. reflexivity.
Qed.

(** Witness of X25: at 12:03:30.5 in the session 10:00 - 18:40 there are
    23789 whole seconds left. *)
Lemma X25_session_clock_witness :
  TimeUtils.is_trading_time ClockSample.noon ClockSample.session_start
                            ClockSample.session_end = true
  /\ (0 <= TimeUtils.seconds_until_session_end
             ClockSample.noon ClockSample.session_start
             ClockSample.session_end < 86400)%Z.
Proof.
  split; [reflexivity|].
  apply (X25_session_clock ClockSample.noon ClockSample.session_start
                           ClockSample.session_end);
    unfold TimeUtils.valid_datetime, TimeUtils.valid_time;
    repeat split; (discriminate || reflexivity).
Defined.

(** X26.  [next_candle_close_ts] for a valid [now] and a positive
    interval returns a valid time on a whole minute that is strictly
    later than [now].  Unless the hour is 23 and the minute rolls over, it
    is at most [interval_minutes] minutes ahead, and its minute is the
    next multiple of the interval, or 0 after a rollover into the next
    hour.  At hour 23 with a rollover it is 23:00 of the next day (not
    midnight), more than 23 hours ahead.  A zero interval raises
    ZeroDivisionError. *)
Theorem X26_next_candle_close :
  forall (now : TimeUtils.datetime) (interval_minutes : Z),
    (TimeUtils.next_candle_close_ts now 0 = Raise ZeroDivisionError)
    /\ (TimeUtils.valid_datetime now ->
        (0 < interval_minutes)%Z ->
        let next_minute :=
          ((TimeUtils.minute now / interval_minutes + 1)
           * interval_minutes)%Z in
        exists d : TimeUtils.datetime,
          TimeUtils.next_candle_close_ts now interval_minutes = Ok d
          /\ TimeUtils.valid_datetime d
          /\ TimeUtils.second d = 0%Z /\ TimeUtils.microsecond d = 0%Z
          /\ (TimeUtils.stamp now < TimeUtils.stamp d)%Z
          /\ (TimeUtils.minute now < next_minute
              <= TimeUtils.minute now + interval_minutes)%Z
          /\ ((next_minute < 60)%Z ->
              TimeUtils.minute d = next_minute
              /\ TimeUtils.hour d = TimeUtils.hour now
              /\ TimeUtils.date d = TimeUtils.date now)
          /\ ((60 <= next_minute)%Z -> (TimeUtils.hour now < 23)%Z ->
              TimeUtils.minute d = 0%Z
              /\ TimeUtils.hour d = (TimeUtils.hour now + 1)%Z
              /\ TimeUtils.date d = TimeUtils.date now)
          /\ ((next_minute < 60 \/ TimeUtils.hour now < 23)%Z ->
              (TimeUtils.stamp d - TimeUtils.stamp now
               <= interval_minutes * 60000000)%Z)
          /\ ((60 <= next_minute)%Z -> TimeUtils.hour now = 23%Z ->
              TimeUtils.minute d = 0%Z /\ TimeUtils.hour d = 23%Z
              /\ TimeUtils.date d = (TimeUtils.date now + 1)%Z
              /\ (23 * 3600000000
                  < TimeUtils.stamp d - TimeUtils.stamp now)%Z)).
Proof.
  intros now interval_minutes. split; [reflexivity|].
  intros (Hh & Hm & Hs & Hu) Hi. cbv zeta.
  unfold TimeUtils.next_candle_close_ts, floordiv.
  assert (Ei : (interval_minutes =? 0)%Z = false) by (apply Z.eqb_neq; lia).
  rewrite Ei. cbv beta iota zeta delta [bind].
  set (q := (TimeUtils.minute now / interval_minutes)%Z).
  pose proof (Z.div_mod (TimeUtils.minute now) interval_minutes
                        ltac:(lia)) as Hd.
  pose proof (Z.mod_pos_bound (TimeUtils.minute now) interval_minutes Hi)
    as Hr.
  fold q in Hd.
  set (r := (TimeUtils.minute now mod interval_minutes)%Z) in *.
  assert (Hq : (0 <= q)%Z) by (apply Z.div_pos; lia).
  set (m0 := ((q + 1) * interval_minutes)%Z).
  assert (Hm0 : m0 = (TimeUtils.minute now - r + interval_minutes)%Z)
    by (unfold m0; lia).
  assert (Hpos : (TimeUtils.minute now < m0
                  <= TimeUtils.minute now + interval_minutes)%Z) by lia.
  destruct (60 <=? m0)%Z eqn:Eroll.
  - apply Z.leb_le in Eroll.
    destruct (24 <=? TimeUtils.hour now + 1)%Z eqn:Eday;
      cbn [andb negb]; change (0 <? 0)%Z with false; cbv iota.
    + apply Z.leb_le in Eday. eexists. split; [reflexivity|].
      unfold TimeUtils.valid_datetime, TimeUtils.stamp, TimeUtils.micros,
        TimeUtils.time_of.
      cbn [TimeUtils.date TimeUtils.hour TimeUtils.minute TimeUtils.second
           TimeUtils.microsecond TimeUtils.t_hour TimeUtils.t_minute
           TimeUtils.t_second TimeUtils.t_microsecond].
      repeat split; try lia.
    + apply Z.leb_gt in Eday. eexists. split; [reflexivity|].
      unfold TimeUtils.valid_datetime, TimeUtils.stamp, TimeUtils.micros,
        TimeUtils.time_of.
      cbn [TimeUtils.date TimeUtils.hour TimeUtils.minute TimeUtils.second
           TimeUtils.microsecond TimeUtils.t_hour TimeUtils.t_minute
           TimeUtils.t_second TimeUtils.t_microsecond].
      repeat split; try lia.
  - apply Z.leb_gt in Eroll. cbn [andb negb].
    assert (Eneg : (m0 <? 0)%Z = false) by (apply Z.ltb_ge; lia).
    rewrite Eneg. eexists. split; [reflexivity|].
    unfold TimeUtils.valid_datetime, TimeUtils.stamp, TimeUtils.micros,
      TimeUtils.time_of.
    cbn [TimeUtils.date TimeUtils.hour TimeUtils.minute TimeUtils.second
         TimeUtils.microsecond TimeUtils.t_hour TimeUtils.t_minute
         TimeUtils.t_second TimeUtils.t_microsecond].
    repeat split; try lia.
Qed.

(** Witness of X26: five-minute candles at 12:03:30.5 close next at 12:05,
    and at 23:57:10 the function answers 23:00 of the next day. *)
Lemma X26_next_candle_close_witness :
  TimeUtils.next_candle_close_ts ClockSample.noon 5
  = Ok {| TimeUtils.date := 7; TimeUtils.hour := 12; TimeUtils.minute := 5;
          TimeUtils.second := 0; TimeUtils.microsecond := 0 |}
  /\ exists d : TimeUtils.datetime,
       TimeUtils.next_candle_close_ts ClockSample.late 5 = Ok d
       /\ TimeUtils.hour d = 23%Z
       /\ TimeUtils.date d = 8%Z.
Proof.
  split; [reflexivity|].
  assert (Hv : TimeUtils.valid_datetime ClockSample.late)
    by (unfold TimeUtils.valid_datetime;
        repeat split; (discriminate || reflexivity)).
  destruct (proj2 (X26_next_candle_close ClockSample.late 5) Hv ltac:(lia))
    as (d & Hd & _ & _ & _ & _ & _ & _ & _ & _ & Hlate).
  exists d. split; [exact Hd|].
  destruct Hlate as (_ & Hh & Hdate & _);
    [vm_compute; discriminate|reflexivity|].
  split; [exact Hh|exact Hdate].
Defined.
